(** * Run engine, run-queue key producer and managed run controller

    A shallow embedding of three pieces of the repository:

    - [KeyProducer]: [RunQueueShortKeyProducer], the naming scheme of the
      run queue's keys;
    - [RunEngine]: the [RunEngine] class (trigger, waitpoints, execution
      snapshots and their heartbeats);
    - [Runner]: the phase machine of [ManagedRunController].

    Definitions come first, the properties proved about them follow. *)

From Stdlib Require Import ZArith NArith Arith List String Ascii Bool Lia.
Import ListNotations.

(* ================================================================= *)
(** ** Key producer *)

Module KeyProducer.

(** A JavaScript string is a sequence of UTF-16 code units. *)
Definition js_string := list N.

(** An ASCII literal as a JavaScript string. *)
Definition lit (s : string) : js_string :=
  map N_of_ascii (list_ascii_of_string s).

Definition COLON : N := 58.

(** The [constants] object. *)
Definition SHARED_QUEUE := lit "sharedQueue".
Definition CURRENT_CONCURRENCY_PART := lit "currentConcurrency".
Definition CONCURRENCY_LIMIT_PART := lit "concurrency".
Definition DISABLED_CONCURRENCY_LIMIT_PART := lit "disabledConcurrency".
Definition ENV_PART := lit "env".
Definition ENV_TYPE_PART := lit "envType".
Definition ORG_PART := lit "org".
Definition PROJECT_PART := lit "proj".
Definition QUEUE_PART := lit "queue".
Definition CONCURRENCY_KEY_PART := lit "ck".
Definition TASK_PART := lit "task".
Definition MESSAGE_PART := lit "message".

Inductive RuntimeEnvironmentType :=
  | DEVELOPMENT | STAGING | PREVIEW | PRODUCTION.

(** The fields of [AuthenticatedEnvironment] the producer reads. *)
Record AuthenticatedEnvironment := {
  id : js_string;
  type : RuntimeEnvironmentType;
  organizationId : js_string;
  projectId : js_string
}.

(** [Array.prototype.join]. *)
Fixpoint join (sep : js_string) (parts : list js_string) : js_string :=
  match parts with
  | [] => []
  | [p] => p
  | p :: rest => p ++ sep ++ join sep rest
  end.

(** Template literal [`${a}:${b}`]. *)
Definition colon_pair (a b : js_string) : js_string := a ++ COLON :: b.

Definition envKeySection (envId : js_string) := colon_pair ENV_PART envId.

Definition envTypeKeySection (envType : RuntimeEnvironmentType) :=
  colon_pair ENV_TYPE_PART
    (match envType with DEVELOPMENT => lit "dev" | _ => lit "deployed" end).

Definition projKeySection (projId : js_string) := colon_pair PROJECT_PART projId.
Definition orgKeySection (orgId : js_string) := colon_pair ORG_PART orgId.
Definition queueSection (queue : js_string) := colon_pair QUEUE_PART queue.
Definition concurrencyKeySection (concurrencyKey : js_string) :=
  colon_pair CONCURRENCY_KEY_PART concurrencyKey.
Definition taskIdentifierSection (taskIdentifier : js_string) :=
  colon_pair TASK_PART taskIdentifier.

(** Truthiness of an optional string: [undefined] and [""] are falsy. *)
Definition truthy (s : option js_string) : bool :=
  match s with
  | Some (_ :: _) => true
  | _ => false
  end.

(** [queueKey(env, queue, concurrencyKey?)]: the five sections, then the
    concurrency-key section when the key is truthy ([concat] of a string
    appends it, [concat] of the empty array appends nothing), joined with
    a colon. *)
Definition queueKey (env : AuthenticatedEnvironment) (queue : js_string)
    (concurrencyKey : option js_string) : js_string :=
  join [COLON]
    ([ orgKeySection (organizationId env);
       projKeySection (projectId env);
       envTypeKeySection (type env);
       envKeySection (id env);
       queueSection queue ]
     ++ match concurrencyKey with
        | Some ck => if truthy (Some ck) then [concurrencyKeySection ck] else []
        | None => []
        end).

Definition queueConcurrencyLimitKey (env : AuthenticatedEnvironment)
    (queue : js_string) : js_string :=
  join [COLON] [queueKey env queue None; CONCURRENCY_LIMIT_PART].

Definition envConcurrencyLimitKey (env : AuthenticatedEnvironment) : js_string :=
  join [COLON] [envKeySection (id env); CONCURRENCY_LIMIT_PART].

Definition sharedQueueKey : js_string := SHARED_QUEUE.

Definition envSharedQueueKey (env : AuthenticatedEnvironment) : js_string :=
  match type env with
  | DEVELOPMENT =>
      join [COLON]
        [ orgKeySection (organizationId env);
          projKeySection (projectId env);
          envKeySection (id env);
          SHARED_QUEUE ]
  | _ => sharedQueueKey
  end.

(** Line terminators, the code units the regular expression dot rejects. *)
Definition isLineTerminator (c : N) : bool :=
  ((c =? 10) || (c =? 13) || (c =? 8232) || (c =? 8233))%N.

Fixpoint starts_with (p s : js_string) : bool :=
  match p, s with
  | [], _ => true
  | _ :: _, [] => false
  | a :: p', b :: s' => (a =? b)%N && starts_with p' s'
  end.

(** [.+$] at the current position: at least one code unit, none of them a
    line terminator, up to the end of the input. *)
Definition dot_plus_to_end (s : js_string) : bool :=
  match s with
  | [] => false
  | _ :: _ => forallb (fun c => negb (isLineTerminator c)) s
  end.

Definition CK_INFIX : js_string := COLON :: CONCURRENCY_KEY_PART ++ [COLON].

(** [queue.replace(/:ck:.+$/, "")]: the leftmost position where [":ck:"]
    is followed by one or more non-terminator code units reaching the end
    of the string is where the string is cut; without such a position the
    string is returned as it is. *)
Fixpoint replace_ck_suffix (s : js_string) : js_string :=
  match s with
  | [] => []
  | c :: rest =>
      if starts_with CK_INFIX s && dot_plus_to_end (skipn 4 s)
      then []
      else c :: replace_ck_suffix rest
  end.

Definition concurrencyLimitKeyFromQueue (queue : js_string) : js_string :=
  let concurrencyQueueName := replace_ck_suffix queue in
  colon_pair concurrencyQueueName CONCURRENCY_LIMIT_PART.

Definition currentConcurrencyKeyFromQueue (queue : js_string) : js_string :=
  colon_pair queue CURRENT_CONCURRENCY_PART.

Definition currentConcurrencyKey (env : AuthenticatedEnvironment)
    (queue : js_string) (concurrencyKey : option js_string) : js_string :=
  join [COLON] [queueKey env queue concurrencyKey; CURRENT_CONCURRENCY_PART].

Definition envCurrentConcurrencyKey (env : AuthenticatedEnvironment) : js_string :=
  join [COLON] [envKeySection (id env); CURRENT_CONCURRENCY_PART].

Definition messageKey (messageId : js_string) : js_string :=
  colon_pair MESSAGE_PART messageId.

(** [sharedQueueScanPattern()] and [queueCurrentConcurrencyScanPattern()],
    for the producer built with [prefix]. *)
Definition sharedQueueScanPattern (prefix : js_string) : js_string :=
  prefix ++ lit "*" ++ SHARED_QUEUE.

Definition queueCurrentConcurrencyScanPattern (prefix : js_string) : js_string :=
  prefix
  ++ join [COLON]
       [ ORG_PART; lit "*"; PROJECT_PART; lit "*"; ENV_TYPE_PART; lit "*";
         ENV_PART; lit "*"; QUEUE_PART; lit "*"; CURRENT_CONCURRENCY_PART ].

(** [stripKeyPrefix(key)]: [startsWith] and [slice]. *)
Definition stripKeyPrefix (prefix key : js_string) : js_string :=
  if starts_with prefix key then skipn (List.length prefix) key else key.

(** [normalizeQueue(queue)]. *)
Definition normalizeQueue (prefix queue : js_string) : js_string :=
  if starts_with prefix queue then skipn (List.length prefix) queue else queue.

(** [String.prototype.split] on a one-unit separator: the empty string
    splits into one empty part. *)
Fixpoint split (sep : N) (s : js_string) : list js_string :=
  match s with
  | [] => [[]]
  | c :: rest =>
      if (c =? sep)%N then [] :: split sep rest
      else
        match split sep rest with
        | part :: parts => (c :: part) :: parts
        | [] => [[c]]
        end
  end.

(** The object [extractComponentsFromQueue] returns; a part the key does
    not have is [undefined]. *)
Record QueueComponents := {
  qc_orgId : option js_string;
  qc_projectId : option js_string;
  qc_envType : option js_string;
  qc_envId : option js_string;
  qc_queue : option js_string;
  qc_concurrencyKey : option js_string
}.

(** [extractComponentsFromQueue(queue)]. *)
Definition extractComponentsFromQueue (prefix queue : js_string)
    : QueueComponents :=
  let parts := split COLON (normalizeQueue prefix queue) in
  {| qc_orgId := nth_error parts 1;
     qc_projectId := nth_error parts 3;
     qc_envType := nth_error parts 5;
     qc_envId := nth_error parts 7;
     qc_queue := nth_error parts 9;
     qc_concurrencyKey := nth_error parts 11 |}.

(** A value inside a template literal: [undefined] prints as its name. *)
Definition in_template (v : option js_string) : js_string :=
  match v with
  | Some s => s
  | None => lit "undefined"
  end.

Definition disabledConcurrencyLimitKeyFromQueue (prefix queue : js_string)
    : js_string :=
  let orgId := qc_orgId (extractComponentsFromQueue prefix queue) in
  ORG_PART ++ COLON :: in_template orgId
  ++ COLON :: DISABLED_CONCURRENCY_LIMIT_PART.

Definition envConcurrencyLimitKeyFromQueue (prefix queue : js_string)
    : js_string :=
  let envId := qc_envId (extractComponentsFromQueue prefix queue) in
  ENV_PART ++ COLON :: in_template envId ++ COLON :: CONCURRENCY_LIMIT_PART.

Definition envCurrentConcurrencyKeyFromQueue (prefix queue : js_string)
    : js_string :=
  let envId := qc_envId (extractComponentsFromQueue prefix queue) in
  ENV_PART ++ COLON :: in_template envId ++ COLON :: CURRENT_CONCURRENCY_PART.

(** [s.replace(/<infix>.+$/, replacement)] for a literal [infix]: the
    string is cut at the leftmost position where [infix] is followed by
    one or more non-terminator code units reaching the end, and
    [replacement] is put there. *)
Fixpoint replace_to_end (infix replacement s : js_string) : js_string :=
  match s with
  | [] => []
  | c :: rest =>
      if starts_with infix s && dot_plus_to_end (skipn (List.length infix) s)
      then replacement
      else c :: replace_to_end infix replacement rest
  end.

(** [globalCurrentConcurrencyKey(queue)]: [queue.replace(/:env:.+$/, ":*")]. *)
Definition globalCurrentConcurrencyKey (queue : js_string) : js_string :=
  replace_to_end (COLON :: ENV_PART ++ [COLON]) (lit ":*") queue.

(** [currentTaskIdentifierKey({ orgId, projectId, taskIdentifier,
    environmentId })]: the environment section is there for a non-empty
    [environmentId]; [filter(Boolean)] drops what is [undefined] or
    empty. *)
Definition currentTaskIdentifierKey (orgId projectId taskIdentifier
    environmentId : js_string) : js_string :=
  join [COLON]
    (flat_map
       (fun part : option js_string =>
          match part with
          | Some (c :: p) => [c :: p]
          | _ => []
          end)
       [ Some (orgKeySection orgId);
         Some (projKeySection projectId);
         Some (taskIdentifierSection taskIdentifier);
         match environmentId with
         | [] => None
         | _ :: _ => Some (envKeySection environmentId)
         end;
         Some CURRENT_CONCURRENCY_PART ]).

(** The strings the properties below range over. *)
Definition colon_free (s : js_string) : Prop := ~ In COLON s.

Definition line_terminator_free (s : js_string) : Prop :=
  forall c, In c s -> isLineTerminator c = false.

(** [glue [s1; ...; sn] tail] is [":s1: ... :sn"] followed by [tail]. *)
Fixpoint glue (segments : list js_string) (tail : js_string) : js_string :=
  match segments with
  | [] => tail
  | seg :: rest => COLON :: seg ++ glue rest tail
  end.

(** The code units of [":env:"], the literal part of the expression in
    [globalCurrentConcurrencyKey]. *)
Definition ENV_INFIX_units : js_string := [58; 101; 110; 118; 58]%N.

(** The ids and the queue name of a key are free of colons. *)
Definition colon_free_ids (env : AuthenticatedEnvironment) : Prop :=
  colon_free (organizationId env) /\ colon_free (projectId env)
  /\ colon_free (id env).

(** The text [envTypeKeySection] writes for an environment type. *)
Definition envType_text (t : RuntimeEnvironmentType) : js_string :=
  match t with DEVELOPMENT => lit "dev" | _ => lit "deployed" end.

(** A concurrency key as [queueKey] sees it: an empty key is no key. *)
Definition effective_ck (concurrencyKey : option js_string) : option js_string :=
  match concurrencyKey with
  | Some (c :: k) => Some (c :: k)
  | _ => None
  end.

(** What a truthy concurrency key adds to the end of a queue key. *)
Definition ck_tail (concurrencyKey : option js_string) : js_string :=
  match concurrencyKey with
  | Some (c :: k) => COLON :: lit "ck" ++ COLON :: c :: k
  | _ => []
  end.

End KeyProducer.

(* ================================================================= *)
(** ** Run engine *)

Module RunEngine.

(** Identifiers of database rows.  The store generates them; they are
    modelled as numbers drawn from a counter that never repeats. *)
Definition Id := nat.

Module TaskRunStatus.
Inductive t :=
  | PENDING | DELAYED | EXECUTING | WAITING_TO_RESUME
  | COMPLETED_SUCCESSFULLY | COMPLETED_WITH_ERRORS | SYSTEM_FAILURE
  | CRASHED | EXPIRED | CANCELED.
End TaskRunStatus.

(** The execution statuses of this engine: the six cases that the
    exhaustive switch of [#handleStalledSnapshot] enumerates. *)
Module TaskRunExecutionStatus.
Inductive t :=
  | RUN_CREATED | QUEUED | BLOCKED_BY_WAITPOINTS
  | DEQUEUED_FOR_EXECUTION | EXECUTING | FINISHED.

Definition eqb (a b : t) : bool :=
  match a, b with
  | RUN_CREATED, RUN_CREATED | QUEUED, QUEUED
  | BLOCKED_BY_WAITPOINTS, BLOCKED_BY_WAITPOINTS
  | DEQUEUED_FOR_EXECUTION, DEQUEUED_FOR_EXECUTION
  | EXECUTING, EXECUTING | FINISHED, FINISHED => true
  | _, _ => false
  end.
End TaskRunExecutionStatus.

Module WaitpointType.
Inductive t := RUN | DATETIME | MANUAL.
End WaitpointType.

Module WaitpointStatus.
Inductive t := PENDING | COMPLETED.
End WaitpointStatus.

Module TaskQueueType.
Inductive t := NAMED | VIRTUAL.
End TaskQueueType.

Inductive RuntimeEnvironmentType :=
  | DEVELOPMENT | STAGING | PREVIEW | PRODUCTION.

(** [MinimalAuthenticatedEnvironment], with [project.id] and
    [organization.id] flattened. *)
Record MinimalAuthenticatedEnvironment := {
  env_id : string;
  env_type : RuntimeEnvironmentType;
  env_maximumConcurrencyLimit : Z;
  env_project_id : string;
  env_organization_id : string
}.

(** [QueueOptions]. *)
Record QueueOptions := {
  qo_name : option string;
  qo_concurrencyLimit : option Z;
  qo_rateLimit : option string
}.

(** [TriggerParams].  The tracing and metadata fields ([context],
    [traceContext], [traceId], [spanId], [parentSpanId],
    [lockedToVersionId], [metadata] and its companions) are copied into
    the run row and never read back by the engine; they are left out. *)
Record TriggerParams := {
  friendlyId : string;
  number : Z;
  environment : MinimalAuthenticatedEnvironment;
  idempotencyKey : option string;
  taskIdentifier : string;
  payload : string;
  payloadType : string;
  concurrencyKey : option string;
  masterQueue : string;
  queueName : string;
  queue : option QueueOptions;
  isTest : bool;
  delayUntil : option Z;
  queuedAt : option Z;
  maxAttempts : option Z;
  ttl : option string;
  tags : list string;
  parentTaskRunId : option Id;
  parentTaskRunAttemptId : option Id;
  rootTaskRunId : option Id;
  batchId : option Id;
  resumeParentOnCompletion : option bool;
  depth : option Z
}.

(** A [TaskRun] row.  The [runtimeEnvironment] relation is kept with the
    row: the foreign key [runtimeEnvironmentId] guarantees it exists. *)
Record TaskRun := {
  run_id : Id;
  run_status : TaskRunStatus.t;
  run_number : Z;
  run_friendlyId : string;
  run_runtimeEnvironment : MinimalAuthenticatedEnvironment;
  run_projectId : string;
  run_idempotencyKey : option string;
  run_taskIdentifier : string;
  run_payload : string;
  run_payloadType : string;
  run_concurrencyKey : option string;
  run_queue : string;
  run_masterQueue : string;
  run_isTest : bool;
  run_delayUntil : option Z;
  run_queuedAt : option Z;
  run_maxAttempts : option Z;
  run_ttl : option string;
  run_tags : list string;
  run_parentTaskRunId : option Id;
  run_parentTaskRunAttemptId : option Id;
  run_rootTaskRunId : option Id;
  run_batchId : option Id;
  run_resumeParentOnCompletion : option bool;
  run_depth : option Z
}.

(** A [TaskRunExecutionSnapshot] row; [snap_worker] is the included
    [worker] relation, present when a worker is attached. *)
Record TaskRunExecutionSnapshot := {
  snap_id : Id;
  snap_runId : Id;
  snap_executionStatus : TaskRunExecutionStatus.t;
  snap_description : string;
  snap_runStatus : TaskRunStatus.t;
  snap_createdAt : Z;
  snap_worker : option Id
}.

Record Waitpoint := {
  wp_id : Id;
  wp_type : WaitpointType.t;
  wp_status : WaitpointStatus.t;
  wp_idempotencyKey : nat;
  wp_userProvidedIdempotencyKey : bool;
  wp_projectId : string;
  wp_completedByTaskRunId : option Id;
  wp_completedAfter : option Z
}.

Record TaskRunWaitpoint := {
  trw_id : Id;
  trw_taskRunId : Id;
  trw_waitpointId : Id;
  trw_projectId : string
}.

Record TaskQueue := {
  tq_id : Id;
  tq_friendlyId : nat;
  tq_name : string;
  tq_concurrencyLimit : option Z;
  tq_runtimeEnvironmentId : string;
  tq_projectId : string;
  tq_rateLimit : option string;
  tq_type : TaskQueueType.t
}.

(** The relational store, one list of rows per table, in insertion
    order. *)
Record Db := {
  db_taskRun : list TaskRun;
  db_taskRunExecutionSnapshot : list TaskRunExecutionSnapshot;
  db_waitpoint : list Waitpoint;
  db_taskRunWaitpoint : list TaskRunWaitpoint;
  db_taskQueue : list TaskQueue
}.

(** The jobs of [workerCatalog], each with its payload. *)
Inductive JobPayload :=
  | waitpointCompleteDateTime (waitpointId : Id)
  | heartbeatSnapshot (runId snapshotId : Id)
  | expireRun (runId : Id).

(** The job ids the engine builds: [`waitpointCompleteDateTime.${id}`]
    and [`heartbeatSnapshot.${id}`]. *)
Inductive JobId :=
  | waitpointCompleteDateTime_id (waitpointId : Id)
  | heartbeatSnapshot_id (snapshotId : Id).

Definition JobId_eqb (a b : JobId) : bool :=
  match a, b with
  | waitpointCompleteDateTime_id x, waitpointCompleteDateTime_id y => Nat.eqb x y
  | heartbeatSnapshot_id x, heartbeatSnapshot_id y => Nat.eqb x y
  | _, _ => false
  end.

(** The argument of [worker.enqueue]: [job_id] and [job_availableAt] are
    [None] when the caller leaves them out. *)
Record Job := {
  job_id : option JobId;
  job_payload : JobPayload;
  job_availableAt : option Z
}.

(** The message handed to [runQueue.enqueueMessage]. *)
Record Message := {
  msg_runId : Id;
  msg_taskIdentifier : string;
  msg_orgId : string;
  msg_projectId : string;
  msg_environmentId : string;
  msg_environmentType : RuntimeEnvironmentType;
  msg_queue : string;
  msg_concurrencyKey : option string;
  msg_timestamp : Z
}.

(** Modelled from the spec: the [RunQueue] class is not among the
    sources.  Of its state the engine's calls touch the enqueued messages
    (with the master queue each was published to) and the per-queue
    concurrency limits, keyed by environment id and queue name. *)
Record RunQueue := {
  rq_messages : list (string * Message);
  rq_concurrencyLimits : list ((string * string) * Z)
}.

(** The engine and what it talks to: the relational store ([prisma]),
    the delayed-job worker, the run queue, the wall clock in milliseconds
    and the counter identifiers and random tokens are drawn from. *)
Record EngineState := {
  prisma : Db;
  worker : list Job;
  runQueue : RunQueue;
  now : Z;
  idSupply : nat
}.

Inductive EngineError :=
  | NotImplementedError (message : string)
  | WaitpointNotFound (id : Id)
  | NoTaskRunWaitpointsFound (id : Id)
  | NoSnapshotFound (runId : Id)
  | CreateRejected
  | TypeError.

Inductive Result (A : Type) :=
  | Ok (a : A)
  | Err (e : EngineError).
Arguments Ok {A} a.
Arguments Err {A} e.

(** Engine code runs against the state and either returns or throws; the
    state reached is kept in both cases, because what was written before
    a throw stays written unless a transaction undoes it. *)
Definition Engine (A : Type) : Type := EngineState -> Result A * EngineState.

Definition ret {A} (a : A) : Engine A := fun s => (Ok a, s).

Definition throw {A} (e : EngineError) : Engine A := fun s => (Err e, s).

Definition bind {A B} (m : Engine A) (k : A -> Engine B) : Engine B :=
  fun s =>
    match m s with
    | (Ok a, s') => k a s'
    | (Err e, s') => (Err e, s')
    end.

Notation "x <- m ;; k" := (bind m (fun x => k))
  (at level 61, m at next level, right associativity).
Notation "m ;;; k" := (bind m (fun _ => k))
  (at level 61, right associativity).

Definition get : Engine EngineState := fun s => (Ok s, s).

Definition modify (f : EngineState -> EngineState) : Engine unit :=
  fun s => (Ok tt, f s).

(** [for (const x of xs) await body(x)]. *)
Fixpoint for_each {A} (xs : list A) (body : A -> Engine unit) : Engine unit :=
  match xs with
  | [] => ret tt
  | x :: rest => body x ;;; for_each rest body
  end.

Definition set_prisma (d : Db) (s : EngineState) : EngineState :=
  {| prisma := d; worker := worker s; runQueue := runQueue s;
     now := now s; idSupply := idSupply s |}.

Definition set_worker (w : list Job) (s : EngineState) : EngineState :=
  {| prisma := prisma s; worker := w; runQueue := runQueue s;
     now := now s; idSupply := idSupply s |}.

Definition set_runQueue (q : RunQueue) (s : EngineState) : EngineState :=
  {| prisma := prisma s; worker := worker s; runQueue := q;
     now := now s; idSupply := idSupply s |}.

(** A new identifier (a row id, or a [nanoid] token). *)
Definition fresh : Engine Id :=
  fun s =>
    (Ok (idSupply s),
     {| prisma := prisma s; worker := worker s; runQueue := runQueue s;
        now := now s; idSupply := S (idSupply s) |}).

(** Modelled from the spec: the [$transaction] helper is not among the
    sources.  "DB transactions always rollback on failure; [...] snapshot
    appends are never rolled back because each describes a real observed
    state": when the body throws, the error is thrown on and the tables
    are put back as they were, all but the snapshot table, which keeps
    the rows the body appended; what the body did outside the store
    (jobs, queue messages) stays. *)
Definition rolled_back (before after : Db) : Db :=
  {| db_taskRun := db_taskRun before;
     db_taskRunExecutionSnapshot := db_taskRunExecutionSnapshot after;
     db_waitpoint := db_waitpoint before;
     db_taskRunWaitpoint := db_taskRunWaitpoint before;
     db_taskQueue := db_taskQueue before |}.

Definition transaction {A} (body : Engine A) : Engine A :=
  fun s =>
    match body s with
    | (Ok a, s') => (Ok a, s')
    | (Err e, s') => (Err e, set_prisma (rolled_back (prisma s) (prisma s')) s')
    end.

(** [redlock.using([id], 5000, fn)]: the model is sequential, the lock is
    free when asked for and the lease is never lost while [fn] runs.  Two
    ways the source can throw are therefore not in the model: the lock
    that cannot be acquired, and the two [if (signal.aborted) throw
    signal.error] of [trigger].  What is proved of [trigger] below is
    about calls that return, or holds whichever way the call throws. *)
Definition using_lock {A} (resource : Id) (body : Engine A) : Engine A := body.


(** *** The store *)

Definition set_taskRun (rows : list TaskRun) (d : Db) : Db :=
  {| db_taskRun := rows;
     db_taskRunExecutionSnapshot := db_taskRunExecutionSnapshot d;
     db_waitpoint := db_waitpoint d;
     db_taskRunWaitpoint := db_taskRunWaitpoint d;
     db_taskQueue := db_taskQueue d |}.

Definition set_taskRunExecutionSnapshot
    (rows : list TaskRunExecutionSnapshot) (d : Db) : Db :=
  {| db_taskRun := db_taskRun d;
     db_taskRunExecutionSnapshot := rows;
     db_waitpoint := db_waitpoint d;
     db_taskRunWaitpoint := db_taskRunWaitpoint d;
     db_taskQueue := db_taskQueue d |}.

Definition set_waitpoint (rows : list Waitpoint) (d : Db) : Db :=
  {| db_taskRun := db_taskRun d;
     db_taskRunExecutionSnapshot := db_taskRunExecutionSnapshot d;
     db_waitpoint := rows;
     db_taskRunWaitpoint := db_taskRunWaitpoint d;
     db_taskQueue := db_taskQueue d |}.

Definition set_taskRunWaitpoint (rows : list TaskRunWaitpoint) (d : Db) : Db :=
  {| db_taskRun := db_taskRun d;
     db_taskRunExecutionSnapshot := db_taskRunExecutionSnapshot d;
     db_waitpoint := db_waitpoint d;
     db_taskRunWaitpoint := rows;
     db_taskQueue := db_taskQueue d |}.

Definition set_taskQueue (rows : list TaskQueue) (d : Db) : Db :=
  {| db_taskRun := db_taskRun d;
     db_taskRunExecutionSnapshot := db_taskRunExecutionSnapshot d;
     db_waitpoint := db_waitpoint d;
     db_taskRunWaitpoint := db_taskRunWaitpoint d;
     db_taskQueue := rows |}.

(** A write to the store. *)
Definition write (f : Db -> Db) : Engine unit :=
  modify (fun s => set_prisma (f (prisma s)) s).

(** [waitpoint.findUnique({ where: { id } })]. *)
Definition waitpoint_findUnique (d : Db) (id : Id) : option Waitpoint :=
  find (fun w => Nat.eqb (wp_id w) id) (db_waitpoint d).

Definition complete_status (w : Waitpoint) : Waitpoint :=
  {| wp_id := wp_id w; wp_type := wp_type w;
     wp_status := WaitpointStatus.COMPLETED;
     wp_idempotencyKey := wp_idempotencyKey w;
     wp_userProvidedIdempotencyKey := wp_userProvidedIdempotencyKey w;
     wp_projectId := wp_projectId w;
     wp_completedByTaskRunId := wp_completedByTaskRunId w;
     wp_completedAfter := wp_completedAfter w |}.

(** [waitpoint.update({ where: { id }, data: { status: "COMPLETED" } })]. *)
Definition waitpoint_complete (id : Id) (d : Db) : Db :=
  set_waitpoint
    (map (fun w => if Nat.eqb (wp_id w) id then complete_status w else w)
         (db_waitpoint d)) d.

(** [taskRunWaitpoint.findMany({ where: { waitpointId }, select: { taskRunId } })]. *)
Definition taskRunWaitpoint_findMany (d : Db) (waitpointId : Id) : list Id :=
  map trw_taskRunId
    (filter (fun r => Nat.eqb (trw_waitpointId r) waitpointId) (db_taskRunWaitpoint d)).

(** [taskRunWaitpoint.deleteMany({ where: { waitpointId } })]. *)
Definition taskRunWaitpoint_deleteMany (waitpointId : Id) (d : Db) : Db :=
  set_taskRunWaitpoint
    (filter (fun r => negb (Nat.eqb (trw_waitpointId r) waitpointId))
            (db_taskRunWaitpoint d)) d.

(** The relation filter [blockedByWaitpoints: { none: {} }]. *)
Definition blockedByWaitpoints_none (d : Db) (runId : Id) : bool :=
  negb (existsb (fun r => Nat.eqb (trw_taskRunId r) runId) (db_taskRunWaitpoint d)).

Definition status_in_PENDING_WAITING_TO_RESUME (st : TaskRunStatus.t) : bool :=
  match st with
  | TaskRunStatus.PENDING | TaskRunStatus.WAITING_TO_RESUME => true
  | _ => false
  end.

(** The [taskRun.findMany] of [#completeWaitpoint]: runs whose id is among
    [ids], with no blocking waitpoint left, PENDING or WAITING_TO_RESUME. *)
Definition taskRun_findMany_toResume (d : Db) (ids : list Id) : list TaskRun :=
  filter
    (fun r =>
       existsb (Nat.eqb (run_id r)) ids
       && blockedByWaitpoints_none d (run_id r)
       && status_in_PENDING_WAITING_TO_RESUME (run_status r))
    (db_taskRun d).

(** Of two snapshots of a run the one created later; on equal [createdAt]
    the one inserted later. *)
Definition pick_latest (runId : Id)
    (best : option TaskRunExecutionSnapshot) (s : TaskRunExecutionSnapshot)
    : option TaskRunExecutionSnapshot :=
  if Nat.eqb (snap_runId s) runId then
    match best with
    | None => Some s
    | Some b => if (snap_createdAt b <=? snap_createdAt s)%Z then Some s else Some b
    end
  else best.

(** [#getLatestExecutionSnapshot(prisma, runId)]:
    [findFirst({ where: { runId }, orderBy: { createdAt: "desc" } })]. *)
Definition getLatestExecutionSnapshot (prisma : Db) (runId : Id)
    : option TaskRunExecutionSnapshot :=
  fold_left (pick_latest runId) (db_taskRunExecutionSnapshot prisma) None.

(** *** The delayed-job worker and the run queue *)

Definition job_has_id (i : JobId) (j : Job) : bool :=
  match job_id j with
  | Some i' => JobId_eqb i i'
  | None => false
  end.

(** Modelled from the spec: the [Worker] class is not among the sources.
    "Using deterministic job ids ensures duplicate scheduling collapses":
    a job enqueued under an id takes the place of the job already there
    under that id; a job without an id is added. *)
Definition Worker_enqueue (j : Job) (jobs : list Job) : list Job :=
  match job_id j with
  | Some i => filter (fun j' => negb (job_has_id i j')) jobs ++ [j]
  | None => jobs ++ [j]
  end.

(** Modelled from the spec: [worker.ack(id)] takes the job off the queue. *)
Definition Worker_ack (i : JobId) (jobs : list Job) : list Job :=
  filter (fun j' => negb (job_has_id i j')) jobs.

Definition worker_enqueue (j : Job) : Engine unit :=
  modify (fun s => set_worker (Worker_enqueue j (worker s)) s).

Definition worker_ack (i : JobId) : Engine unit :=
  modify (fun s => set_worker (Worker_ack i (worker s)) s).

Definition limit_key_eqb (k k' : string * string) : bool :=
  String.eqb (fst k) (fst k') && String.eqb (snd k) (snd k').

(** Modelled from the spec: [runQueue.enqueueMessage] adds the message to
    its queue and publishes it under the master queue. *)
Definition runQueue_enqueueMessage (env : MinimalAuthenticatedEnvironment)
    (masterQueue : string) (message : Message) : Engine unit :=
  modify (fun s =>
    set_runQueue
      {| rq_messages := rq_messages (runQueue s) ++ [(masterQueue, message)];
         rq_concurrencyLimits := rq_concurrencyLimits (runQueue s) |} s).

(** Modelled from the spec: [updateQueueConcurrencyLimits] writes the
    limit key of the queue. *)
Definition runQueue_updateQueueConcurrencyLimits
    (env : MinimalAuthenticatedEnvironment) (queue : string) (limit : Z)
    : Engine unit :=
  modify (fun s =>
    set_runQueue
      {| rq_messages := rq_messages (runQueue s);
         rq_concurrencyLimits :=
           filter (fun e => negb (limit_key_eqb (fst e) (env_id env, queue)))
                  (rq_concurrencyLimits (runQueue s))
           ++ [((env_id env, queue), limit)] |} s).

(** Modelled from the spec: [removeQueueConcurrencyLimits] deletes the
    limit key of the queue. *)
Definition runQueue_removeQueueConcurrencyLimits
    (env : MinimalAuthenticatedEnvironment) (queue : string) : Engine unit :=
  modify (fun s =>
    set_runQueue
      {| rq_messages := rq_messages (runQueue s);
         rq_concurrencyLimits :=
           filter (fun e => negb (limit_key_eqb (fst e) (env_id env, queue)))
                  (rq_concurrencyLimits (runQueue s)) |} s).

(** *** Heartbeats and execution snapshots *)

(** [#startHeartbeating({ runId, snapshotId, intervalSeconds })]. *)
Definition startHeartbeating (runId snapshotId : Id) (intervalSeconds : Z)
    : Engine unit :=
  s <- get ;;
  worker_enqueue
    {| job_id := Some (heartbeatSnapshot_id snapshotId);
       job_payload := heartbeatSnapshot runId snapshotId;
       job_availableAt := Some (now s + intervalSeconds * 1000)%Z |}.

(** [#createExecutionSnapshot(prisma, { run, snapshot })]; of [run] the
    method reads [id] and [status]. *)
Definition createExecutionSnapshot (runId : Id) (runStatus : TaskRunStatus.t)
    (executionStatus : TaskRunExecutionStatus.t) (description : string)
    : Engine TaskRunExecutionSnapshot :=
  id <- fresh ;;
  s <- get ;;
  let newSnapshot :=
    {| snap_id := id;
       snap_runId := runId;
       snap_executionStatus := executionStatus;
       snap_description := description;
       snap_runStatus := runStatus;
       snap_createdAt := now s;
       snap_worker := None |} in
  write (fun d =>
    set_taskRunExecutionSnapshot (db_taskRunExecutionSnapshot d ++ [newSnapshot]) d) ;;;
  match executionStatus with
  | TaskRunExecutionStatus.RUN_CREATED
  | TaskRunExecutionStatus.QUEUED
  | TaskRunExecutionStatus.BLOCKED_BY_WAITPOINTS
  | TaskRunExecutionStatus.FINISHED
  | TaskRunExecutionStatus.DEQUEUED_FOR_EXECUTION =>
      startHeartbeating runId (snap_id newSnapshot) 60
  | TaskRunExecutionStatus.EXECUTING =>
      startHeartbeating runId (snap_id newSnapshot) (60 * 15)
  end ;;;
  ret newSnapshot.

(** How a call that leaves out the leading [prisma] argument is bound.
    [#extendHeartbeatTimeout] and [#handleStalledSnapshot] call
    [#getLatestExecutionSnapshot(runId)] with one argument, the method
    declares [(prisma, runId)].  The code as it runs is [ByPosition]: the
    run id lands in [prisma] and reading a table off it is a TypeError.
    [EngineClient] is the call the signature asks for, with the engine's
    own client put in front; the source does not make it. *)
Inductive OneArgumentCall := ByPosition | EngineClient.

Definition getLatestExecutionSnapshot_1 (call : OneArgumentCall) (runId : Id)
    : Engine (option TaskRunExecutionSnapshot) :=
  match call with
  | ByPosition => throw TypeError
  | EngineClient => s <- get ;; ret (getLatestExecutionSnapshot (prisma s) runId)
  end.

(** [#extendHeartbeatTimeout({ runId, snapshotId, intervalSeconds })]. *)
Definition extendHeartbeatTimeout (call : OneArgumentCall)
    (runId snapshotId : Id) (intervalSeconds : Z) : Engine unit :=
  latestSnapshot <- getLatestExecutionSnapshot_1 call runId ;;
  if match latestSnapshot with
     | Some l => negb (Nat.eqb (snap_id l) snapshotId)
     | None => true
     end
  then worker_ack (heartbeatSnapshot_id snapshotId)
  else startHeartbeating runId snapshotId intervalSeconds.

(** [#handleStalledSnapshot({ runId, snapshotId })], the handler of the
    [heartbeatSnapshot] job. *)
Definition handleStalledSnapshot (call : OneArgumentCall)
    (runId snapshotId : Id) : Engine unit :=
  latestSnapshot <- getLatestExecutionSnapshot_1 call runId ;;
  match latestSnapshot with
  | None => ret tt
  | Some latest =>
      if negb (Nat.eqb (snap_id latest) snapshotId) then
        worker_ack (heartbeatSnapshot_id snapshotId)
      else
        match snap_executionStatus latest with
        | TaskRunExecutionStatus.BLOCKED_BY_WAITPOINTS =>
            throw (NotImplementedError "Not implemented BLOCKED_BY_WAITPOINTS")
        | TaskRunExecutionStatus.DEQUEUED_FOR_EXECUTION =>
            throw (NotImplementedError "Not implemented DEQUEUED_FOR_EXECUTION")
        | TaskRunExecutionStatus.QUEUED =>
            throw (NotImplementedError "Not implemented QUEUED")
        | TaskRunExecutionStatus.EXECUTING =>
            throw (NotImplementedError "Not implemented EXECUTING")
        | TaskRunExecutionStatus.FINISHED =>
            throw (NotImplementedError "Not implemented FINISHED")
        | TaskRunExecutionStatus.RUN_CREATED =>
            throw (NotImplementedError "Not implemented RUN_CREATED")
        end
  end.

(** *** The run queue side of a run *)

Definition message_of (run : TaskRun) (env : MinimalAuthenticatedEnvironment)
    (timestamp : Z) : Message :=
  {| msg_runId := run_id run;
     msg_taskIdentifier := run_taskIdentifier run;
     msg_orgId := env_organization_id env;
     msg_projectId := env_project_id env;
     msg_environmentId := env_id env;
     msg_environmentType := env_type env;
     msg_queue := run_queue run;
     msg_concurrencyKey := run_concurrencyKey run;
     msg_timestamp := timestamp |}.

(** [#enqueueRun(run, env, tx)]. *)
Definition enqueueRun (run : TaskRun) (env : MinimalAuthenticatedEnvironment)
    : Engine unit :=
  createExecutionSnapshot (run_id run) (run_status run)
    TaskRunExecutionStatus.QUEUED "Run was QUEUED" ;;;
  s <- get ;;
  runQueue_enqueueMessage env (run_masterQueue run) (message_of run env (now s)).

(** [#continueRun(run, env, tx)]. *)
Definition continueRun (run : TaskRun) (env : MinimalAuthenticatedEnvironment)
    : Engine unit :=
  using_lock (run_id run) (
    s <- get ;;
    match getLatestExecutionSnapshot (prisma s) (run_id run) with
    | None => throw (NoSnapshotFound (run_id run))
    | Some snapshot =>
        if TaskRunExecutionStatus.eqb (snap_executionStatus snapshot)
             TaskRunExecutionStatus.EXECUTING
           && match snap_worker snapshot with Some _ => true | None => false end
        then
          createExecutionSnapshot (run_id run) (run_status run)
            TaskRunExecutionStatus.EXECUTING
            "Run was continued, whilst still executing." ;;;
          throw (NotImplementedError
            "RunEngine.#continueRun(): continue executing run, not implemented yet")
        else
          createExecutionSnapshot (run_id run) (run_status run)
            TaskRunExecutionStatus.QUEUED
            "Run was QUEUED, because it needs to be continued." ;;;
          s' <- get ;;
          runQueue_enqueueMessage env (run_masterQueue run)
            (message_of run env (now s'))
    end).

(** *** Waitpoints *)

(** [#createRunAssociatedWaitpoint(tx, { projectId, completedByTaskRunId })]. *)
Definition createRunAssociatedWaitpoint (projectId : string)
    (completedByTaskRunId : Id) : Engine Waitpoint :=
  key <- fresh ;;
  id <- fresh ;;
  let w :=
    {| wp_id := id;
       wp_type := WaitpointType.RUN;
       wp_status := WaitpointStatus.PENDING;
       wp_idempotencyKey := key;
       wp_userProvidedIdempotencyKey := false;
       wp_projectId := projectId;
       wp_completedByTaskRunId := Some completedByTaskRunId;
       wp_completedAfter := None |} in
  write (fun d => set_waitpoint (db_waitpoint d ++ [w]) d) ;;;
  ret w.

(** [#createDateTimeWaitpoint(tx, { projectId, completedAfter })]. *)
Definition createDateTimeWaitpoint (projectId : string) (completedAfter : Z)
    : Engine Waitpoint :=
  key <- fresh ;;
  id <- fresh ;;
  let w :=
    {| wp_id := id;
       wp_type := WaitpointType.DATETIME;
       wp_status := WaitpointStatus.PENDING;
       wp_idempotencyKey := key;
       wp_userProvidedIdempotencyKey := false;
       wp_projectId := projectId;
       wp_completedByTaskRunId := None;
       wp_completedAfter := Some completedAfter |} in
  write (fun d => set_waitpoint (db_waitpoint d ++ [w]) d) ;;;
  worker_enqueue
    {| job_id := Some (waitpointCompleteDateTime_id (wp_id w));
       job_payload := waitpointCompleteDateTime (wp_id w);
       job_availableAt := Some completedAfter |} ;;;
  ret w.

(** [taskRunWaitpoint.create({ data: { taskRunId, waitpointId, projectId } })]. *)
Definition taskRunWaitpoint_create (taskRunId waitpointId : Id)
    (projectId : string) : Engine TaskRunWaitpoint :=
  id <- fresh ;;
  let row :=
    {| trw_id := id; trw_taskRunId := taskRunId;
       trw_waitpointId := waitpointId; trw_projectId := projectId |} in
  write (fun d => set_taskRunWaitpoint (db_taskRunWaitpoint d ++ [row]) d) ;;;
  ret row.

(** [#blockRunWithWaitpoint(tx, { orgId, runId, waitpoint })]: the method
    throws before the [taskRunWaitpoint.create] that follows it. *)
Definition blockRunWithWaitpoint (orgId : string) (runId : Id)
    (waitpoint : Waitpoint) : Engine TaskRunWaitpoint :=
  @throw unit (NotImplementedError "Not implemented #blockRunWithWaitpoint") ;;;
  taskRunWaitpoint_create runId (wp_id waitpoint) (wp_projectId waitpoint).

(** [#completeWaitpoint(id)]. *)
Definition completeWaitpoint (id : Id) : Engine unit :=
  s <- get ;;
  match waitpoint_findUnique (prisma s) id with
  | None => throw (WaitpointNotFound id)
  | Some waitpoint =>
      match wp_status waitpoint with
      | WaitpointStatus.COMPLETED => ret tt
      | WaitpointStatus.PENDING =>
          transaction (
            (* 1. Find the TaskRuns associated with this waitpoint *)
            tx <- get ;;
            let affectedTaskRuns := taskRunWaitpoint_findMany (prisma tx) id in
            match affectedTaskRuns with
            | [] => throw (NoTaskRunWaitpointsFound id)
            | _ :: _ =>
                (* 2. Delete the TaskRunWaitpoint entries for this waitpoint *)
                write (taskRunWaitpoint_deleteMany id) ;;;
                (* 3. Update the waitpoint status *)
                write (waitpoint_complete id) ;;;
                (* 4. Check which of the affected TaskRuns now have no waitpoints *)
                tx' <- get ;;
                let taskRunsToResume :=
                  taskRun_findMany_toResume (prisma tx') affectedTaskRuns in
                (* 5. Continue the runs that have no more waitpoints *)
                for_each taskRunsToResume
                  (fun run => continueRun run (run_runtimeEnvironment run))
            end)
      end
  end.

(** *** Trigger *)

Definition string_truthy (o : option string) : bool :=
  match o with
  | Some EmptyString | None => false
  | Some _ => true
  end.

Definition is_some {A} (o : option A) : bool :=
  match o with Some _ => true | None => false end.

Definition bool_truthy (o : option bool) : bool :=
  match o with Some b => b | None => false end.

(** [taskQueue.findFirst({ where: { runtimeEnvironmentId, name } })]. *)
Definition taskQueue_findFirst (d : Db) (runtimeEnvironmentId name : string)
    : option TaskQueue :=
  find (fun q => String.eqb (tq_runtimeEnvironmentId q) runtimeEnvironmentId
                 && String.eqb (tq_name q) name) (db_taskQueue d).

(** The row after [taskQueue.update({ data: { concurrencyLimit, rateLimit } })]:
    a field given as [undefined] keeps the value it has. *)
Definition taskQueue_updated (q : TaskQueue) (concurrencyLimit : option Z)
    (rateLimit : option string) : TaskQueue :=
  {| tq_id := tq_id q;
     tq_friendlyId := tq_friendlyId q;
     tq_name := tq_name q;
     tq_concurrencyLimit :=
       match concurrencyLimit with Some l => Some l | None => tq_concurrencyLimit q end;
     tq_runtimeEnvironmentId := tq_runtimeEnvironmentId q;
     tq_projectId := tq_projectId q;
     tq_rateLimit :=
       match rateLimit with Some r => Some r | None => tq_rateLimit q end;
     tq_type := tq_type q |}.

Section Trigger.

(** The Prisma schema is not among the sources.  Which integrity
    constraints of the [TaskRun] table (a unique index, say) make the
    store refuse a new row is a parameter: [taskRun_insertable rows r]
    tells whether [r] may join [rows]. *)
Variable taskRun_insertable : list TaskRun -> TaskRun -> bool.

(** [parseNaturalLanguageDuration] is not among the sources either.  It
    reads a duration such as ["30s"] and answers the date that lies so
    far after the present, or nothing for text it cannot read; here it
    takes the present as its first argument. *)
Variable parseNaturalLanguageDuration : Z -> string -> option Z.

(** [prisma.taskRun.create] with the nested [executionSnapshot.create]:
    the run row and its RUN_CREATED snapshot are written together. *)
Definition taskRun_create (p : TriggerParams) (status : TaskRunStatus.t)
    : Engine TaskRun :=
  id <- fresh ;;
  snapshotId <- fresh ;;
  s <- get ;;
  let taskRun :=
    {| run_id := id;
       run_status := status;
       run_number := number p;
       run_friendlyId := friendlyId p;
       run_runtimeEnvironment := environment p;
       run_projectId := env_project_id (environment p);
       run_idempotencyKey := idempotencyKey p;
       run_taskIdentifier := taskIdentifier p;
       run_payload := payload p;
       run_payloadType := payloadType p;
       run_concurrencyKey := concurrencyKey p;
       run_queue := queueName p;
       run_masterQueue := masterQueue p;
       run_isTest := isTest p;
       run_delayUntil := delayUntil p;
       run_queuedAt := queuedAt p;
       run_maxAttempts := maxAttempts p;
       run_ttl := ttl p;
       run_tags := tags p;
       run_parentTaskRunId := parentTaskRunId p;
       run_parentTaskRunAttemptId := parentTaskRunAttemptId p;
       run_rootTaskRunId := rootTaskRunId p;
       run_batchId := batchId p;
       run_resumeParentOnCompletion := resumeParentOnCompletion p;
       run_depth := depth p |} in
  let executionSnapshot :=
    {| snap_id := snapshotId;
       snap_runId := id;
       snap_executionStatus := TaskRunExecutionStatus.RUN_CREATED;
       snap_description := "Run was created";
       snap_runStatus := status;
       snap_createdAt := now s;
       snap_worker := None |} in
  if taskRun_insertable (db_taskRun (prisma s)) taskRun then
    write (fun d =>
      set_taskRunExecutionSnapshot
        (db_taskRunExecutionSnapshot d ++ [executionSnapshot])
        (set_taskRun (db_taskRun d ++ [taskRun]) d)) ;;;
    ret taskRun
  else throw CreateRejected.

(** The [if (queue)] block of [trigger]: upsert of the task queue, then
    the concurrency limit is pushed to, or removed from, the run queue. *)
Definition upsertTaskQueue (p : TriggerParams) (queue : QueueOptions)
    : Engine unit :=
  let environment := environment p in
  let concurrencyLimit := option_map (Z.max 0) (qo_concurrencyLimit queue) in
  s <- get ;;
  taskQueue <-
    match taskQueue_findFirst (prisma s) (env_id environment) (queueName p) with
    | Some found =>
        let updated := taskQueue_updated found concurrencyLimit (qo_rateLimit queue) in
        write (fun d =>
          set_taskQueue
            (map (fun q => if Nat.eqb (tq_id q) (tq_id found) then updated else q)
                 (db_taskQueue d)) d) ;;;
        ret updated
    | None =>
        friendly <- fresh ;;
        id <- fresh ;;
        let created :=
          {| tq_id := id;
             tq_friendlyId := friendly;
             tq_name := queueName p;
             tq_concurrencyLimit := concurrencyLimit;
             tq_runtimeEnvironmentId := env_id environment;
             tq_projectId := env_project_id environment;
             tq_rateLimit := qo_rateLimit queue;
             tq_type := TaskQueueType.NAMED |} in
        write (fun d => set_taskQueue (db_taskQueue d ++ [created]) d) ;;;
        ret created
    end ;;
  match tq_concurrencyLimit taskQueue with
  | Some limit =>
      runQueue_updateQueueConcurrencyLimits environment (tq_name taskQueue) limit
  | None =>
      runQueue_removeQueueConcurrencyLimits environment (tq_name taskQueue)
  end.

(** [trigger(params, tx?)], run on the engine's own client. *)
Definition trigger (p : TriggerParams) : Engine TaskRun :=
  let environment := environment p in
  let status :=
    if is_some (delayUntil p) then TaskRunStatus.DELAYED else TaskRunStatus.PENDING in
  (* create run *)
  taskRun <- taskRun_create p status ;;
  using_lock (run_id taskRun) (
    (* create associated waitpoint (this completes when the run completes) *)
    associatedWaitpoint <-
      createRunAssociatedWaitpoint (env_project_id environment) (run_id taskRun) ;;
    (* triggerAndWait or batchTriggerAndWait *)
    match parentTaskRunId p with
    | Some parent =>
        if bool_truthy (resumeParentOnCompletion p) then
          blockRunWithWaitpoint (env_organization_id environment) parent
            associatedWaitpoint ;;; ret tt
        else ret tt
    | None => ret tt
    end ;;;
    match queue p with
    | Some q => upsertTaskQueue p q
    | None => ret tt
    end ;;;
    match run_delayUntil taskRun with
    | Some delayUntil =>
        delayWaitpoint <-
          createDateTimeWaitpoint (env_project_id environment) delayUntil ;;
        taskRunWaitpoint_create (run_id taskRun) (wp_id delayWaitpoint)
          (wp_projectId delayWaitpoint) ;;; ret tt
    | None => ret tt
    end ;;;
    match run_delayUntil taskRun, string_truthy (run_ttl taskRun), run_ttl taskRun with
    | None, true, Some ttl =>
        s <- get ;;
        match parseNaturalLanguageDuration (now s) ttl with
        | Some expireAt =>
            worker_enqueue
              {| job_id := None;
                 job_payload := expireRun (run_id taskRun);
                 job_availableAt := None |}
        | None => ret tt
        end
    | _, _, _ => ret tt
    end ;;;
    (* enqueue the run if it's not delayed *)
    match run_delayUntil taskRun with
    | None => enqueueRun taskRun environment
    | Some _ => ret tt
    end) ;;;
  ret taskRun.

End Trigger.

(** *** Dequeue *)

(** How a call of [dequeueFromMasterQueue] ends: with [null], with the
    new snapshot, or with one of its two errors; [DequeueThrows] is an
    error of a method it calls. *)
Inductive Dequeued :=
  | DequeuedNull
  | DequeuedSnapshot (newSnapshot : TaskRunExecutionSnapshot)
  | DequeueNoSnapshotFound (messageId : Id)
  | DequeueNotInValidState (messageId : Id) (snapshot : TaskRunExecutionSnapshot)
  | DequeueThrows (e : EngineError).

Section Dequeue.

(** [runQueue.dequeueMessageInSharedQueue(consumerId, masterQueue)] is
    not among the sources: which message the queue selects, and what the
    queue looks like afterwards, is a parameter.  Of the message the
    engine reads [messageId], the id of the run. *)
Variable dequeueMessageInSharedQueue :
  string -> string -> RunQueue -> option Id * RunQueue.

(** [dequeueFromMasterQueue({ consumerId, masterQueue, tx })], run on the
    engine's own client. *)
Definition dequeueFromMasterQueue (consumerId masterQueue : string)
    (s : EngineState) : Dequeued * EngineState :=
  let (message, queue) :=
    dequeueMessageInSharedQueue consumerId masterQueue (runQueue s) in
  let s := set_runQueue queue s in
  match message with
  | None => (DequeuedNull, s)
  | Some messageId =>
      match getLatestExecutionSnapshot (prisma s) messageId with
      | None => (DequeueNoSnapshotFound messageId, s)
      | Some snapshot =>
          match snap_executionStatus snapshot with
          | TaskRunExecutionStatus.QUEUED
          | TaskRunExecutionStatus.BLOCKED_BY_WAITPOINTS =>
              match createExecutionSnapshot messageId (snap_runStatus snapshot)
                      TaskRunExecutionStatus.DEQUEUED_FOR_EXECUTION
                      "Run was dequeued for execution" s
              with
              | (Ok newSnapshot, s') => (DequeuedSnapshot newSnapshot, s')
              | (Err e, s') => (DequeueThrows e, s')
              end
          | _ => (DequeueNotInValidState messageId snapshot, s)
          end
      end
  end.

End Dequeue.

(** *** Vocabulary of the properties *)

(** Every id in the store has been drawn from the supply. *)
Definition ids_issued (s : EngineState) : Prop :=
  (forall run, In run (db_taskRun (prisma s)) -> run_id run < idSupply s)
  /\ (forall w, In w (db_waitpoint (prisma s)) -> wp_id w < idSupply s)
  /\ (forall row, In row (db_taskRunWaitpoint (prisma s)) ->
        trw_taskRunId row < idSupply s /\ trw_waitpointId row < idSupply s).

(** The concurrency limit the run queue holds for a queue of an
    environment. *)
Definition runQueue_limit (q : RunQueue) (environmentId queue : string)
    : option Z :=
  option_map snd
    (find (fun e => limit_key_eqb (fst e) (environmentId, queue))
          (rq_concurrencyLimits q)).

(** The message [#enqueueRun] and [#continueRun] publish for a run, with
    the master queue it goes to. *)
Definition published (timestamp : Z) (run : TaskRun) : string * Message :=
  (run_masterQueue run, message_of run (run_runtimeEnvironment run) timestamp).

(** A computation keeps an observation [f] of the state when [f] reads
    the same before and after, whether the computation returns or throws. *)
Definition keeps {X A} (f : EngineState -> X) (m : Engine A) : Prop :=
  forall s, f (snd (m s)) = f s.

(** The RUN_CREATED snapshots of the store. *)
Definition initial_snapshots (d : Db) : list TaskRunExecutionSnapshot :=
  filter
    (fun sn => TaskRunExecutionStatus.eqb (snap_executionStatus sn)
                 TaskRunExecutionStatus.RUN_CREATED)
    (db_taskRunExecutionSnapshot d).

(** The test [#continueRun] makes on the latest snapshot: the run is
    executing with a worker attached. *)
Definition executing_with_worker (snapshot : TaskRunExecutionSnapshot) : bool :=
  TaskRunExecutionStatus.eqb (snap_executionStatus snapshot)
    TaskRunExecutionStatus.EXECUTING
  && match snap_worker snapshot with Some _ => true | None => false end.

(** A run [#continueRun] can put back on the queue: it has a latest
    snapshot, which is not that of a run executing on a worker. *)
Definition continuable (d : Db) (run : TaskRun) : Prop :=
  exists snapshot,
    getLatestExecutionSnapshot d (run_id run) = Some snapshot
    /\ executing_with_worker snapshot = false.

(** Run [runId] is blocked by waitpoint [waitpointId]: a RunWaitpoint row
    joins them. *)
Definition blocked_by (d : Db) (waitpointId runId : Id) : Prop :=
  exists row,
    In row (db_taskRunWaitpoint d)
    /\ trw_waitpointId row = waitpointId /\ trw_taskRunId row = runId.

(** Run [runId] has no RunWaitpoint row at all. *)
Definition unblocked (d : Db) (runId : Id) : Prop :=
  forall row, In row (db_taskRunWaitpoint d) -> trw_taskRunId row <> runId.

Definition resumable_status (st : TaskRunStatus.t) : Prop :=
  st = TaskRunStatus.PENDING \/ st = TaskRunStatus.WAITING_TO_RESUME.

(** The run ids of the messages on the run queue, oldest first. *)
Definition enqueued_runs (s : EngineState) : list Id :=
  map (fun m => msg_runId (snd m)) (rq_messages (runQueue s)).

(** Unfolds the monad and the primitives, then reads the fields of the
    states built on the way. *)
Ltac run_engine :=
  cbv beta iota zeta delta
    [bind ret throw get modify write fresh using_lock
     worker_enqueue worker_ack startHeartbeating
     runQueue_enqueueMessage];
  cbn [fst snd prisma worker runQueue now idSupply
       set_prisma set_worker set_runQueue
       db_taskRun db_taskRunExecutionSnapshot db_waitpoint
       db_taskRunWaitpoint db_taskQueue
       set_taskRun set_taskRunExecutionSnapshot set_waitpoint
       set_taskRunWaitpoint set_taskQueue
       snap_id snap_runId snap_executionStatus
       rq_messages rq_concurrencyLimits].

End RunEngine.

(* ================================================================= *)
(** ** Managed run controller *)

Module Runner.

(** [attemptNumber?: number | null]. *)
Inductive AttemptNumber :=
  | attempt_undefined
  | attempt_null
  | attempt_number (n : Z).

(** Strict equality [===] on attempt numbers. *)
Definition AttemptNumber_eqb (a b : AttemptNumber) : bool :=
  match a, b with
  | attempt_undefined, attempt_undefined => true
  | attempt_null, attempt_null => true
  | attempt_number x, attempt_number y => (x =? y)%Z
  | _, _ => false
  end.

Record Run := {
  run_friendlyId : string;
  attemptNumber : AttemptNumber
}.

Record Snapshot := {
  snapshot_friendlyId : string
}.

(** The execution statuses the controller's exhaustive switch names. *)
Inductive ExecutionStatus :=
  | PENDING_CANCEL | FINISHED | EXECUTING_WITH_WAITPOINTS | SUSPENDED
  | PENDING_EXECUTING | EXECUTING | RUN_CREATED | QUEUED.

(** [this.state]: a run and a snapshot are held in the RUN phase only. *)
Inductive State :=
  | IDLE
  | WARM_START
  | RUN (run : Run) (snapshot : Snapshot).

Definition ExecutionStatus_name (status : ExecutionStatus) : string :=
  match status with
  | PENDING_CANCEL => "PENDING_CANCEL"
  | FINISHED => "FINISHED"
  | EXECUTING_WITH_WAITPOINTS => "EXECUTING_WITH_WAITPOINTS"
  | SUSPENDED => "SUSPENDED"
  | PENDING_EXECUTING => "PENDING_EXECUTING"
  | EXECUTING => "EXECUTING"
  | RUN_CREATED => "RUN_CREATED"
  | QUEUED => "QUEUED"
  end.

(** What the controller sends out or asks of its child process. *)
Inductive Effect :=
  | sendDebugLog (runId : string) (message : string)
  | emit_run_start (runId snapshotId : string)
  | emit_run_stop (runId snapshotId : string)
  | process_kill_SIGKILL
  | process_cancel
  | process_cleanup
  | process_waitpointCompleted (waitpoint : nat).

(** The controller: its phase, the two re-entrancy flags, whether the
    heartbeat and the snapshot poller are running, whether a child
    process exists, and the effects so far, oldest first. *)
Record Controller := {
  state : State;
  handleSnapshotChangeLock : bool;
  waitForNextRunLock : bool;
  runHeartbeat : bool;
  snapshotPoller : bool;
  taskRunProcess : bool;
  effects : list Effect
}.

Definition with_state (st : State) (c : Controller) : Controller :=
  {| state := st;
     handleSnapshotChangeLock := handleSnapshotChangeLock c;
     waitForNextRunLock := waitForNextRunLock c;
     runHeartbeat := runHeartbeat c;
     snapshotPoller := snapshotPoller c;
     taskRunProcess := taskRunProcess c;
     effects := effects c |}.

Definition with_handleSnapshotChangeLock (b : bool) (c : Controller) : Controller :=
  {| state := state c;
     handleSnapshotChangeLock := b;
     waitForNextRunLock := waitForNextRunLock c;
     runHeartbeat := runHeartbeat c;
     snapshotPoller := snapshotPoller c;
     taskRunProcess := taskRunProcess c;
     effects := effects c |}.

Definition with_waitForNextRunLock (b : bool) (c : Controller) : Controller :=
  {| state := state c;
     handleSnapshotChangeLock := handleSnapshotChangeLock c;
     waitForNextRunLock := b;
     runHeartbeat := runHeartbeat c;
     snapshotPoller := snapshotPoller c;
     taskRunProcess := taskRunProcess c;
     effects := effects c |}.

Definition with_services (heartbeat poller : bool) (c : Controller) : Controller :=
  {| state := state c;
     handleSnapshotChangeLock := handleSnapshotChangeLock c;
     waitForNextRunLock := waitForNextRunLock c;
     runHeartbeat := heartbeat;
     snapshotPoller := poller;
     taskRunProcess := taskRunProcess c;
     effects := effects c |}.

Definition perform (e : list Effect) (c : Controller) : Controller :=
  {| state := state c;
     handleSnapshotChangeLock := handleSnapshotChangeLock c;
     waitForNextRunLock := waitForNextRunLock c;
     runHeartbeat := runHeartbeat c;
     snapshotPoller := snapshotPoller c;
     taskRunProcess := taskRunProcess c;
     effects := effects c ++ e |}.

(** The getters [runFriendlyId] and [snapshotFriendlyId]. *)
Definition runFriendlyId (c : Controller) : option string :=
  match state c with
  | RUN run _ => Some (run_friendlyId run)
  | _ => None
  end.

Definition snapshotFriendlyId (c : Controller) : option string :=
  match state c with
  | RUN _ snapshot => Some (snapshot_friendlyId snapshot)
  | _ => None
  end.

Definition unsubscribeFromRunNotifications (run : Run) (snapshot : Snapshot)
    (c : Controller) : Controller :=
  perform [emit_run_stop (run_friendlyId run) (snapshot_friendlyId snapshot)] c.

Definition subscribeToRunNotifications (run : Run) (snapshot : Snapshot)
    (c : Controller) : Controller :=
  perform [emit_run_start (run_friendlyId run) (snapshot_friendlyId snapshot)] c.

(** [onExitRunPhase(newRun = undefined)]. *)
Definition onExitRunPhase (newRun : option Run) (c : Controller) : Controller :=
  match state c with
  | RUN run snapshot =>
      if match newRun with
         | Some r => String.eqb (run_friendlyId r) (run_friendlyId run)
         | None => false
         end
      then c
      else
        unsubscribeFromRunNotifications run snapshot
          (with_services false false c)
  | _ => c
  end.

(** [enterRunPhase(run, snapshot)]. *)
Definition enterRunPhase (run : Run) (snapshot : Snapshot) (c : Controller)
    : Controller :=
  with_services true true (with_state (RUN run snapshot) (onExitRunPhase (Some run) c)).

(** [enterWarmStartPhase()]. *)
Definition enterWarmStartPhase (c : Controller) : Controller :=
  with_state WARM_START (onExitRunPhase None c).

(** [this.state.phase]. *)
Definition phase_name (st : State) : string :=
  match st with
  | IDLE => "IDLE"
  | WARM_START => "WARM_START"
  | RUN _ _ => "RUN"
  end.

Inductive UpdateError :=
  | InvalidPhase
  | MismatchedRunIds
  | AttemptNumberChanged.

(** [updateRunPhase(run, snapshot)]: the controller afterwards, with the
    error when the method throws. *)
Definition updateRunPhase (run : Run) (snapshot : Snapshot) (c : Controller)
    : option UpdateError * Controller :=
  match state c with
  | RUN held heldSnapshot =>
      if negb (String.eqb (run_friendlyId held) (run_friendlyId run)) then
        (Some MismatchedRunIds,
         perform [sendDebugLog (run_friendlyId run) "updateRunPhase: Mismatched run IDs"] c)
      else if String.eqb (snapshot_friendlyId heldSnapshot) (snapshot_friendlyId snapshot) then
        (None,
         perform [sendDebugLog (run_friendlyId run) "updateRunPhase: Snapshot not changed"] c)
      else if negb (AttemptNumber_eqb (attemptNumber held) (attemptNumber run)) then
        (Some AttemptNumberChanged,
         perform [sendDebugLog (run_friendlyId run) "updateRunPhase: Attempt number changed"] c)
      else
        (None,
         with_state
           (RUN {| run_friendlyId := run_friendlyId run;
                   attemptNumber := attemptNumber run |}
                {| snapshot_friendlyId := snapshot_friendlyId snapshot |}) c)
  | _ =>
      (Some InvalidPhase,
       perform [sendDebugLog (run_friendlyId run)
                  ("updateRunPhase: Invalid phase for updating snapshot: "
                   ++ phase_name (state c))] c)
  end.

(** [waitForNextRun()] up to its first suspension: the flag is taken, the
    warm-start phase entered and the child process, if there is one, sent
    SIGKILL.  The long poll for the next run follows; the flag is given
    back when the poll has been answered. *)
Definition waitForNextRun (c : Controller) : Controller :=
  if waitForNextRunLock c then c
  else
    let c := enterWarmStartPhase (with_waitForNextRunLock true c) in
    perform (if taskRunProcess c then [process_kill_SIGKILL] else []) c.

(** What [handleSnapshotChange] did with an update.  A snapshot id that
    is missing or empty is falsy. *)
Inductive Handled :=
  | AlreadyInProgress
  | MissingSnapshotId
  | SnapshotNotChanged
  | FailedToUpdateRunPhase (e : UpdateError)
  | Reacting (status : ExecutionStatus).

(** The branch of the status switch, up to its first suspension (the
    cancelling or the cleanup of the child process, or the short sleep
    before the platform is told to continue).  The boolean tells whether
    the branch returned, so that the handler's flag is given back at
    once, or is suspended and still holds it. *)
Definition react (run : Run) (snapshot : Snapshot) (status : ExecutionStatus)
    (completedWaitpoints : list nat) (c : Controller) : bool * Controller :=
  match status with
  | PENDING_CANCEL =>
      (false, perform (if taskRunProcess c then [process_cancel] else []) c)
  | FINISHED => (true, c)
  | EXECUTING_WITH_WAITPOINTS =>
      (false, perform (if taskRunProcess c then [process_cleanup] else []) c)
  | SUSPENDED => (true, waitForNextRun c)
  | PENDING_EXECUTING =>
      match completedWaitpoints with
      | [] => (true, c)
      | _ :: _ => (false, c)
      end
  | EXECUTING =>
      match completedWaitpoints with
      | [] => (true, c)
      | _ :: _ =>
          if taskRunProcess c
          then (true, perform (map process_waitpointCompleted completedWaitpoints) c)
          else (true, c)
      end
  | RUN_CREATED | QUEUED => (true, c)
  end.

(** [handleSnapshotChange({ run, snapshot, completedWaitpoints })], up to
    the first suspension of the branch it takes; [status] is
    [snapshot.executionStatus]. *)
Definition handleSnapshotChange (run : Run) (snapshot : Snapshot)
    (status : ExecutionStatus) (completedWaitpoints : list nat)
    (c : Controller) : Handled * Controller :=
  if handleSnapshotChangeLock c then (AlreadyInProgress, c)
  else
    let c := with_handleSnapshotChangeLock true c in
    match snapshotFriendlyId c with
    | None | Some EmptyString =>
        (MissingSnapshotId,
         with_handleSnapshotChangeLock false
           (perform [sendDebugLog (run_friendlyId run)
                       "snapshot change: missing snapshot ID"] c))
    | Some held =>
        if String.eqb held (snapshot_friendlyId snapshot) then
          (SnapshotNotChanged,
           with_handleSnapshotChangeLock false
             (perform [sendDebugLog (run_friendlyId run)
                         "snapshot change: skipping, no change"] c))
        else
          let c :=
            perform [sendDebugLog (run_friendlyId run)
                       ("snapshot change: " ++ ExecutionStatus_name status)] c in
          match updateRunPhase run snapshot c with
          | (Some e, c) =>
              (FailedToUpdateRunPhase e,
               with_handleSnapshotChangeLock false (waitForNextRun c))
          | (None, c) =>
              let '(returned, c) := react run snapshot status completedWaitpoints c in
              (Reacting status,
               if returned then with_handleSnapshotChangeLock false c else c)
          end
    end.

(** [CompleteRunAttemptResult.attemptStatus]. *)
Inductive AttemptStatus :=
  | RUN_FINISHED | RUN_PENDING_CANCEL | RETRY_QUEUED | RETRY_IMMEDIATELY.

(** Of [completion] the handler reads [ok] and [retry]. *)
Record Completion := {
  completion_ok : bool;
  completion_retry : option Z
}.

Inductive CompletionError :=
  | ShouldRetryButCompletionOK
  | ShouldRetryButMissingRetryParams.

(** [handleCompletionResult(completion, result)] up to its first
    suspension, the sleep before an immediate retry; [attemptStatus],
    [run] and [completionSnapshot] are the fields of [result].  The error
    is the one the method throws. *)
Definition handleCompletionResult (completion : Completion)
    (attemptStatus : AttemptStatus) (run : Run) (completionSnapshot : Snapshot)
    (c : Controller) : option CompletionError * Controller :=
  match updateRunPhase run completionSnapshot c with
  | (Some _, c) => (None, waitForNextRun c)
  | (None, c) =>
      match attemptStatus with
      | RUN_FINISHED => (None, waitForNextRun c)
      | RUN_PENDING_CANCEL => (None, c)
      | RETRY_QUEUED => (None, waitForNextRun c)
      | RETRY_IMMEDIATELY =>
          if completion_ok completion then (Some ShouldRetryButCompletionOK, c)
          else
            match completion_retry completion with
            | None => (Some ShouldRetryButMissingRetryParams, c)
            | Some delay => (None, c)
            end
      end
  end.

(** The last step of [executeRun]: the completion result is handled, and
    an error of the handler sends the controller to wait for its next
    run. *)
Definition executeRun_handleCompletionResult (completion : Completion)
    (attemptStatus : AttemptStatus) (run : Run) (completionSnapshot : Snapshot)
    (c : Controller) : Controller :=
  match handleCompletionResult completion attemptStatus run completionSnapshot c with
  | (Some _, c) => waitForNextRun c
  | (None, c) => c
  end.

(** The attempt number of the run the controller holds. *)
Definition heldAttemptNumber (c : Controller) : option AttemptNumber :=
  match state c with
  | RUN run _ => Some (attemptNumber run)
  | _ => None
  end.

(** The effects that reach the child process. *)
Definition process_effect (e : Effect) : bool :=
  match e with
  | process_kill_SIGKILL | process_cancel | process_cleanup
  | process_waitpointCompleted _ => true
  | _ => false
  end.

End Runner.

(* ================================================================= *)
(** ** Example inputs *)

Module Examples.

(** *** Key producer *)

(** A deployed environment whose ids are single letters. *)
Definition env_o_p_e : KeyProducer.AuthenticatedEnvironment :=
  {| KeyProducer.id := KeyProducer.lit "e";
     KeyProducer.type := KeyProducer.PRODUCTION;
     KeyProducer.organizationId := KeyProducer.lit "o";
     KeyProducer.projectId := KeyProducer.lit "p" |}.

(** A development environment of the same organization and project. *)
Definition env_dev : KeyProducer.AuthenticatedEnvironment :=
  {| KeyProducer.id := KeyProducer.lit "d";
     KeyProducer.type := KeyProducer.DEVELOPMENT;
     KeyProducer.organizationId := KeyProducer.lit "o";
     KeyProducer.projectId := KeyProducer.lit "p" |}.

(** *** Run engine *)

Import RunEngine.
Local Open Scope string_scope.

Definition env_prod : MinimalAuthenticatedEnvironment :=
  {| env_id := "env_1";
     env_type := PRODUCTION;
     env_maximumConcurrencyLimit := 10;
     env_project_id := "proj_1";
     env_organization_id := "org_1" |}.

(** An engine that has seen nothing yet, at one second past the epoch. *)
Definition engine_0 : EngineState :=
  {| prisma :=
       {| db_taskRun := []; db_taskRunExecutionSnapshot := [];
          db_waitpoint := []; db_taskRunWaitpoint := []; db_taskQueue := [] |};
     worker := [];
     runQueue := {| rq_messages := []; rq_concurrencyLimits := [] |};
     now := 1000;
     idSupply := 1 |}.

(** A store without integrity constraints on run rows. *)
Definition accept_any (rows : list TaskRun) (r : TaskRun) : bool := true.

Definition option_string_eqb (a b : option string) : bool :=
  match a, b with
  | Some x, Some y => String.eqb x y
  | _, _ => false
  end.

(** A store that refuses a second run row with the idempotency key of a
    row of the same environment and task. *)
Definition unique_idempotencyKey (rows : list TaskRun) (r : TaskRun) : bool :=
  negb (existsb
          (fun r' =>
             String.eqb (env_id (run_runtimeEnvironment r'))
                        (env_id (run_runtimeEnvironment r))
             && String.eqb (run_taskIdentifier r') (run_taskIdentifier r)
             && option_string_eqb (run_idempotencyKey r') (run_idempotencyKey r))
          rows).

Definition digit_value (c : ascii) : option Z :=
  let n := Z.of_nat (nat_of_ascii c) in
  if ((48 <=? n) && (n <=? 57))%Z then Some (n - 48)%Z else None.

Fixpoint read_seconds (digits : nat) (acc : Z) (s : string) : option Z :=
  match s with
  | EmptyString => None
  | String c rest =>
      match digit_value c with
      | Some d => read_seconds (S digits) (acc * 10 + d) rest
      | None =>
          match digits, rest with
          | S _, EmptyString => if Ascii.eqb c "s"%char then Some acc else None
          | _, _ => None
          end
      end
  end.

(** Modelled from the spec: a reader of durations for the examples.  It
    understands whole seconds: ["30s"] is the date thirty seconds after
    the present; other text is not read. *)
Definition parse_seconds (present : Z) (duration : string) : option Z :=
  match read_seconds 0 0 duration with
  | Some seconds => Some (present + seconds * 1000)%Z
  | None => None
  end.

(** [trigger(task = "hello")] with an idempotency key. *)
Definition params_hello : TriggerParams :=
  {| friendlyId := "run_hello";
     number := 1;
     environment := env_prod;
     idempotencyKey := Some "k";
     taskIdentifier := "hello";
     payload := "[1]";
     payloadType := "application/json";
     concurrencyKey := None;
     masterQueue := "m";
     queueName := "task/hello";
     queue := None;
     isTest := false;
     delayUntil := None;
     queuedAt := None;
     maxAttempts := None;
     ttl := None;
     tags := [];
     parentTaskRunId := None;
     parentTaskRunAttemptId := None;
     rootTaskRunId := None;
     batchId := None;
     resumeParentOnCompletion := None;
     depth := None |}.

(** [trigger(task = "hello", ttl = "30s")]. *)
Definition params_ttl : TriggerParams :=
  {| friendlyId := "run_ttl";
     number := 1;
     environment := env_prod;
     idempotencyKey := None;
     taskIdentifier := "hello";
     payload := "[1]";
     payloadType := "application/json";
     concurrencyKey := None;
     masterQueue := "m";
     queueName := "task/hello";
     queue := None;
     isTest := false;
     delayUntil := None;
     queuedAt := None;
     maxAttempts := None;
     ttl := Some "30s";
     tags := [];
     parentTaskRunId := None;
     parentTaskRunAttemptId := None;
     rootTaskRunId := None;
     batchId := None;
     resumeParentOnCompletion := None;
     depth := None |}.

(** [trigger(task = "hello", delay = 9000, ttl = "30s")]: the run is to
    start at time 9000. *)
Definition params_delayed : TriggerParams :=
  {| friendlyId := "run_delayed";
     number := 1;
     environment := env_prod;
     idempotencyKey := None;
     taskIdentifier := "hello";
     payload := "[1]";
     payloadType := "application/json";
     concurrencyKey := None;
     masterQueue := "m";
     queueName := "task/hello";
     queue := None;
     isTest := false;
     delayUntil := Some 9000%Z;
     queuedAt := None;
     maxAttempts := None;
     ttl := Some "30s";
     tags := [];
     parentTaskRunId := None;
     parentTaskRunAttemptId := None;
     rootTaskRunId := None;
     batchId := None;
     resumeParentOnCompletion := None;
     depth := None |}.

(** The engine after the parent run of the next example was triggered:
    the parent is run 1. *)
Definition engine_with_parent : EngineState :=
  snd (trigger accept_any parse_seconds params_hello engine_0).

(** [trigger(task = "child", parentRunId = 1, resumeParentOnCompletion = true)]. *)
Definition params_child : TriggerParams :=
  {| friendlyId := "run_child";
     number := 2;
     environment := env_prod;
     idempotencyKey := None;
     taskIdentifier := "child";
     payload := "[1]";
     payloadType := "application/json";
     concurrencyKey := None;
     masterQueue := "m";
     queueName := "task/child";
     queue := None;
     isTest := false;
     delayUntil := None;
     queuedAt := None;
     maxAttempts := None;
     ttl := None;
     tags := [];
     parentTaskRunId := Some 1;
     parentTaskRunAttemptId := None;
     rootTaskRunId := Some 1;
     batchId := None;
     resumeParentOnCompletion := Some true;
     depth := Some 1%Z |}.

(** A parent run waiting for a child: run [runId], WAITING_TO_RESUME. *)
Definition waiting_run (runId : Id) : TaskRun :=
  {| run_id := runId;
     run_status := TaskRunStatus.WAITING_TO_RESUME;
     run_number := 1;
     run_friendlyId := "run_parent";
     run_runtimeEnvironment := env_prod;
     run_projectId := "proj_1";
     run_idempotencyKey := None;
     run_taskIdentifier := "parent";
     run_payload := "[1]";
     run_payloadType := "application/json";
     run_concurrencyKey := None;
     run_queue := "task/parent";
     run_masterQueue := "m";
     run_isTest := false;
     run_delayUntil := None;
     run_queuedAt := None;
     run_maxAttempts := None;
     run_ttl := None;
     run_tags := [];
     run_parentTaskRunId := None;
     run_parentTaskRunAttemptId := None;
     run_rootTaskRunId := None;
     run_batchId := None;
     run_resumeParentOnCompletion := None;
     run_depth := None |}.

(** The latest snapshot of a waiting run: EXECUTING, on [worker] if any. *)
Definition executing_snapshot (snapshotId runId : Id) (worker : option Id)
    : TaskRunExecutionSnapshot :=
  {| snap_id := snapshotId;
     snap_runId := runId;
     snap_executionStatus := TaskRunExecutionStatus.EXECUTING;
     snap_description := "Run is executing";
     snap_runStatus := TaskRunStatus.WAITING_TO_RESUME;
     snap_createdAt := 4000;
     snap_worker := worker |}.

(** The run-type waitpoint 10 of a child run 3. *)
Definition child_waitpoint (status : WaitpointStatus.t) : Waitpoint :=
  {| wp_id := 10;
     wp_type := WaitpointType.RUN;
     wp_status := status;
     wp_idempotencyKey := 9;
     wp_userProvidedIdempotencyKey := false;
     wp_projectId := "proj_1";
     wp_completedByTaskRunId := Some 3;
     wp_completedAfter := None |}.

Definition blocked_on_child (rowId runId : Id) : TaskRunWaitpoint :=
  {| trw_id := rowId; trw_taskRunId := runId; trw_waitpointId := 10;
     trw_projectId := "proj_1" |}.

(** Runs 1 and 2 both wait for waitpoint 10.  The latest snapshot of run
    1 is EXECUTING on [worker1], that of run 2 is EXECUTING without a
    worker. *)
Definition two_parents_waiting (worker1 : option Id) : EngineState :=
  {| prisma :=
       {| db_taskRun := [waiting_run 1; waiting_run 2];
          db_taskRunExecutionSnapshot :=
            [executing_snapshot 4 1 worker1; executing_snapshot 5 2 None];
          db_waitpoint := [child_waitpoint WaitpointStatus.PENDING];
          db_taskRunWaitpoint := [blocked_on_child 11 1; blocked_on_child 12 2];
          db_taskQueue := [] |};
     worker := [];
     runQueue := {| rq_messages := []; rq_concurrencyLimits := [] |};
     now := 5000;
     idSupply := 20 |}.

(** Waitpoint 10 is pending and blocks no run. *)
Definition nobody_waiting : EngineState :=
  {| prisma :=
       {| db_taskRun := [waiting_run 1];
          db_taskRunExecutionSnapshot := [executing_snapshot 4 1 None];
          db_waitpoint := [child_waitpoint WaitpointStatus.PENDING];
          db_taskRunWaitpoint := [];
          db_taskQueue := [] |};
     worker := [];
     runQueue := {| rq_messages := []; rq_concurrencyLimits := [] |};
     now := 5000;
     idSupply := 20 |}.

(** Waitpoint 10 has been completed. *)
Definition child_completed : EngineState :=
  {| prisma :=
       {| db_taskRun := [waiting_run 1];
          db_taskRunExecutionSnapshot := [executing_snapshot 4 1 None];
          db_waitpoint := [child_waitpoint WaitpointStatus.COMPLETED];
          db_taskRunWaitpoint := [];
          db_taskQueue := [] |};
     worker := [];
     runQueue := {| rq_messages := []; rq_concurrencyLimits := [] |};
     now := 5000;
     idSupply := 20 |}.

(** A snapshot of run [runId] without a worker, created at [createdAt]. *)
Definition snapshot_at (snapshotId runId : Id)
    (status : TaskRunExecutionStatus.t) (createdAt : Z)
    : TaskRunExecutionSnapshot :=
  {| snap_id := snapshotId;
     snap_runId := runId;
     snap_executionStatus := status;
     snap_description := "A snapshot of the run";
     snap_runStatus := TaskRunStatus.WAITING_TO_RESUME;
     snap_createdAt := createdAt;
     snap_worker := None |}.

(** The stall check of a snapshot, as [#startHeartbeating] schedules it. *)
Definition stall_check (runId snapshotId : Id) (availableAt : Z) : Job :=
  {| job_id := Some (heartbeatSnapshot_id snapshotId);
     job_payload := heartbeatSnapshot runId snapshotId;
     job_availableAt := Some availableAt |}.

(** Run 1 has moved on.  Its QUEUED snapshot 4, created at 4000, was
    followed at 4500 by the EXECUTING snapshot 6; it is now 64000 and the
    stall check of snapshot 4 is due. *)
Definition moved_on : EngineState :=
  {| prisma :=
       {| db_taskRun := [waiting_run 1];
          db_taskRunExecutionSnapshot :=
            [ snapshot_at 4 1 TaskRunExecutionStatus.QUEUED 4000;
              snapshot_at 6 1 TaskRunExecutionStatus.EXECUTING 4500 ];
          db_waitpoint := [];
          db_taskRunWaitpoint := [];
          db_taskQueue := [] |};
     worker := [stall_check 1 4 64000; stall_check 1 6 904500];
     runQueue := {| rq_messages := []; rq_concurrencyLimits := [] |};
     now := 64000;
     idSupply := 20 |}.

(** *** Managed run controller *)

(** A controller executing attempt 1 of run [run_1] at snapshot
    [snapshot_1], with a child process; [busy] tells whether a snapshot
    change is being handled. *)
Definition executing_controller (busy : bool) : Runner.Controller :=
  {| Runner.state :=
       Runner.RUN
         {| Runner.run_friendlyId := "run_1";
            Runner.attemptNumber := Runner.attempt_number 1 |}
         {| Runner.snapshot_friendlyId := "snapshot_1" |};
     Runner.handleSnapshotChangeLock := busy;
     Runner.waitForNextRunLock := false;
     Runner.runHeartbeat := true;
     Runner.snapshotPoller := true;
     Runner.taskRunProcess := true;
     Runner.effects := [] |}.

(** A controller between two runs, its last child process still there. *)
Definition warm_controller : Runner.Controller :=
  {| Runner.state := Runner.WARM_START;
     Runner.handleSnapshotChangeLock := false;
     Runner.waitForNextRunLock := false;
     Runner.runHeartbeat := false;
     Runner.snapshotPoller := false;
     Runner.taskRunProcess := true;
     Runner.effects := [] |}.

(** The platform reports attempt 2 of the same run, at a new snapshot. *)
Definition reported_run : Runner.Run :=
  {| Runner.run_friendlyId := "run_1";
     Runner.attemptNumber := Runner.attempt_number 2 |}.

Definition reported_snapshot : Runner.Snapshot :=
  {| Runner.snapshot_friendlyId := "snapshot_2" |}.

End Examples.

(* ================================================================= *)
(** ** Properties of the key producer *)

Section KeyProducerProperties.

Import KeyProducer.

Lemma CK_INFIX_units : CK_INFIX = [58; 99; 107; 58]%N.
Proof. reflexivity. Qed.

(** A segment without a colon is copied: no match starts inside it. *)
Lemma replace_ck_suffix_segment (seg rest : js_string) :
  colon_free seg ->
  replace_ck_suffix (seg ++ rest) = seg ++ replace_ck_suffix rest.
Proof.
  induction seg as [|c seg IH]; intros Hfree; [reflexivity|].
  assert (Hc : (58 =? c)%N = false).
  { apply N.eqb_neq. intros E. apply Hfree. left. symmetry. exact E. }
  assert (Hseg : colon_free seg).
  { intros Hin. apply Hfree. right. exact Hin. }
  cbn [app replace_ck_suffix]. rewrite CK_INFIX_units.
  cbn [starts_with]. rewrite Hc. cbn [andb].
  now rewrite IH.
Qed.

(** After a colon, a colon-free segment other than ["ck"] (or any
    colon-free segment that ends the string) starts no match. *)
Lemma starts_with_ck_segment (seg rest : js_string) :
  colon_free seg ->
  (seg = lit "ck" -> rest = []) ->
  rest = [] \/ (exists r, rest = COLON :: r) ->
  starts_with [99; 107; 58]%N (seg ++ rest) = false.
Proof.
  intros Hfree Hck Hrest.
  destruct seg as [|a [|b [|c seg]]]; cbn [app starts_with].
  - destruct Hrest as [-> | [r ->]]; reflexivity.
  - destruct Hrest as [-> | [r ->]]; cbn [starts_with];
      now rewrite ?andb_false_r.
  - destruct (99 =? a)%N eqn:Ea; [|reflexivity].
    destruct (107 =? b)%N eqn:Eb; [|reflexivity].
    apply N.eqb_eq in Ea, Eb. subst a b.
    now rewrite (Hck eq_refl).
  - assert (Hc : (58 =? c)%N = false).
    { apply N.eqb_neq. intros E. apply Hfree. right. right. left.
      symmetry. exact E. }
    rewrite Hc. now rewrite !andb_false_r.
Qed.

Lemma replace_ck_suffix_colon_segment (seg rest : js_string) :
  colon_free seg ->
  (seg = lit "ck" -> rest = []) ->
  rest = [] \/ (exists r, rest = COLON :: r) ->
  replace_ck_suffix (COLON :: seg ++ rest)
  = COLON :: seg ++ replace_ck_suffix rest.
Proof.
  intros Hfree Hck Hrest.
  cbn [replace_ck_suffix]. rewrite CK_INFIX_units.
  change (starts_with [58; 99; 107; 58]%N (COLON :: seg ++ rest))
    with (starts_with [99; 107; 58]%N (seg ++ rest)).
  rewrite (starts_with_ck_segment seg rest Hfree Hck Hrest). cbn [andb].
  now rewrite replace_ck_suffix_segment.
Qed.

Lemma glue_starts_with_colon (segments : list js_string) (tail : js_string) :
  tail = [] \/ (exists r, tail = COLON :: r) ->
  glue segments tail = [] \/ (exists r, glue segments tail = COLON :: r).
Proof.
  destruct segments as [|seg rest]; cbn [glue]; [tauto|].
  intros _. right. now eexists.
Qed.

(** Segments that are colon-free and none of which is ["ck"] are all
    copied. *)
Lemma replace_ck_suffix_glue (segments : list js_string) (tail : js_string) :
  Forall colon_free segments ->
  Forall (fun seg => seg <> lit "ck") segments ->
  tail = [] \/ (exists r, tail = COLON :: r) ->
  replace_ck_suffix (glue segments tail) = glue segments (replace_ck_suffix tail).
Proof.
  intros Hfree Hnck Htail.
  induction segments as [|seg rest IH]; [reflexivity|].
  inversion Hfree as [|? ? Hseg Hrest]; subst.
  inversion Hnck as [|? ? Hne Hnrest]; subst.
  cbn [glue].
  rewrite replace_ck_suffix_colon_segment; auto.
  - now rewrite IH.
  - intros E. contradiction.
  - now apply glue_starts_with_colon.
Qed.

Lemma queueKey_shape (env : AuthenticatedEnvironment) (queue : js_string)
    (concurrencyKey : option js_string) :
  queueKey env queue concurrencyKey
  = lit "org"
    ++ glue [ organizationId env; lit "proj"; projectId env; lit "envType";
              match type env with DEVELOPMENT => lit "dev" | _ => lit "deployed" end;
              lit "env"; id env; lit "queue" ]
         (COLON :: queue ++ ck_tail concurrencyKey).
Proof.
  unfold queueKey, orgKeySection, projKeySection, envTypeKeySection,
    envKeySection, queueSection, concurrencyKeySection, colon_pair.
  destruct concurrencyKey as [[|c k]|]; cbn [truthy app join glue ck_tail];
    repeat (rewrite <- ?app_assoc; cbn [app]);
    rewrite ?app_nil_r; reflexivity.
Qed.

Lemma replace_ck_suffix_ck_tail (concurrencyKey : option js_string) :
  (forall k, concurrencyKey = Some k -> line_terminator_free k) ->
  replace_ck_suffix (ck_tail concurrencyKey) = [].
Proof.
  intros Hlt. destruct concurrencyKey as [[|c k]|]; try reflexivity.
  specialize (Hlt (c :: k) eq_refl).
  assert (Hall : forallb (fun c => negb (isLineTerminator c)) (c :: k) = true).
  { apply forallb_forall. intros x Hx. now rewrite (Hlt x Hx). }
  cbn [ck_tail]. change (lit "ck") with [99; 107]%N. cbn [app].
  cbn [replace_ck_suffix]. rewrite CK_INFIX_units.
  change (skipn 4 (COLON :: 99%N :: 107%N :: COLON :: c :: k)) with (c :: k).
  change (starts_with [58; 99; 107; 58]%N (COLON :: 99%N :: 107%N :: COLON :: c :: k))
    with true.
  cbn [andb dot_plus_to_end]. now rewrite Hall.
Qed.

(** Literals are checked by computation. *)
Lemma lit_colon_free_by_computation (s : string) :
  forallb (fun c => negb (c =? COLON)%N) (lit s) = true -> colon_free (lit s).
Proof.
  intros Hs Hin. rewrite forallb_forall in Hs.
  specialize (Hs _ Hin). now rewrite N.eqb_refl in Hs.
Qed.

Lemma lit_line_terminator_free_by_computation (s : string) :
  forallb (fun c => negb (isLineTerminator c)) (lit s) = true ->
  line_terminator_free (lit s).
Proof.
  intros Hs c Hin. rewrite forallb_forall in Hs.
  specialize (Hs _ Hin). now destruct (isLineTerminator c).
Qed.

Lemma replace_ck_suffix_queueKey (env : AuthenticatedEnvironment)
    (queue : js_string) (concurrencyKey : option js_string) :
  colon_free (organizationId env) ->
  colon_free (projectId env) ->
  colon_free (id env) ->
  colon_free queue ->
  organizationId env <> lit "ck" ->
  projectId env <> lit "ck" ->
  id env <> lit "ck" ->
  (truthy concurrencyKey = true -> queue <> lit "ck") ->
  (forall k, concurrencyKey = Some k -> line_terminator_free k) ->
  replace_ck_suffix (queueKey env queue concurrencyKey) = queueKey env queue None.
Proof.
  intros Ho Hp He Hq No Np Ne Nq Hlt.
  rewrite !queueKey_shape.
  pose proof lit_colon_free_by_computation as Hlit.
  rewrite replace_ck_suffix_segment by (now apply Hlit).
  rewrite replace_ck_suffix_glue.
  - rewrite replace_ck_suffix_colon_segment.
    + now rewrite replace_ck_suffix_ck_tail.
    + exact Hq.
    + intros E. destruct concurrencyKey as [[|c k]|]; try reflexivity.
      exfalso. now apply Nq.
    + destruct concurrencyKey as [[|c k]|]; cbn [ck_tail]; auto.
      right. now eexists.
  - repeat constructor; auto; try (now apply Hlit).
    destruct (type env); now apply Hlit.
  - repeat constructor; auto; try discriminate.
    destruct (type env); discriminate.
  - right. now eexists.
Qed.

(** C8, amended.  For an environment, a queue name and an optional
    concurrency key in which no id and no name contains a colon, where
    moreover none of the organisation id, the project id and the
    environment id is the text ["ck"], and where a non-empty concurrency
    key contains no line terminator and goes with a queue name other than
    ["ck"]: the concurrency-limit key derived from the queue key is the
    concurrency-limit key of the queue. *)
Theorem concurrencyLimitKeyFromQueue_of_queueKey
    (env : AuthenticatedEnvironment) (queue : js_string)
    (concurrencyKey : option js_string) :
  colon_free (organizationId env) ->
  colon_free (projectId env) ->
  colon_free (id env) ->
  colon_free queue ->
  (forall k, concurrencyKey = Some k -> colon_free k) ->
  organizationId env <> lit "ck" ->
  projectId env <> lit "ck" ->
  id env <> lit "ck" ->
  (truthy concurrencyKey = true -> queue <> lit "ck") ->
  (forall k, concurrencyKey = Some k -> line_terminator_free k) ->
  concurrencyLimitKeyFromQueue (queueKey env queue concurrencyKey)
  = queueConcurrencyLimitKey env queue.
Proof.
  intros Ho Hp He Hq _ No Np Ne Nq Hlt.
  unfold concurrencyLimitKeyFromQueue, queueConcurrencyLimitKey, colon_pair.
  rewrite replace_ck_suffix_queueKey by assumption.
  reflexivity.
Qed.

(** The amended C8 at the queue ["emails"] of the environment
    [env_o_p_e], under the concurrency key ["user1"]. *)
Lemma concurrencyLimitKeyFromQueue_of_queueKey_witness :
  concurrencyLimitKeyFromQueue
    (queueKey Examples.env_o_p_e (lit "emails") (Some (lit "user1")))
  = queueConcurrencyLimitKey Examples.env_o_p_e (lit "emails").
Proof.
  apply (concurrencyLimitKeyFromQueue_of_queueKey
           Examples.env_o_p_e (lit "emails") (Some (lit "user1"))).
  - now apply lit_colon_free_by_computation.
  - now apply lit_colon_free_by_computation.
  - now apply lit_colon_free_by_computation.
  - now apply lit_colon_free_by_computation.
  - intros k E. injection E as <-. now apply lit_colon_free_by_computation.
  - discriminate.
  - discriminate.
  - discriminate.
  - discriminate.
  - intros k E. injection E as <-.
    now apply lit_line_terminator_free_by_computation.
Defined.

(** C8 as stated fails.  No id, name or key below contains a colon, yet
    for the queue named ["ck"] under the concurrency key ["k"] the derived
    key stops at ["...:queue"]: the expression cuts the queue key at the
    first [":ck:"], which here is the queue's own name. *)
Lemma concurrencyLimitKeyFromQueue_of_queueKey_counterexample :
  colon_free (organizationId Examples.env_o_p_e)
  /\ colon_free (projectId Examples.env_o_p_e)
  /\ colon_free (id Examples.env_o_p_e)
  /\ colon_free (lit "ck")
  /\ colon_free (lit "k")
  /\ concurrencyLimitKeyFromQueue
       (queueKey Examples.env_o_p_e (lit "ck") (Some (lit "k")))
     = lit "org:o:proj:p:envType:deployed:env:e:queue:concurrency"
  /\ queueConcurrencyLimitKey Examples.env_o_p_e (lit "ck")
     = lit "org:o:proj:p:envType:deployed:env:e:queue:ck:concurrency"
  /\ concurrencyLimitKeyFromQueue
       (queueKey Examples.env_o_p_e (lit "ck") (Some (lit "k")))
     <> queueConcurrencyLimitKey Examples.env_o_p_e (lit "ck").
Proof.
  repeat split; try (now apply lit_colon_free_by_computation);
    try reflexivity.
  vm_compute. discriminate.
Qed.

End KeyProducerProperties.

(* ================================================================= *)
(** ** Properties of the run engine *)

Section RunEngineProperties.

Import RunEngine.

(** *** Running monadic code *)

Lemma bind_Ok {A B} (m : Engine A) (k : A -> Engine B) s a s' :
  m s = (Ok a, s') -> bind m k s = k a s'.
Proof. intros H. unfold bind. now rewrite H. Qed.

Lemma bind_Err {A B} (m : Engine A) (k : A -> Engine B) s e s' :
  m s = (Err e, s') -> bind m k s = (Err e, s').
Proof. intros H. unfold bind. now rewrite H. Qed.

Lemma bind_Ok_inv {A B} (m : Engine A) (k : A -> Engine B) s b s' :
  bind m k s = (Ok b, s') ->
  exists a sa, m s = (Ok a, sa) /\ k a sa = (Ok b, s').
Proof.
  unfold bind. destruct (m s) as [[a|e] sa]; intros H.
  - now exists a, sa.
  - discriminate.
Qed.

Lemma set_prisma_same s : set_prisma (prisma s) s = s.
Proof. now destruct s. Qed.

Lemma rolled_back_same d : rolled_back d d = d.
Proof. now destruct d. Qed.

(** *** Observations kept by a computation *)

Lemma keeps_ret {X A} (f : EngineState -> X) (a : A) : keeps f (ret a).
Proof. now intros s. Qed.

Lemma keeps_throw {X A} (f : EngineState -> X) e : keeps f (@throw A e).
Proof. now intros s. Qed.

Lemma keeps_get {X} (f : EngineState -> X) : keeps f get.
Proof. now intros s. Qed.

Lemma keeps_bind {X A B} (f : EngineState -> X) (m : Engine A)
    (k : A -> Engine B) :
  keeps f m -> (forall a, keeps f (k a)) -> keeps f (bind m k).
Proof.
  intros Hm Hk s. unfold bind.
  specialize (Hm s). destruct (m s) as [[a|e] sa]; cbn [snd] in *.
  - now rewrite Hk.
  - exact Hm.
Qed.

Lemma keeps_modify {X} (f : EngineState -> X) g :
  (forall s, f (g s) = f s) -> keeps f (modify g).
Proof. intros H s. apply H. Qed.

Lemma keeps_for_each {X A} (f : EngineState -> X) (xs : list A) body :
  (forall x, keeps f (body x)) -> keeps f (for_each xs body).
Proof.
  intros H. induction xs as [|x xs IH]; cbn [for_each].
  - apply keeps_ret.
  - apply keeps_bind; auto.
Qed.

(** *** The delayed-job worker *)

Lemma JobId_eqb_refl i : JobId_eqb i i = true.
Proof. destruct i; apply Nat.eqb_refl. Qed.

Lemma filter_after_its_negation {A} (p : A -> bool) (l : list A) :
  filter p (filter (fun x => negb (p x)) l) = [].
Proof.
  induction l as [|x l IH]; [reflexivity|].
  cbn [filter]. destruct (p x) eqn:E; cbn [negb filter]; [exact IH|].
  now rewrite E.
Qed.

(** A job enqueued under an id is afterwards the one job under that id. *)
Lemma Worker_enqueue_one_job i payload availableAt jobs :
  let j := {| job_id := Some i; job_payload := payload;
              job_availableAt := availableAt |} in
  filter (job_has_id i) (Worker_enqueue j jobs) = [j].
Proof.
  cbn. unfold Worker_enqueue. cbn [job_id].
  rewrite filter_app, filter_after_its_negation. cbn [filter app].
  unfold job_has_id at 1. cbn [job_id]. now rewrite JobId_eqb_refl.
Qed.

Lemma filter_twice {A} (p : A -> bool) (l : list A) :
  filter p (filter p l) = filter p l.
Proof.
  induction l as [|x l IH]; [reflexivity|].
  cbn [filter]. destruct (p x) eqn:E; cbn [filter]; rewrite ?E; now rewrite IH.
Qed.

(** ... and the jobs under other ids are the ones there were. *)
Lemma Worker_enqueue_other_jobs i payload availableAt jobs :
  let j := {| job_id := Some i; job_payload := payload;
              job_availableAt := availableAt |} in
  filter (fun j' => negb (job_has_id i j')) (Worker_enqueue j jobs)
  = filter (fun j' => negb (job_has_id i j')) jobs.
Proof.
  cbn. unfold Worker_enqueue. cbn [job_id].
  rewrite filter_app, filter_twice. cbn [filter].
  unfold job_has_id at 2. cbn [job_id]. rewrite JobId_eqb_refl.
  cbn [negb]. apply app_nil_r.
Qed.

(** *** Execution snapshots and their stall checks *)

(** C5, amended.  Creating an execution snapshot through
    [#createExecutionSnapshot] always returns; it appends the snapshot to
    the store and schedules one [heartbeatSnapshot] job, under the id
    built from the snapshot's id, that becomes available 60 seconds after
    the present when the execution status is RUN_CREATED, QUEUED,
    BLOCKED_BY_WAITPOINTS, DEQUEUED_FOR_EXECUTION or FINISHED, and 15
    minutes after the present when it is EXECUTING.  The other jobs of the
    worker stay as they are. *)
Theorem createExecutionSnapshot_schedules_stall_check
    (runId : Id) (runStatus : TaskRunStatus.t)
    (executionStatus : TaskRunExecutionStatus.t) (description : string)
    (s : EngineState) :
  exists newSnapshot s',
    createExecutionSnapshot runId runStatus executionStatus description s
    = (Ok newSnapshot, s')
    /\ snap_runId newSnapshot = runId
    /\ snap_executionStatus newSnapshot = executionStatus
    /\ db_taskRunExecutionSnapshot (prisma s')
       = db_taskRunExecutionSnapshot (prisma s) ++ [newSnapshot]
    /\ filter (job_has_id (heartbeatSnapshot_id (snap_id newSnapshot))) (worker s')
       = [ {| job_id := Some (heartbeatSnapshot_id (snap_id newSnapshot));
              job_payload := heartbeatSnapshot runId (snap_id newSnapshot);
              job_availableAt :=
                Some (now s +
                      match executionStatus with
                      | TaskRunExecutionStatus.RUN_CREATED => 60 * 1000
                      | TaskRunExecutionStatus.QUEUED => 60 * 1000
                      | TaskRunExecutionStatus.BLOCKED_BY_WAITPOINTS => 60 * 1000
                      | TaskRunExecutionStatus.DEQUEUED_FOR_EXECUTION => 60 * 1000
                      | TaskRunExecutionStatus.FINISHED => 60 * 1000
                      | TaskRunExecutionStatus.EXECUTING => 15 * 60 * 1000
                      end)%Z |} ]
    /\ filter (fun j => negb (job_has_id (heartbeatSnapshot_id (snap_id newSnapshot)) j))
         (worker s')
       = filter (fun j => negb (job_has_id (heartbeatSnapshot_id (snap_id newSnapshot)) j))
           (worker s).
Proof.
  destruct executionStatus;
    (unfold createExecutionSnapshot; run_engine;
     do 2 eexists; split; [reflexivity|];
     run_engine;
     repeat split;
     [ apply Worker_enqueue_one_job | apply Worker_enqueue_other_jobs ]).
Qed.

(** *** What creating a snapshot and continuing a run leave alone *)

(** The state after [#createExecutionSnapshot]: one more snapshot, one
    more (or one replaced) heartbeat job, one identifier used. *)
Lemma createExecutionSnapshot_runs runId runStatus executionStatus description s :
  exists newSnapshot job,
    createExecutionSnapshot runId runStatus executionStatus description s
    = (Ok newSnapshot,
       {| prisma :=
            set_taskRunExecutionSnapshot
              (db_taskRunExecutionSnapshot (prisma s) ++ [newSnapshot]) (prisma s);
          worker := Worker_enqueue job (worker s);
          runQueue := runQueue s;
          now := now s;
          idSupply := S (idSupply s) |})
    /\ snap_runId newSnapshot = runId
    /\ snap_executionStatus newSnapshot = executionStatus
    /\ snap_worker newSnapshot = None.
Proof.
  destruct executionStatus; unfold createExecutionSnapshot; run_engine;
    do 2 eexists; (split; [reflexivity|]); repeat split.
Qed.

Lemma getLatestExecutionSnapshot_appended d newSnapshot runId :
  getLatestExecutionSnapshot
    (set_taskRunExecutionSnapshot
       (db_taskRunExecutionSnapshot d ++ [newSnapshot]) d) runId
  = pick_latest runId (getLatestExecutionSnapshot d runId) newSnapshot.
Proof.
  unfold getLatestExecutionSnapshot. cbn [set_taskRunExecutionSnapshot
    db_taskRunExecutionSnapshot].
  now rewrite fold_left_app.
Qed.

(** A snapshot without a worker keeps every run continuable. *)
Lemma continuable_appended d newSnapshot run :
  snap_worker newSnapshot = None ->
  continuable d run ->
  continuable
    (set_taskRunExecutionSnapshot
       (db_taskRunExecutionSnapshot d ++ [newSnapshot]) d) run.
Proof.
  intros Hworker [latest [Hlatest Hok]].
  unfold continuable. rewrite getLatestExecutionSnapshot_appended, Hlatest.
  unfold pick_latest.
  assert (Hnew : executing_with_worker newSnapshot = false).
  { unfold executing_with_worker. rewrite Hworker. apply andb_false_r. }
  destruct (Nat.eqb (snap_runId newSnapshot) (run_id run)).
  - destruct (snap_createdAt latest <=? snap_createdAt newSnapshot)%Z;
      eexists; split; eauto.
  - eexists; split; eauto.
Qed.

(** The case analysis of [#continueRun]: no snapshot, a run executing on
    a worker, any other run. *)
Ltac continueRun_snapshot s run st text :=
  let newSnapshot := fresh "newSnapshot" in
  let job := fresh "job" in
  let Hrun := fresh "Hrun" in
  let HrunId := fresh "HrunId" in
  let Hstatus := fresh "Hstatus" in
  let Hworker := fresh "Hworker" in
  destruct (createExecutionSnapshot_runs (run_id run) (run_status run) st text s)
    as [newSnapshot [job [Hrun [HrunId [Hstatus Hworker]]]]];
  cbv beta; rewrite !Hrun; run_engine.

Ltac continueRun_cases s run :=
  let latest := fresh "latest" in
  let Hlatest := fresh "Hlatest" in
  let Hexec := fresh "Hexec" in
  unfold continueRun, using_lock; cbv beta iota zeta delta [bind get];
  destruct (getLatestExecutionSnapshot (prisma s) (run_id run))
    as [latest|] eqn:Hlatest;
  [ fold (executing_with_worker latest);
    destruct (executing_with_worker latest) eqn:Hexec;
    [ continueRun_snapshot s run TaskRunExecutionStatus.EXECUTING
        "Run was continued, whilst still executing."%string
    | continueRun_snapshot s run TaskRunExecutionStatus.QUEUED
        "Run was QUEUED, because it needs to be continued."%string ]
  | run_engine ].

Lemma continueRun_keeps_taskRun run env :
  keeps (fun s => db_taskRun (prisma s)) (continueRun run env).
Proof. intros s. continueRun_cases s run; reflexivity. Qed.

Lemma continueRun_keeps_waitpoint run env :
  keeps (fun s => db_waitpoint (prisma s)) (continueRun run env).
Proof. intros s. continueRun_cases s run; reflexivity. Qed.

Lemma continueRun_keeps_taskRunWaitpoint run env :
  keeps (fun s => db_taskRunWaitpoint (prisma s)) (continueRun run env).
Proof. intros s. continueRun_cases s run; reflexivity. Qed.

Lemma continueRun_keeps_continuable run env s r :
  continuable (prisma s) r ->
  continuable (prisma (snd (continueRun run env s))) r.
Proof.
  intros Hr. continueRun_cases s run; try exact Hr;
    now apply continuable_appended.
Qed.

(** A continuable run is put back on the queue: [#continueRun] returns
    and has enqueued one message, for that run. *)
Lemma continueRun_continuable run env s :
  continuable (prisma s) run ->
  fst (continueRun run env s) = Ok tt
  /\ enqueued_runs (snd (continueRun run env s)) = enqueued_runs s ++ [run_id run].
Proof.
  intros [snapshot [Hsnapshot Hok]].
  continueRun_cases s run.
  - congruence.
  - split; [reflexivity|].
    unfold enqueued_runs. run_engine.
    now rewrite map_app.
  - discriminate.
Qed.

(** The loop of [#completeWaitpoint] over continuable runs returns and
    has enqueued one message per run, in order. *)
Lemma for_each_continueRun runs : forall s,
  Forall (continuable (prisma s)) runs ->
  fst (for_each runs (fun run => continueRun run (run_runtimeEnvironment run)) s)
  = Ok tt
  /\ enqueued_runs
       (snd (for_each runs
               (fun run => continueRun run (run_runtimeEnvironment run)) s))
     = enqueued_runs s ++ map run_id runs.
Proof.
  induction runs as [|run runs IH]; intros s Hall.
  - cbn. now rewrite app_nil_r.
  - inversion Hall as [|? ? Hrun Hruns]; subst.
    destruct (continueRun_continuable run (run_runtimeEnvironment run) s Hrun)
      as [Hfst Hqueue].
    assert (Hnext : Forall
              (continuable
                 (prisma (snd (continueRun run (run_runtimeEnvironment run) s))))
              runs).
    { rewrite Forall_forall in *. intros r Hr.
      apply continueRun_keeps_continuable. now apply Hruns. }
    specialize (IH _ Hnext). destruct IH as [IHfst IHqueue].
    cbn [for_each]. unfold bind.
    destruct (continueRun run (run_runtimeEnvironment run) s) as [[[]|e] s1];
      cbn [fst snd] in *; [|discriminate].
    split; [exact IHfst|].
    rewrite IHqueue, Hqueue. cbn [map]. now rewrite <- app_assoc.
Qed.

(** *** Completing a waitpoint *)

(** [#completeWaitpoint] on a waitpoint that is still pending: the
    transaction, spelled out. *)
Lemma completeWaitpoint_pending id s w :
  waitpoint_findUnique (prisma s) id = Some w ->
  wp_status w = WaitpointStatus.PENDING ->
  completeWaitpoint id s
  = match taskRunWaitpoint_findMany (prisma s) id with
    | [] => (Err (NoTaskRunWaitpointsFound id), s)
    | _ :: _ =>
        let tx :=
          set_prisma
            (waitpoint_complete id (taskRunWaitpoint_deleteMany id (prisma s))) s in
        match for_each
                (taskRun_findMany_toResume (prisma tx)
                   (taskRunWaitpoint_findMany (prisma s) id))
                (fun run => continueRun run (run_runtimeEnvironment run)) tx
        with
        | (Ok a, s') => (Ok a, s')
        | (Err e, s') =>
            (Err e, set_prisma (rolled_back (prisma s) (prisma s')) s')
        end
    end.
Proof.
  intros Hfind Hstatus.
  unfold completeWaitpoint. cbv beta iota zeta delta [bind get].
  rewrite Hfind, Hstatus. unfold transaction.
  cbv beta iota zeta delta [bind get].
  destruct (taskRunWaitpoint_findMany (prisma s) id) as [|a affected] eqn:Haffected.
  - cbn. now rewrite rolled_back_same, set_prisma_same.
  - run_engine. reflexivity.
Qed.

Lemma waitpoint_findUnique_completed id d w :
  waitpoint_findUnique d id = Some w ->
  waitpoint_findUnique (waitpoint_complete id d) id = Some (complete_status w).
Proof.
  unfold waitpoint_findUnique, waitpoint_complete.
  cbn [set_waitpoint db_waitpoint].
  induction (db_waitpoint d) as [|x l IH]; cbn [find map]; [discriminate|].
  destruct (Nat.eqb (wp_id x) id) eqn:E.
  - intros [= <-]. cbn [complete_status wp_id]. now rewrite E.
  - rewrite E. exact IH.
Qed.

Lemma loop_keeps_waitpoint runs :
  keeps (fun s => db_waitpoint (prisma s))
    (for_each runs (fun run => continueRun run (run_runtimeEnvironment run))).
Proof. apply keeps_for_each. intros. apply continueRun_keeps_waitpoint. Qed.

Lemma loop_keeps_taskRunWaitpoint runs :
  keeps (fun s => db_taskRunWaitpoint (prisma s))
    (for_each runs (fun run => continueRun run (run_runtimeEnvironment run))).
Proof. apply keeps_for_each. intros. apply continueRun_keeps_taskRunWaitpoint. Qed.

Lemma loop_keeps_taskRun runs :
  keeps (fun s => db_taskRun (prisma s))
    (for_each runs (fun run => continueRun run (run_runtimeEnvironment run))).
Proof. apply keeps_for_each. intros. apply continueRun_keeps_taskRun. Qed.

(** The waitpoint lookup reads the waitpoint table only. *)
Lemma waitpoint_findUnique_ext d d' id :
  db_waitpoint d' = db_waitpoint d ->
  waitpoint_findUnique d' id = waitpoint_findUnique d id.
Proof. unfold waitpoint_findUnique. now intros ->. Qed.

(** C9.  Completing a waitpoint is idempotent.  On a waitpoint that is
    already COMPLETED, [#completeWaitpoint] returns and the whole state
    (store, jobs, run queue) is as before; and after a call that returned,
    a second call returns and changes nothing. *)
Theorem completeWaitpoint_idempotent :
  (forall (id : Id) (s : EngineState) (w : Waitpoint),
      waitpoint_findUnique (prisma s) id = Some w ->
      wp_status w = WaitpointStatus.COMPLETED ->
      completeWaitpoint id s = (Ok tt, s))
  /\ (forall (id : Id) (s s' : EngineState),
        completeWaitpoint id s = (Ok tt, s') ->
        completeWaitpoint id s' = (Ok tt, s')).
Proof.
  assert (Hdone : forall id s w,
             waitpoint_findUnique (prisma s) id = Some w ->
             wp_status w = WaitpointStatus.COMPLETED ->
             completeWaitpoint id s = (Ok tt, s)).
  { intros id s w Hfind Hstatus.
    unfold completeWaitpoint. cbv beta iota zeta delta [bind get].
    now rewrite Hfind, Hstatus. }
  split; [exact Hdone|].
  intros id s s' Hfirst.
  destruct (waitpoint_findUnique (prisma s) id) as [w|] eqn:Hfind.
  2:{ unfold completeWaitpoint in Hfirst.
      cbv beta iota zeta delta [bind get] in Hfirst.
      rewrite Hfind in Hfirst. discriminate. }
  destruct (wp_status w) eqn:Hstatus.
  - rewrite (completeWaitpoint_pending id s w Hfind Hstatus) in Hfirst.
    destruct (taskRunWaitpoint_findMany (prisma s) id) as [|a affected];
      [discriminate|].
    cbv zeta in Hfirst.
    match type of Hfirst with
    | context [for_each ?runs ?body ?tx] =>
        pose proof (loop_keeps_waitpoint runs tx) as Hkeep;
        destruct (for_each runs body tx) as [[[]|e] s1] eqn:Hloop;
        [|discriminate]
    end.
    injection Hfirst as <-. cbn [snd] in Hkeep.
    apply (Hdone id s1 (complete_status w)); [|reflexivity].
    rewrite (waitpoint_findUnique_ext _ _ id Hkeep).
    cbn [prisma set_prisma].
    apply waitpoint_findUnique_completed.
    unfold waitpoint_findUnique, taskRunWaitpoint_deleteMany.
    cbn [set_taskRunWaitpoint db_waitpoint]. exact Hfind.
  - rewrite (Hdone id s w Hfind Hstatus) in Hfirst.
    injection Hfirst as <-. now apply (Hdone id s w).
Qed.

(** C10.  On a pending waitpoint that blocks no run,
    [#completeWaitpoint] throws, and the state afterwards is the state
    before: the waitpoint is still PENDING. *)
Theorem completeWaitpoint_without_blocked_run_throws
    (id : Id) (s : EngineState) (w : Waitpoint) :
  waitpoint_findUnique (prisma s) id = Some w ->
  wp_status w = WaitpointStatus.PENDING ->
  (forall row, In row (db_taskRunWaitpoint (prisma s)) -> trw_waitpointId row <> id) ->
  completeWaitpoint id s = (Err (NoTaskRunWaitpointsFound id), s)
  /\ waitpoint_findUnique (prisma (snd (completeWaitpoint id s))) id = Some w.
Proof.
  intros Hfind Hstatus Hnone.
  assert (Haffected : taskRunWaitpoint_findMany (prisma s) id = []).
  { unfold taskRunWaitpoint_findMany.
    induction (db_taskRunWaitpoint (prisma s)) as [|row rows IH]; [reflexivity|].
    cbn [filter]. destruct (Nat.eqb (trw_waitpointId row) id) eqn:E.
    - apply Nat.eqb_eq in E. exfalso. apply (Hnone row); [now left|exact E].
    - apply IH. intros r Hr. apply Hnone. now right. }
  rewrite (completeWaitpoint_pending id s w Hfind Hstatus), Haffected.
  split; [reflexivity|exact Hfind].
Qed.

Lemma formerly_blocked_iff d id runId :
  existsb (Nat.eqb runId) (taskRunWaitpoint_findMany d id) = true
  <-> blocked_by d id runId.
Proof.
  unfold taskRunWaitpoint_findMany, blocked_by.
  rewrite existsb_exists. split.
  - intros [x [Hin Heq]]. apply in_map_iff in Hin.
    destruct Hin as [row [<- Hrow]]. apply filter_In in Hrow.
    destruct Hrow as [Hrow Hid]. exists row.
    apply Nat.eqb_eq in Hid, Heq. auto.
  - intros [row [Hrow [Hid Hrun]]]. exists (trw_taskRunId row). split.
    + apply in_map. apply filter_In. split; [exact Hrow|].
      now apply Nat.eqb_eq.
    + apply Nat.eqb_eq. now symmetry.
Qed.

Lemma blockedByWaitpoints_none_iff d runId :
  blockedByWaitpoints_none d runId = true <-> unblocked d runId.
Proof.
  unfold blockedByWaitpoints_none, unblocked.
  rewrite negb_true_iff. split.
  - intros Hnone row Hrow Heq.
    assert (Hex : existsb (fun r => Nat.eqb (trw_taskRunId r) runId)
                    (db_taskRunWaitpoint d) = true).
    { apply existsb_exists. exists row. split; [exact Hrow|].
      now apply Nat.eqb_eq. }
    congruence.
  - intros Hall.
    destruct (existsb (fun r => Nat.eqb (trw_taskRunId r) runId)
                (db_taskRunWaitpoint d)) eqn:E; [|reflexivity].
    apply existsb_exists in E. destruct E as [row [Hrow Heq]].
    apply Nat.eqb_eq in Heq. exfalso. now apply (Hall row).
Qed.

Lemma status_in_PENDING_WAITING_TO_RESUME_iff st :
  status_in_PENDING_WAITING_TO_RESUME st = true <-> resumable_status st.
Proof.
  unfold resumable_status.
  destruct st; cbn; split; intros H; try discriminate; auto;
    destruct H; discriminate.
Qed.

(** After the rows of waitpoint [id] are deleted, a run is unblocked when
    all the rows it had were rows of [id]. *)
Lemma unblocked_after_deleteMany d id runId :
  unblocked (waitpoint_complete id (taskRunWaitpoint_deleteMany id d)) runId
  <-> (forall row, In row (db_taskRunWaitpoint d) ->
         trw_taskRunId row = runId -> trw_waitpointId row = id).
Proof.
  unfold unblocked, waitpoint_complete, taskRunWaitpoint_deleteMany.
  cbn [set_waitpoint set_taskRunWaitpoint db_taskRunWaitpoint]. split.
  - intros Hnone row Hrow Hrun.
    destruct (Nat.eqb (trw_waitpointId row) id) eqn:E;
      [now apply Nat.eqb_eq|].
    exfalso. apply (Hnone row); [|exact Hrun].
    apply filter_In. split; [exact Hrow|]. now rewrite E.
  - intros Hall row Hrow Hrun. apply filter_In in Hrow.
    destruct Hrow as [Hrow Hid]. apply negb_true_iff, Nat.eqb_neq in Hid.
    apply Hid. now apply Hall.
Qed.

(** X27.  For a waitpoint that is not yet COMPLETED and blocks at
    least one run, and provided every run that is to be continued (a run
    blocked by this waitpoint and by no other, PENDING or
    WAITING_TO_RESUME) has a latest snapshot which is not that of a run
    executing on a worker, [#completeWaitpoint] returns; it has deleted
    exactly the RunWaitpoint rows of the waitpoint, the waitpoint is
    COMPLETED, and [#continueRun] has put one message on the run queue
    for each run of the list [continued] and for no other run: the runs
    that were blocked by the waitpoint, have no RunWaitpoint row left and
    are PENDING or WAITING_TO_RESUME. *)
Theorem completeWaitpoint_continues_unblocked_runs
    (id : Id) (s : EngineState) (w : Waitpoint) :
  waitpoint_findUnique (prisma s) id = Some w ->
  wp_status w <> WaitpointStatus.COMPLETED ->
  (exists runId, blocked_by (prisma s) id runId) ->
  (forall run,
      In run (db_taskRun (prisma s)) ->
      blocked_by (prisma s) id (run_id run) ->
      (forall row, In row (db_taskRunWaitpoint (prisma s)) ->
         trw_taskRunId row = run_id run -> trw_waitpointId row = id) ->
      resumable_status (run_status run) ->
      continuable (prisma s) run) ->
  exists s' continued,
    completeWaitpoint id s = (Ok tt, s')
    /\ db_taskRunWaitpoint (prisma s')
       = filter (fun row => negb (Nat.eqb (trw_waitpointId row) id))
           (db_taskRunWaitpoint (prisma s))
    /\ (exists w', waitpoint_findUnique (prisma s') id = Some w'
                   /\ wp_status w' = WaitpointStatus.COMPLETED)
    /\ db_taskRun (prisma s') = db_taskRun (prisma s)
    /\ enqueued_runs s' = enqueued_runs s ++ map run_id continued
    /\ (exists keep, continued = filter keep (db_taskRun (prisma s')))
    /\ (forall run,
          In run continued
          <-> In run (db_taskRun (prisma s'))
              /\ blocked_by (prisma s) id (run_id run)
              /\ unblocked (prisma s') (run_id run)
              /\ resumable_status (run_status run)).
Proof.
  intros Hfind Hstatus [blocked [row [Hrow [Hid Hblocked]]]] Hcontinuable.
  assert (Hpending : wp_status w = WaitpointStatus.PENDING)
    by (destruct (wp_status w); congruence).
  assert (Haffected : taskRunWaitpoint_findMany (prisma s) id <> []).
  { unfold taskRunWaitpoint_findMany. intros E.
    apply map_eq_nil in E.
    assert (Hin : In row (filter (fun r => Nat.eqb (trw_waitpointId r) id)
                            (db_taskRunWaitpoint (prisma s)))).
    { apply filter_In. split; [exact Hrow|]. now apply Nat.eqb_eq. }
    now rewrite E in Hin. }
  rewrite (completeWaitpoint_pending id s w Hfind Hpending).
  set (d' := waitpoint_complete id (taskRunWaitpoint_deleteMany id (prisma s))).
  set (runs := taskRun_findMany_toResume d' (taskRunWaitpoint_findMany (prisma s) id)).
  assert (Hruns : forall run,
             In run runs
             <-> In run (db_taskRun (prisma s))
                 /\ blocked_by (prisma s) id (run_id run)
                 /\ unblocked d' (run_id run)
                 /\ resumable_status (run_status run)).
  { intros run. unfold runs, taskRun_findMany_toResume.
    rewrite filter_In, !andb_true_iff, formerly_blocked_iff,
      blockedByWaitpoints_none_iff, status_in_PENDING_WAITING_TO_RESUME_iff.
    unfold d' at 1, waitpoint_complete, taskRunWaitpoint_deleteMany.
    cbn [set_waitpoint set_taskRunWaitpoint db_taskRun]. tauto. }
  assert (Hall : Forall (continuable (prisma s)) runs).
  { apply Forall_forall. intros run Hrun. apply Hruns in Hrun.
    destruct Hrun as [Hin [Hby [Hnone Hst]]].
    apply Hcontinuable; auto. now apply unblocked_after_deleteMany. }
  destruct (taskRunWaitpoint_findMany (prisma s) id) as [|a affected] eqn:Ha;
    [contradiction|].
  cbv zeta. cbn [prisma set_prisma]. fold d'. fold runs.
  set (tx := set_prisma d' s).
  destruct (for_each_continueRun runs tx Hall) as [Hok Hqueue].
  pose proof (loop_keeps_waitpoint runs tx) as Hkw.
  pose proof (loop_keeps_taskRunWaitpoint runs tx) as Hkr.
  pose proof (loop_keeps_taskRun runs tx) as Hkt.
  destruct (for_each runs (fun run => continueRun run (run_runtimeEnvironment run)) tx)
    as [[[]|e] s'] eqn:Hloop; cbn [fst snd] in *; [|discriminate].
  exists s', runs. split; [reflexivity|].
  split; [rewrite Hkr; reflexivity|]. split.
  { exists (complete_status w). split; [|reflexivity].
    rewrite (waitpoint_findUnique_ext _ _ id Hkw).
    apply waitpoint_findUnique_completed. exact Hfind. }
  split; [rewrite Hkt; reflexivity|].
  split; [exact Hqueue|]. split.
  { eexists. unfold runs, taskRun_findMany_toResume. rewrite Hkt.
    unfold d' at 2, waitpoint_complete, taskRunWaitpoint_deleteMany.
    cbn [tx prisma set_prisma set_waitpoint set_taskRunWaitpoint db_taskRun].
    reflexivity. }
  intros run. rewrite Hruns.
  assert (Hsame : unblocked (prisma s') (run_id run) <-> unblocked d' (run_id run)).
  { unfold unblocked. rewrite Hkr. reflexivity. }
  rewrite Hsame, Hkt.
  unfold d' at 2, waitpoint_complete, taskRunWaitpoint_deleteMany.
  cbn [tx prisma set_prisma set_waitpoint set_taskRunWaitpoint db_taskRun].
  tauto.
Qed.

End RunEngineProperties.

Section RunEngineExamples.

Import RunEngine Examples.

(** C6 at a failing input.  Run 1 has moved on from its QUEUED snapshot
    4 to the EXECUTING snapshot 6 when the stall check scheduled for
    snapshot 4 fires.  The handler looks the latest snapshot up with the
    run id in the place of the client, and the lookup throws a TypeError:
    the two snapshot ids are never compared, the handler does not return,
    and the stale job is not taken off the worker. *)
Theorem handleStalledSnapshot_stale_check_throws :
  getLatestExecutionSnapshot (prisma moved_on) 1
  = Some (snapshot_at 6 1 TaskRunExecutionStatus.EXECUTING 4500)
  /\ snap_id (snapshot_at 6 1 TaskRunExecutionStatus.EXECUTING 4500) <> 4
  /\ In (stall_check 1 4 64000) (worker moved_on)
  /\ handleStalledSnapshot ByPosition 1 4 moved_on = (Err TypeError, moved_on)
  /\ filter (job_has_id (heartbeatSnapshot_id 4))
       (worker (snd (handleStalledSnapshot ByPosition 1 4 moved_on)))
     = [stall_check 1 4 64000].
Proof.
  split; [reflexivity|]. split; [discriminate|].
  split; [now left|]. split; reflexivity.
Qed.

(** C9 at waitpoint 10: already completed in [child_completed], and
    completed by a first call in [two_parents_waiting None]. *)
Lemma completeWaitpoint_idempotent_witness :
  completeWaitpoint 10 child_completed = (Ok tt, child_completed)
  /\ completeWaitpoint 10
       (snd (completeWaitpoint 10 (two_parents_waiting None)))
     = (Ok tt, snd (completeWaitpoint 10 (two_parents_waiting None))).
Proof.
  split.
  - apply (proj1 completeWaitpoint_idempotent 10 child_completed
             (child_waitpoint WaitpointStatus.COMPLETED));
      reflexivity.
  - apply (proj2 completeWaitpoint_idempotent 10 (two_parents_waiting None)).
    vm_compute. reflexivity.
Defined.

(** C10 at waitpoint 10 of [nobody_waiting]. *)
Lemma completeWaitpoint_without_blocked_run_throws_witness :
  completeWaitpoint 10 nobody_waiting
  = (Err (NoTaskRunWaitpointsFound 10), nobody_waiting)
  /\ waitpoint_findUnique (prisma (snd (completeWaitpoint 10 nobody_waiting))) 10
     = Some (child_waitpoint WaitpointStatus.PENDING).
Proof.
  apply (completeWaitpoint_without_blocked_run_throws 10 nobody_waiting
           (child_waitpoint WaitpointStatus.PENDING)).
  - reflexivity.
  - reflexivity.
  - intros row [].
Defined.

(** X27 at waitpoint 10 of [two_parents_waiting None]: both parents are
    put back on the queue. *)
Lemma completeWaitpoint_continues_unblocked_runs_witness :
  exists s',
    completeWaitpoint 10 (two_parents_waiting None) = (Ok tt, s')
    /\ db_taskRunWaitpoint (prisma s') = []
    /\ (exists w', waitpoint_findUnique (prisma s') 10 = Some w'
                   /\ wp_status w' = WaitpointStatus.COMPLETED)
    /\ enqueued_runs s' = [1; 2].
Proof.
  destruct (completeWaitpoint_continues_unblocked_runs 10
              (two_parents_waiting None) (child_waitpoint WaitpointStatus.PENDING))
    as [s' [continued [Hrun [Hrows [Hdone _]]]]].
  - reflexivity.
  - discriminate.
  - exists 1, (blocked_on_child 11 1). repeat split. now left.
  - intros run [<- | [<- | []]] _ _ _; eexists; split; reflexivity.
  - exists s'. split; [exact Hrun|]. split; [exact Hrows|].
    split; [exact Hdone|].
    assert (Hs' : s' = snd (completeWaitpoint 10 (two_parents_waiting None)))
      by now rewrite Hrun.
    rewrite Hs'. vm_compute. reflexivity.
Defined.

(** C3 at a failing input.  Waitpoint 10 is pending and blocks runs 1
    and 2, both WAITING_TO_RESUME and blocked by nothing else: both are
    to be continued.  The latest snapshot of run 1 is EXECUTING on worker
    7, and continuing such a run is not implemented: [#continueRun]
    throws and the transaction fails.  Afterwards both RunWaitpoint rows
    are still there, the waitpoint is still PENDING, and neither run has
    been continued: no message is on the run queue. *)
Theorem completeWaitpoint_stops_at_executing_run :
  waitpoint_findUnique (prisma (two_parents_waiting (Some 7))) 10
  = Some (child_waitpoint WaitpointStatus.PENDING)
  /\ taskRunWaitpoint_findMany (prisma (two_parents_waiting (Some 7))) 10 = [1; 2]
  /\ map run_id
       (taskRun_findMany_toResume
          (waitpoint_complete 10
             (taskRunWaitpoint_deleteMany 10 (prisma (two_parents_waiting (Some 7)))))
          [1; 2])
     = [1; 2]
  /\ fst (completeWaitpoint 10 (two_parents_waiting (Some 7)))
     = Err (NotImplementedError
              "RunEngine.#continueRun(): continue executing run, not implemented yet")
  /\ db_taskRunWaitpoint
       (prisma (snd (completeWaitpoint 10 (two_parents_waiting (Some 7)))))
     = [blocked_on_child 11 1; blocked_on_child 12 2]
  /\ waitpoint_findUnique
       (prisma (snd (completeWaitpoint 10 (two_parents_waiting (Some 7))))) 10
     = Some (child_waitpoint WaitpointStatus.PENDING)
  /\ enqueued_runs (snd (completeWaitpoint 10 (two_parents_waiting (Some 7)))) = [].
Proof. repeat split. Qed.

End RunEngineExamples.

(* ================================================================= *)
(** ** Properties of trigger *)

Section TriggerProperties.

Import RunEngine.

Variable taskRun_insertable : list TaskRun -> TaskRun -> bool.
Variable parseNaturalLanguageDuration : Z -> string -> option Z.

(** Runs [trigger] symbolically: unfolds its steps and splits on every
    test the parameters and the store decide. *)
Ltac run_trigger :=
  unfold RunEngine.trigger, taskRun_create, createRunAssociatedWaitpoint,
    blockRunWithWaitpoint, upsertTaskQueue, createDateTimeWaitpoint,
    taskRunWaitpoint_create, enqueueRun, createExecutionSnapshot,
    runQueue_updateQueueConcurrencyLimits,
    runQueue_removeQueueConcurrencyLimits;
  repeat (run_engine; cbn [run_id run_delayUntil run_ttl run_status
                           run_masterQueue wp_id wp_projectId
                           tq_concurrencyLimit tq_name is_some];
          match goal with
          | |- context [match ?x with _ => _ end] =>
              match x with
              | context [match _ with _ => _ end] => fail 1
              | _ => destruct x eqn:?
              end
          end).

(** A call of [trigger] that returns has used the next identifier for a
    new run row, added at the end of the table, and has added one
    RUN_CREATED snapshot, that of the new run. *)
Lemma trigger_returns (p : TriggerParams) (s s' : EngineState) (run : TaskRun) :
  trigger taskRun_insertable parseNaturalLanguageDuration p s = (Ok run, s') ->
  run_id run = idSupply s
  /\ idSupply s < idSupply s'
  /\ db_taskRun (prisma s') = db_taskRun (prisma s) ++ [run]
  /\ map snap_runId (initial_snapshots (prisma s'))
     = map snap_runId (initial_snapshots (prisma s)) ++ [run_id run].
Proof.
  run_trigger.
  all: intros H; try discriminate H.
  all: injection H as <- <-.
  all: unfold initial_snapshots; run_engine; cbn [run_id].
  all: rewrite ?filter_app, ?map_app; cbn [filter map TaskRunExecutionStatus.eqb
         snap_executionStatus snap_runId app]; rewrite ?app_nil_r.
  all: repeat split; try reflexivity; try lia.
Qed.

(** With [resumeParentOnCompletion] and a parent run id, [trigger] never
    returns, and it leaves the RunWaitpoint rows as they were. *)
Lemma trigger_resumeParent_throws (p : TriggerParams) (s : EngineState)
    (parent : Id) :
  parentTaskRunId p = Some parent ->
  resumeParentOnCompletion p = Some true ->
  (exists e, fst (trigger taskRun_insertable parseNaturalLanguageDuration p s) = Err e)
  /\ db_taskRunWaitpoint
       (prisma (snd (trigger taskRun_insertable parseNaturalLanguageDuration p s)))
     = db_taskRunWaitpoint (prisma s).
Proof.
  intros Hparent Hresume.
  unfold RunEngine.trigger. rewrite Hparent, Hresume. cbn [bool_truthy].
  unfold taskRun_create, createRunAssociatedWaitpoint, blockRunWithWaitpoint.
  run_engine.
  destruct (taskRun_insertable _ _); run_engine; split; eauto.
Qed.

(** C1, amended.  [trigger] never looks a run up by its idempotency key.
    Two calls with the same parameters, idempotency key included, that
    both return give two different run ids; the store holds two new run
    rows and two new RUN_CREATED snapshots, one for each of the rows. *)
Theorem trigger_twice_creates_two_runs
    (p : TriggerParams) (s s1 s2 : EngineState) (run1 run2 : TaskRun) :
  trigger taskRun_insertable parseNaturalLanguageDuration p s = (Ok run1, s1) ->
  trigger taskRun_insertable parseNaturalLanguageDuration p s1 = (Ok run2, s2) ->
  run_id run1 <> run_id run2
  /\ db_taskRun (prisma s2) = db_taskRun (prisma s) ++ [run1; run2]
  /\ map snap_runId (initial_snapshots (prisma s2))
     = map snap_runId (initial_snapshots (prisma s)) ++ [run_id run1; run_id run2].
Proof.
  intros H1 H2.
  destruct (trigger_returns p s s1 run1 H1) as [Hid1 [Hsupply1 [Hrows1 Hsnaps1]]].
  destruct (trigger_returns p s1 s2 run2 H2) as [Hid2 [Hsupply2 [Hrows2 Hsnaps2]]].
  repeat split.
  - lia.
  - rewrite Hrows2, Hrows1. now rewrite <- app_assoc.
  - rewrite Hsnaps2, Hsnaps1. now rewrite <- app_assoc.
Qed.

End TriggerProperties.

Section TriggerExamples.

Import RunEngine Examples.

(** The amended C1 at two calls of [trigger] with the idempotency key
    ["k"], on a store without constraints. *)
Lemma trigger_twice_creates_two_runs_witness :
  exists run1 s1 run2 s2,
    trigger accept_any parse_seconds params_hello engine_0 = (Ok run1, s1)
    /\ trigger accept_any parse_seconds params_hello s1 = (Ok run2, s2)
    /\ run_id run1 <> run_id run2
    /\ db_taskRun (prisma s2) = db_taskRun (prisma engine_0) ++ [run1; run2]
    /\ map snap_runId (initial_snapshots (prisma s2))
       = map snap_runId (initial_snapshots (prisma engine_0))
         ++ [run_id run1; run_id run2].
Proof.
  do 4 eexists.
  split; [vm_compute; reflexivity|].
  split; [vm_compute; reflexivity|].
  eapply (trigger_twice_creates_two_runs accept_any parse_seconds
            params_hello engine_0);
    vm_compute; reflexivity.
Defined.

(** C1 as stated fails.  [trigger] is called twice with the idempotency
    key ["k"].  On a store without constraints the second call returns a
    run with another id (1, then 6) and the store holds two run rows and
    two initial snapshots.  On a store that refuses a second row with the
    key, the second call throws.  In neither case does the second call
    return the id of the first run. *)
Lemma trigger_idempotencyKey_counterexample :
  idempotencyKey params_hello = Some "k"%string
  /\ (exists run1 s1 run2 s2,
        trigger accept_any parse_seconds params_hello engine_0 = (Ok run1, s1)
        /\ trigger accept_any parse_seconds params_hello s1 = (Ok run2, s2)
        /\ run_id run1 = 1 /\ run_id run2 = 6
        /\ map run_id (db_taskRun (prisma s2)) = [1; 6]
        /\ map snap_runId (initial_snapshots (prisma s2)) = [1; 6])
  /\ (exists run1 s1 s2,
        trigger unique_idempotencyKey parse_seconds params_hello engine_0
        = (Ok run1, s1)
        /\ trigger unique_idempotencyKey parse_seconds params_hello s1
           = (Err CreateRejected, s2)).
Proof.
  split; [reflexivity|]. split.
  - do 4 eexists.
    split; [vm_compute; reflexivity|].
    split; [vm_compute; reflexivity|].
    repeat split.
  - do 3 eexists.
    split; [vm_compute; reflexivity|].
    vm_compute; reflexivity.
Qed.

(** C2 at a failing input.  The child is triggered with
    [resumeParentOnCompletion] and the id of its parent, run 1.  The run
    row and the waitpoint of the child are written, then
    [#blockRunWithWaitpoint] throws: [trigger] does not return, and no
    RunWaitpoint row exists, neither for the parent nor for any run. *)
Lemma trigger_and_wait_blocks_no_parent :
  fst (trigger accept_any parse_seconds params_child engine_with_parent)
  = Err (NotImplementedError "Not implemented #blockRunWithWaitpoint")
  /\ db_taskRunWaitpoint
       (prisma (snd (trigger accept_any parse_seconds params_child
                       engine_with_parent)))
     = []
  /\ map run_id
       (db_taskRun
          (prisma (snd (trigger accept_any parse_seconds params_child
                          engine_with_parent))))
     = [1; 6]
  /\ map wp_completedByTaskRunId
       (db_waitpoint
          (prisma (snd (trigger accept_any parse_seconds params_child
                          engine_with_parent))))
     = [Some 1; Some 6].
Proof. repeat split. Qed.

(** C4 at a failing input.  The run is triggered with the ttl ["30s"] at
    time 1000.  The duration is read (thirty seconds after the present is
    31000), yet the [expireRun] job is enqueued without [availableAt]:
    the date is not handed on, the job is not held back until then. *)
Lemma trigger_ttl_job_has_no_availableAt :
  parse_seconds (now engine_0) "30s" = Some 31000%Z
  /\ (exists run,
        fst (trigger accept_any parse_seconds params_ttl engine_0) = Ok run
        /\ run_id run = 1 /\ run_ttl run = Some "30s"%string
        /\ run_delayUntil run = None)
  /\ filter (fun j => match job_payload j with expireRun _ => true | _ => false end)
       (worker (snd (trigger accept_any parse_seconds params_ttl engine_0)))
     = [ {| job_id := None; job_payload := expireRun 1; job_availableAt := None |} ].
Proof.
  split; [reflexivity|]. split; [|reflexivity].
  eexists. split; [vm_compute; reflexivity|]. repeat split.
Qed.

(** C5 as stated fails.  The RUN_CREATED snapshot of a run (snapshot 2
    below) is written by [trigger] together with the run row, not by
    [#createExecutionSnapshot]: no stall check is scheduled for it.  The
    one job on the worker is that of the QUEUED snapshot 5. *)
Lemma initial_snapshot_has_no_stall_check_counterexample :
  map (fun sn => (snap_id sn, snap_executionStatus sn))
    (db_taskRunExecutionSnapshot
       (prisma (snd (trigger accept_any parse_seconds params_hello engine_0))))
  = [(2, TaskRunExecutionStatus.RUN_CREATED); (5, TaskRunExecutionStatus.QUEUED)]
  /\ map job_payload
       (worker (snd (trigger accept_any parse_seconds params_hello engine_0)))
     = [heartbeatSnapshot 1 5]
  /\ filter (job_has_id (heartbeatSnapshot_id 2))
       (worker (snd (trigger accept_any parse_seconds params_hello engine_0)))
     = [].
Proof. repeat split. Qed.

End TriggerExamples.

(* ================================================================= *)
(** ** Properties of the managed run controller *)

Section RunnerProperties.

Import Runner.

Lemma AttemptNumber_eqb_neq (a b : AttemptNumber) :
  a <> b -> AttemptNumber_eqb a b = false.
Proof.
  destruct a as [| |x], b as [| |y]; cbn; try congruence.
  intros H. apply Z.eqb_neq. congruence.
Qed.

(** C7, amended.  The controller holds a run in the RUN phase, under a
    snapshot id that is not empty, and is neither handling another
    snapshot change nor already waiting for its next run.  When an update
    for the run it holds arrives with another snapshot id and another
    attempt number, the update is not applied: the controller stops the
    heartbeat and the snapshot poller, tells the platform it stopped the
    run, enters the warm-start phase and kills the child process if there
    is one. *)
Theorem attempt_number_change_returns_to_warm_start
    (c : Controller) (held run : Run) (heldSnapshot snapshot : Snapshot)
    (status : ExecutionStatus) (completedWaitpoints : list nat) :
  state c = RUN held heldSnapshot ->
  handleSnapshotChangeLock c = false ->
  waitForNextRunLock c = false ->
  snapshot_friendlyId heldSnapshot <> EmptyString ->
  run_friendlyId run = run_friendlyId held ->
  snapshot_friendlyId snapshot <> snapshot_friendlyId heldSnapshot ->
  attemptNumber run <> attemptNumber held ->
  fst (handleSnapshotChange run snapshot status completedWaitpoints c)
  = FailedToUpdateRunPhase AttemptNumberChanged
  /\ state (snd (handleSnapshotChange run snapshot status completedWaitpoints c))
     = WARM_START
  /\ runHeartbeat (snd (handleSnapshotChange run snapshot status completedWaitpoints c))
     = false
  /\ snapshotPoller (snd (handleSnapshotChange run snapshot status completedWaitpoints c))
     = false
  /\ handleSnapshotChangeLock
       (snd (handleSnapshotChange run snapshot status completedWaitpoints c))
     = false
  /\ effects (snd (handleSnapshotChange run snapshot status completedWaitpoints c))
     = effects c
       ++ [ sendDebugLog (run_friendlyId run)
              ("snapshot change: " ++ ExecutionStatus_name status);
            sendDebugLog (run_friendlyId run) "updateRunPhase: Attempt number changed";
            emit_run_stop (run_friendlyId held) (snapshot_friendlyId heldSnapshot) ]
       ++ (if taskRunProcess c then [process_kill_SIGKILL] else []).
Proof.
  intros Hstate Hidle Hfree Hnonempty Hrun Hsnapshot Hattempt.
  assert (E1 : String.eqb (snapshot_friendlyId heldSnapshot)
                 (snapshot_friendlyId snapshot) = false).
  { apply String.eqb_neq. congruence. }
  assert (E2 : String.eqb (run_friendlyId held) (run_friendlyId run) = true).
  { apply String.eqb_eq. congruence. }
  assert (E3 : AttemptNumber_eqb (attemptNumber held) (attemptNumber run) = false).
  { apply AttemptNumber_eqb_neq. congruence. }
  destruct c as [st hl wl hb sp proc eff].
  cbn [state handleSnapshotChangeLock waitForNextRunLock effects taskRunProcess]
    in *.
  subst st hl wl.
  destruct heldSnapshot as [heldId]. cbn [snapshot_friendlyId] in *.
  destruct heldId as [|ch rest]; [congruence|].
  unfold handleSnapshotChange.
  cbn [handleSnapshotChangeLock with_handleSnapshotChangeLock snapshotFriendlyId
       state snapshot_friendlyId].
  rewrite E1.
  unfold updateRunPhase.
  cbn [perform state snapshot_friendlyId with_handleSnapshotChangeLock].
  rewrite E2, E1, E3. cbn [negb].
  unfold waitForNextRun, enterWarmStartPhase, onExitRunPhase,
    unsubscribeFromRunNotifications.
  cbn [perform state waitForNextRunLock with_waitForNextRunLock with_services
       with_state with_handleSnapshotChangeLock taskRunProcess effects
       runHeartbeat snapshotPoller handleSnapshotChangeLock fst snd
       snapshot_friendlyId].
  repeat split.
  rewrite <- !app_assoc. reflexivity.
Qed.

End RunnerProperties.

Section RunnerExamples.

Import Runner Examples.

(** The amended C7 at [executing_controller false]: attempt 2 is
    reported while attempt 1 is held. *)
Lemma attempt_number_change_returns_to_warm_start_witness :
  fst (handleSnapshotChange reported_run reported_snapshot EXECUTING []
         (executing_controller false))
  = FailedToUpdateRunPhase AttemptNumberChanged
  /\ state (snd (handleSnapshotChange reported_run reported_snapshot EXECUTING []
                   (executing_controller false)))
     = WARM_START.
Proof.
  destruct (attempt_number_change_returns_to_warm_start
              (executing_controller false)
              {| run_friendlyId := "run_1"; attemptNumber := attempt_number 1 |}
              reported_run
              {| snapshot_friendlyId := "snapshot_1" |}
              reported_snapshot EXECUTING [])
    as [Hhandled [Hstate _]].
  - reflexivity.
  - reflexivity.
  - reflexivity.
  - discriminate.
  - reflexivity.
  - discriminate.
  - discriminate.
  - split; [exact Hhandled|exact Hstate].
Defined.

(** C7 as stated fails.  The controller holds attempt 1 of the run and
    is still handling an earlier snapshot change.  The update that
    reports attempt 2 at a new snapshot is dropped on entry: the
    controller stays in the RUN phase with attempt 1, heartbeat and
    poller running, the child process untouched. *)
Lemma attempt_number_change_counterexample :
  state (executing_controller true)
  = RUN {| run_friendlyId := "run_1"; attemptNumber := attempt_number 1 |}
        {| snapshot_friendlyId := "snapshot_1" |}
  /\ run_friendlyId reported_run = "run_1"%string
  /\ attemptNumber reported_run <> attempt_number 1
  /\ snapshot_friendlyId reported_snapshot <> "snapshot_1"%string
  /\ handleSnapshotChange reported_run reported_snapshot EXECUTING []
       (executing_controller true)
     = (AlreadyInProgress, executing_controller true)
  /\ state (snd (handleSnapshotChange reported_run reported_snapshot EXECUTING []
                   (executing_controller true)))
     <> WARM_START.
Proof. repeat split; discriminate. Qed.

End RunnerExamples.

(* ================================================================= *)
(** ** Further properties of the key producer *)

Section KeyProducerFurther.

Import KeyProducer.

Lemma starts_with_app (p s : js_string) : starts_with p (p ++ s) = true.
Proof.
  induction p as [|a p IH]; [reflexivity|].
  cbn [app starts_with]. now rewrite N.eqb_refl.
Qed.

Lemma skipn_length_app (p s : js_string) : skipn (List.length p) (p ++ s) = s.
Proof. induction p as [|a p IH]; [reflexivity|exact IH]. Qed.

(** X1.  Stripping the prefix from a prefixed key gives the key back,
    whatever the key and the prefix are. *)
Theorem stripKeyPrefix_of_prefixed (prefix key : js_string) :
  stripKeyPrefix prefix (prefix ++ key) = key.
Proof.
  unfold stripKeyPrefix. now rewrite starts_with_app, skipn_length_app.
Qed.

Lemma normalizeQueue_of_prefixed (prefix queue : js_string) :
  normalizeQueue prefix (prefix ++ queue) = queue.
Proof.
  unfold normalizeQueue. now rewrite starts_with_app, skipn_length_app.
Qed.

(** *** Splitting a key *)

Lemma split_nonempty (sep : N) (s : js_string) : split sep s <> [].
Proof.
  destruct s as [|c rest]; cbn [split]; [discriminate|].
  destruct (c =? sep)%N; [discriminate|].
  destruct (split sep rest); discriminate.
Qed.

(** A colon-free segment followed by a colon is the first part. *)
Lemma split_segment (seg rest : js_string) :
  colon_free seg ->
  split COLON (seg ++ COLON :: rest) = seg :: split COLON rest.
Proof.
  induction seg as [|c seg IH]; intros Hfree.
  - cbn [app split]. now rewrite N.eqb_refl.
  - assert (Hc : (c =? COLON)%N = false).
    { apply N.eqb_neq. intros E. apply Hfree. now left. }
    cbn [app split]. rewrite Hc, IH; [reflexivity|].
    intros Hin. apply Hfree. now right.
Qed.

Lemma split_last_segment (seg : js_string) :
  colon_free seg -> split COLON seg = [seg].
Proof.
  induction seg as [|c seg IH]; intros Hfree; [reflexivity|].
  assert (Hc : (c =? COLON)%N = false).
  { apply N.eqb_neq. intros E. apply Hfree. now left. }
  cbn [split]. rewrite Hc, IH; [reflexivity|].
  intros Hin. apply Hfree. now right.
Qed.

(** The parts of a queue key, as far as the ids that precede them are
    free of colons. *)
Ltac split_queue_key :=
  rewrite queueKey_shape; cbn [glue];
  repeat (rewrite split_segment;
          [| first [ assumption
                   | now apply lit_colon_free_by_computation
                   | match goal with
                     | |- colon_free (match ?t with _ => _ end) =>
                         destruct t; now apply lit_colon_free_by_computation
                     end ] ]).

Lemma split_queueKey (env : AuthenticatedEnvironment) (queue : js_string)
    (concurrencyKey : option js_string) :
  colon_free_ids env ->
  colon_free queue ->
  (forall k, concurrencyKey = Some k -> colon_free k) ->
  split COLON (queueKey env queue concurrencyKey)
  = lit "org" :: organizationId env :: lit "proj" :: projectId env
    :: lit "envType" :: envType_text (type env) :: lit "env" :: id env
    :: lit "queue" :: queue
    :: match effective_ck concurrencyKey with
       | Some k => [lit "ck"; k]
       | None => []
       end.
Proof.
  intros [Ho [Hp He]] Hq Hk.
  split_queue_key.
  destruct concurrencyKey as [[|c k]|]; cbn [ck_tail effective_ck].
  - rewrite app_nil_r, split_last_segment by assumption. reflexivity.
  - rewrite split_segment by assumption.
    rewrite split_segment by (now apply lit_colon_free_by_computation).
    rewrite split_last_segment by (now apply Hk). reflexivity.
  - rewrite app_nil_r, split_last_segment by assumption. reflexivity.
Qed.

(** X2.  A queue key, with the producer's prefix in front, is taken apart
    into the ids, the queue name and the concurrency key it was built
    from, provided none of them contains a colon.  The environment type
    comes back as ["dev"] or ["deployed"], an empty concurrency key as
    none. *)
Theorem extractComponentsFromQueue_of_queueKey
    (prefix : js_string) (env : AuthenticatedEnvironment) (queue : js_string)
    (concurrencyKey : option js_string) :
  colon_free_ids env ->
  colon_free queue ->
  (forall k, concurrencyKey = Some k -> colon_free k) ->
  extractComponentsFromQueue prefix (prefix ++ queueKey env queue concurrencyKey)
  = {| qc_orgId := Some (organizationId env);
       qc_projectId := Some (projectId env);
       qc_envType := Some (envType_text (type env));
       qc_envId := Some (id env);
       qc_queue := Some queue;
       qc_concurrencyKey := effective_ck concurrencyKey |}.
Proof.
  intros Hids Hq Hk.
  unfold extractComponentsFromQueue. rewrite normalizeQueue_of_prefixed.
  rewrite split_queueKey by assumption.
  destruct (effective_ck concurrencyKey); reflexivity.
Qed.

(** X3.  Queue keys tell their inputs apart: two queue keys built from
    colon-free ids, queue names and concurrency keys are the same text
    only if the organization, the project, the environment, the queue
    name and the concurrency key are the same, the environment types are
    both development or both not, and an empty concurrency key counts as
    none. *)
Theorem queueKey_injective
    (env env' : AuthenticatedEnvironment) (queue queue' : js_string)
    (concurrencyKey concurrencyKey' : option js_string) :
  colon_free_ids env ->
  colon_free_ids env' ->
  colon_free queue ->
  colon_free queue' ->
  (forall k, concurrencyKey = Some k -> colon_free k) ->
  (forall k, concurrencyKey' = Some k -> colon_free k) ->
  queueKey env queue concurrencyKey = queueKey env' queue' concurrencyKey' ->
  organizationId env = organizationId env'
  /\ projectId env = projectId env'
  /\ envType_text (type env) = envType_text (type env')
  /\ id env = id env'
  /\ queue = queue'
  /\ effective_ck concurrencyKey = effective_ck concurrencyKey'.
Proof.
  intros Hids Hids' Hq Hq' Hk Hk' Hkeys.
  apply (f_equal (split COLON)) in Hkeys.
  rewrite !split_queueKey in Hkeys by assumption.
  injection Hkeys as Eo Ep Et Ee Eq Eck.
  repeat split; try assumption.
  destruct (effective_ck concurrencyKey), (effective_ck concurrencyKey');
    try discriminate; [|reflexivity].
  now injection Eck as ->.
Qed.

(** X4.  The two environment-level keys derived from a queue key are the
    keys built from the environment itself, provided the organization,
    project and environment ids contain no colon; the queue name and the
    concurrency key may be any text. *)
Theorem env_keys_from_queueKey
    (prefix : js_string) (env : AuthenticatedEnvironment) (queue : js_string)
    (concurrencyKey : option js_string) :
  colon_free_ids env ->
  envConcurrencyLimitKeyFromQueue prefix
    (prefix ++ queueKey env queue concurrencyKey)
  = envConcurrencyLimitKey env
  /\ envCurrentConcurrencyKeyFromQueue prefix
       (prefix ++ queueKey env queue concurrencyKey)
     = envCurrentConcurrencyKey env.
Proof.
  intros [Ho [Hp He]].
  unfold envConcurrencyLimitKeyFromQueue, envCurrentConcurrencyKeyFromQueue,
    extractComponentsFromQueue.
  rewrite normalizeQueue_of_prefixed.
  split_queue_key.
  cbn [qc_envId nth_error in_template].
  unfold envConcurrencyLimitKey, envCurrentConcurrencyKey, envKeySection,
    colon_pair.
  cbn [join]. rewrite <- !app_assoc. split; reflexivity.
Qed.

(** X5.  The key under which concurrency limits are disabled for an
    organization is derived from any queue key of that organization,
    provided the organization id contains no colon. *)
Theorem disabledConcurrencyLimitKeyFromQueue_of_queueKey
    (prefix : js_string) (env : AuthenticatedEnvironment) (queue : js_string)
    (concurrencyKey : option js_string) :
  colon_free (organizationId env) ->
  disabledConcurrencyLimitKeyFromQueue prefix
    (prefix ++ queueKey env queue concurrencyKey)
  = lit "org:" ++ organizationId env ++ lit ":disabledConcurrency".
Proof.
  intros Ho.
  unfold disabledConcurrencyLimitKeyFromQueue, extractComponentsFromQueue.
  rewrite normalizeQueue_of_prefixed.
  rewrite queueKey_shape. cbn [glue].
  rewrite split_segment by (now apply lit_colon_free_by_computation).
  rewrite split_segment by assumption.
  reflexivity.
Qed.

(** X6.  The current-concurrency key derived from a queue key is the
    current-concurrency key of the queue and its concurrency key, for
    every environment, queue name and concurrency key: unlike the
    concurrency-limit key, it is built without taking the queue key
    apart. *)
Theorem currentConcurrencyKeyFromQueue_of_queueKey
    (env : AuthenticatedEnvironment) (queue : js_string)
    (concurrencyKey : option js_string) :
  currentConcurrencyKeyFromQueue (queueKey env queue concurrencyKey)
  = currentConcurrencyKey env queue concurrencyKey.
Proof.
  unfold currentConcurrencyKeyFromQueue, currentConcurrencyKey, colon_pair.
  reflexivity.
Qed.

(** *** The shared queue of an environment *)

Lemma envSharedQueueKey_development (env : AuthenticatedEnvironment) :
  type env = DEVELOPMENT ->
  envSharedQueueKey env
  = lit "org" ++ COLON :: organizationId env ++ COLON :: lit "proj"
    ++ COLON :: projectId env ++ COLON :: lit "env" ++ COLON :: id env
    ++ COLON :: lit "sharedQueue".
Proof.
  intros Ht. unfold envSharedQueueKey. rewrite Ht.
  unfold orgKeySection, projKeySection, envKeySection, colon_pair.
  cbn [join]. repeat (rewrite <- ?app_assoc; cbn [app]). reflexivity.
Qed.

Lemma envSharedQueueKey_deployed (env : AuthenticatedEnvironment) :
  type env <> DEVELOPMENT -> envSharedQueueKey env = lit "sharedQueue".
Proof.
  intros Ht. unfold envSharedQueueKey.
  destruct (type env); [contradiction | reflexivity ..].
Qed.

Lemma split_envSharedQueueKey_development (env : AuthenticatedEnvironment) :
  colon_free_ids env ->
  type env = DEVELOPMENT ->
  split COLON (envSharedQueueKey env)
  = [ lit "org"; organizationId env; lit "proj"; projectId env; lit "env";
      id env; lit "sharedQueue" ].
Proof.
  intros [Ho [Hp He]] Ht. rewrite envSharedQueueKey_development by assumption.
  repeat (rewrite split_segment;
          [| first [assumption | now apply lit_colon_free_by_computation]]).
  rewrite split_last_segment by (now apply lit_colon_free_by_computation).
  reflexivity.
Qed.

(** X7.  Which environments share a shared queue: two environments with
    colon-free ids have the same shared-queue key exactly when neither is
    a development environment, or both are and they agree on the
    organization, the project and the environment id.  So every
    development environment has a queue of its own and all other
    environments have one queue between them. *)
Theorem envSharedQueueKey_same_iff (env env' : AuthenticatedEnvironment) :
  colon_free_ids env ->
  colon_free_ids env' ->
  envSharedQueueKey env = envSharedQueueKey env'
  <-> (type env <> DEVELOPMENT /\ type env' <> DEVELOPMENT)
      \/ (type env = DEVELOPMENT /\ type env' = DEVELOPMENT
          /\ organizationId env = organizationId env'
          /\ projectId env = projectId env'
          /\ id env = id env').
Proof.
  intros Hids Hids'.
  assert (Hdec : forall t, t = DEVELOPMENT \/ t <> DEVELOPMENT).
  { intros []; [now left | right; discriminate ..]. }
  split.
  - intros Hkeys.
    destruct (Hdec (type env)) as [Ht | Ht], (Hdec (type env')) as [Ht' | Ht'].
    + right. apply (f_equal (split COLON)) in Hkeys.
      rewrite !split_envSharedQueueKey_development in Hkeys by assumption.
      injection Hkeys as Eo Ep Ee. auto.
    + exfalso. rewrite envSharedQueueKey_development in Hkeys by assumption.
      rewrite (envSharedQueueKey_deployed env') in Hkeys by assumption.
      discriminate.
    + exfalso. rewrite (envSharedQueueKey_development env') in Hkeys by assumption.
      rewrite envSharedQueueKey_deployed in Hkeys by assumption.
      discriminate.
    + now left.
  - intros [[Ht Ht'] | [Ht [Ht' [Eo [Ep Ee]]]]].
    + now rewrite !envSharedQueueKey_deployed.
    + rewrite !envSharedQueueKey_development by assumption.
      now rewrite Eo, Ep, Ee.
Qed.

(** *** The global current-concurrency key *)

Lemma ENV_INFIX_eq : COLON :: ENV_PART ++ [COLON] = ENV_INFIX_units.
Proof. reflexivity. Qed.

(** A segment without a colon is copied: no match starts inside it. *)
Lemma replace_to_end_segment (replacement seg rest : js_string) :
  colon_free seg ->
  replace_to_end ENV_INFIX_units replacement (seg ++ rest)
  = seg ++ replace_to_end ENV_INFIX_units replacement rest.
Proof.
  induction seg as [|c seg IH]; intros Hfree; [reflexivity|].
  assert (Hc : (58 =? c)%N = false).
  { apply N.eqb_neq. intros E. apply Hfree. left. symmetry. exact E. }
  assert (Hseg : colon_free seg).
  { intros Hin. apply Hfree. right. exact Hin. }
  cbn [app replace_to_end]. unfold ENV_INFIX_units at 1.
  cbn [starts_with]. rewrite Hc. cbn [andb].
  now rewrite IH.
Qed.

Lemma starts_with_env_segment (seg rest : js_string) :
  colon_free seg ->
  seg <> lit "env" ->
  rest = [] \/ (exists r, rest = COLON :: r) ->
  starts_with [101; 110; 118; 58]%N (seg ++ rest) = false.
Proof.
  intros Hfree Hne Hrest.
  destruct seg as [|a [|b [|c [|d seg]]]]; cbn [app starts_with].
  - destruct Hrest as [-> | [r ->]]; reflexivity.
  - destruct Hrest as [-> | [r ->]]; cbn [starts_with];
      now rewrite ?andb_false_r.
  - destruct Hrest as [-> | [r ->]]; cbn [starts_with];
      now rewrite ?andb_false_r.
  - destruct (101 =? a)%N eqn:Ea; [|reflexivity].
    destruct (110 =? b)%N eqn:Eb; [|reflexivity].
    destruct (118 =? c)%N eqn:Ec; [|reflexivity].
    apply N.eqb_eq in Ea, Eb, Ec. subst a b c.
    exfalso. now apply Hne.
  - assert (Hd : (58 =? d)%N = false).
    { apply N.eqb_neq. intros E. apply Hfree. right. right. right. left.
      symmetry. exact E. }
    rewrite Hd. now rewrite !andb_false_r.
Qed.

Lemma replace_to_end_colon_segment (replacement seg rest : js_string) :
  colon_free seg ->
  seg <> lit "env" ->
  rest = [] \/ (exists r, rest = COLON :: r) ->
  replace_to_end ENV_INFIX_units replacement (COLON :: seg ++ rest)
  = COLON :: seg ++ replace_to_end ENV_INFIX_units replacement rest.
Proof.
  intros Hfree Hne Hrest.
  cbn [replace_to_end]. unfold ENV_INFIX_units at 1.
  change (starts_with [58; 101; 110; 118; 58]%N (COLON :: seg ++ rest))
    with (starts_with [101; 110; 118; 58]%N (seg ++ rest)).
  rewrite (starts_with_env_segment seg rest Hfree Hne Hrest). cbn [andb].
  now rewrite replace_to_end_segment.
Qed.

(** At [":env:"] followed by text without a line terminator the rest of
    the string is replaced. *)
Lemma replace_to_end_match (replacement : js_string) (c : N) (rest : js_string) :
  line_terminator_free (c :: rest) ->
  replace_to_end ENV_INFIX_units replacement
    (COLON :: lit "env" ++ COLON :: c :: rest)
  = replacement.
Proof.
  intros Hlt.
  assert (Hall : forallb (fun c => negb (isLineTerminator c)) (c :: rest) = true).
  { apply forallb_forall. intros x Hx. now rewrite (Hlt x Hx). }
  change (lit "env") with [101; 110; 118]%N. cbn [app].
  cbn [replace_to_end]. unfold ENV_INFIX_units at 1 2.
  change (skipn (List.length [58; 101; 110; 118; 58]%N)
            (COLON :: 101%N :: 110%N :: 118%N :: COLON :: c :: rest))
    with (c :: rest).
  change (starts_with [58; 101; 110; 118; 58]%N
            (COLON :: 101%N :: 110%N :: 118%N :: COLON :: c :: rest))
    with true.
  cbn [andb dot_plus_to_end]. now rewrite Hall.
Qed.

Lemma line_terminator_free_app (s t : js_string) :
  line_terminator_free s -> line_terminator_free t ->
  line_terminator_free (s ++ t).
Proof.
  intros Hs Ht c Hin. apply in_app_or in Hin. destruct Hin; auto.
Qed.

Lemma line_terminator_free_cons (c : N) (s : js_string) :
  isLineTerminator c = false -> line_terminator_free s ->
  line_terminator_free (c :: s).
Proof.
  intros Hc Hs x [<- | Hin]; auto.
Qed.

Lemma line_terminator_free_ck_tail (concurrencyKey : option js_string) :
  (forall k, concurrencyKey = Some k -> line_terminator_free k) ->
  line_terminator_free (ck_tail concurrencyKey).
Proof.
  intros Hk. destruct concurrencyKey as [[|c k]|]; cbn [ck_tail];
    [intros x Hx; destruct Hx | | intros x Hx; destruct Hx].
  apply line_terminator_free_cons; [reflexivity|].
  apply line_terminator_free_app.
  - now apply lit_line_terminator_free_by_computation.
  - apply line_terminator_free_cons; [reflexivity|]. now apply Hk.
Qed.

(** X8.  The global current-concurrency key of a queue key is the key up
    to its environment type, followed by [":*"]: the environment id, the
    queue name and the concurrency key are all replaced by the star.
    This holds when the organization and project ids contain no colon
    and are not the text ["env"], and the environment id, the queue name
    and the concurrency key contain no line terminator. *)
Theorem globalCurrentConcurrencyKey_of_queueKey
    (env : AuthenticatedEnvironment) (queue : js_string)
    (concurrencyKey : option js_string) :
  colon_free (organizationId env) ->
  colon_free (projectId env) ->
  organizationId env <> lit "env" ->
  projectId env <> lit "env" ->
  line_terminator_free (id env) ->
  line_terminator_free queue ->
  (forall k, concurrencyKey = Some k -> line_terminator_free k) ->
  globalCurrentConcurrencyKey (queueKey env queue concurrencyKey)
  = lit "org:" ++ organizationId env ++ lit ":proj:" ++ projectId env
    ++ lit ":envType:" ++ envType_text (type env) ++ lit ":*".
Proof.
  intros Ho Hp No Np Le Lq Lk.
  unfold globalCurrentConcurrencyKey. rewrite ENV_INFIX_eq.
  rewrite queueKey_shape. cbn [glue].
  pose proof lit_colon_free_by_computation as Hlit.
  assert (Htail : forall r : js_string,
             COLON :: r = [] \/ (exists r', COLON :: r = COLON :: r')).
  { intros r. right. now eexists. }
  rewrite replace_to_end_segment by (now apply Hlit).
  do 5 (rewrite replace_to_end_colon_segment
          by first [ assumption | now apply Hlit | discriminate | apply Htail
                   | destruct (type env);
                     first [now apply Hlit | discriminate] ]).
  assert (Hrest : line_terminator_free
            (id env ++ COLON :: lit "queue" ++ COLON :: queue
             ++ ck_tail concurrencyKey)).
  { apply line_terminator_free_app; [assumption|].
    apply line_terminator_free_cons; [reflexivity|].
    apply line_terminator_free_app;
      [now apply lit_line_terminator_free_by_computation|].
    apply line_terminator_free_cons; [reflexivity|].
    apply line_terminator_free_app; [assumption|].
    now apply line_terminator_free_ck_tail. }
  destruct (id env) as [|e E]; cbn [app] in *.
  - rewrite replace_to_end_match by assumption.
    destruct (type env); repeat (rewrite <- ?app_assoc; cbn [app]); reflexivity.
  - rewrite replace_to_end_match by assumption.
    destruct (type env); repeat (rewrite <- ?app_assoc; cbn [app]); reflexivity.
Qed.

End KeyProducerFurther.

Section KeyProducerFurtherExamples.

Import KeyProducer.

Ltac literal_ids :=
  repeat match goal with
         | |- colon_free_ids _ => repeat split
         | |- colon_free _ => now apply lit_colon_free_by_computation
         | |- line_terminator_free _ =>
             now apply lit_line_terminator_free_by_computation
         | |- forall k, Some _ = Some k -> _ =>
             let k := fresh "k" in
             let E := fresh "E" in
             intros k E; injection E as <-
         | |- forall k, None = Some k -> _ => discriminate
         | |- _ <> _ => discriminate
         end.

(** X2 at the queue ["emails"] under the concurrency key ["user1"], for a
    producer with the prefix ["rq:"]. *)
Lemma extractComponentsFromQueue_of_queueKey_witness :
  extractComponentsFromQueue (lit "rq:")
    (lit "rq:"
     ++ queueKey Examples.env_o_p_e (lit "emails") (Some (lit "user1")))
  = {| qc_orgId := Some (lit "o");
       qc_projectId := Some (lit "p");
       qc_envType := Some (lit "deployed");
       qc_envId := Some (lit "e");
       qc_queue := Some (lit "emails");
       qc_concurrencyKey := Some (lit "user1") |}.
Proof.
  apply (extractComponentsFromQueue_of_queueKey (lit "rq:")
           Examples.env_o_p_e (lit "emails") (Some (lit "user1")));
    literal_ids.
Defined.

(** X3 at two keys of the same queue. *)
Lemma queueKey_injective_witness :
  organizationId Examples.env_o_p_e = organizationId Examples.env_o_p_e
  /\ projectId Examples.env_o_p_e = projectId Examples.env_o_p_e
  /\ envType_text (type Examples.env_o_p_e)
     = envType_text (type Examples.env_o_p_e)
  /\ id Examples.env_o_p_e = id Examples.env_o_p_e
  /\ lit "emails" = lit "emails"
  /\ effective_ck (Some []) = effective_ck None.
Proof.
  apply (queueKey_injective Examples.env_o_p_e Examples.env_o_p_e
           (lit "emails") (lit "emails") (Some []) None);
    literal_ids; try reflexivity.
  intros x; destruct x.
Defined.

(** X4 at the queue ["a:b"], whose name contains a colon. *)
Lemma env_keys_from_queueKey_witness :
  envConcurrencyLimitKeyFromQueue (lit "rq:")
    (lit "rq:" ++ queueKey Examples.env_o_p_e (lit "a:b") None)
  = envConcurrencyLimitKey Examples.env_o_p_e
  /\ envCurrentConcurrencyKeyFromQueue (lit "rq:")
       (lit "rq:" ++ queueKey Examples.env_o_p_e (lit "a:b") None)
     = envCurrentConcurrencyKey Examples.env_o_p_e.
Proof.
  apply (env_keys_from_queueKey (lit "rq:") Examples.env_o_p_e (lit "a:b") None);
    literal_ids.
Defined.

(** X5 at the same queue. *)
Lemma disabledConcurrencyLimitKeyFromQueue_of_queueKey_witness :
  disabledConcurrencyLimitKeyFromQueue (lit "rq:")
    (lit "rq:" ++ queueKey Examples.env_o_p_e (lit "a:b") None)
  = lit "org:" ++ organizationId Examples.env_o_p_e
    ++ lit ":disabledConcurrency".
Proof.
  apply (disabledConcurrencyLimitKeyFromQueue_of_queueKey (lit "rq:")
           Examples.env_o_p_e (lit "a:b") None);
    literal_ids.
Defined.

(** X7 at a deployed and a development environment. *)
Lemma envSharedQueueKey_same_iff_witness :
  envSharedQueueKey Examples.env_o_p_e = envSharedQueueKey Examples.env_dev
  <-> (type Examples.env_o_p_e <> DEVELOPMENT
       /\ type Examples.env_dev <> DEVELOPMENT)
      \/ (type Examples.env_o_p_e = DEVELOPMENT
          /\ type Examples.env_dev = DEVELOPMENT
          /\ organizationId Examples.env_o_p_e = organizationId Examples.env_dev
          /\ projectId Examples.env_o_p_e = projectId Examples.env_dev
          /\ id Examples.env_o_p_e = id Examples.env_dev).
Proof.
  apply (envSharedQueueKey_same_iff Examples.env_o_p_e Examples.env_dev);
    literal_ids.
Defined.

(** X8 at the queue ["emails"] under the concurrency key ["user1"]. *)
Lemma globalCurrentConcurrencyKey_of_queueKey_witness :
  globalCurrentConcurrencyKey
    (queueKey Examples.env_o_p_e (lit "emails") (Some (lit "user1")))
  = lit "org:" ++ organizationId Examples.env_o_p_e ++ lit ":proj:"
    ++ projectId Examples.env_o_p_e ++ lit ":envType:"
    ++ envType_text (type Examples.env_o_p_e) ++ lit ":*".
Proof.
  apply (globalCurrentConcurrencyKey_of_queueKey Examples.env_o_p_e
           (lit "emails") (Some (lit "user1")));
    literal_ids.
Defined.

End KeyProducerFurtherExamples.

(* ================================================================= *)
(** ** Further properties of the run engine *)

Section RunEngineFurther.

Import RunEngine.

(** *** Stall checks *)

Lemma Worker_ack_incl (i : JobId) (jobs : list Job) :
  incl (Worker_ack i jobs) jobs.
Proof.
  intros j Hin. unfold Worker_ack in Hin.
  apply filter_In in Hin. tauto.
Qed.

(** X9.  The handler of a stall check never writes to the store or to
    the run queue and never schedules a job: however the call is bound
    and whatever the state, the store, the run queue and the id supply
    are as before, and every job on the worker afterwards was there
    before. *)
Theorem handleStalledSnapshot_writes_nothing
    (call : OneArgumentCall) (runId snapshotId : Id) (s : EngineState) :
  prisma (snd (handleStalledSnapshot call runId snapshotId s)) = prisma s
  /\ runQueue (snd (handleStalledSnapshot call runId snapshotId s)) = runQueue s
  /\ idSupply (snd (handleStalledSnapshot call runId snapshotId s)) = idSupply s
  /\ incl (worker (snd (handleStalledSnapshot call runId snapshotId s)))
          (worker s).
Proof.
  unfold handleStalledSnapshot, getLatestExecutionSnapshot_1.
  destruct call; run_engine.
  - repeat split. apply incl_refl.
  - destruct (getLatestExecutionSnapshot (prisma s) runId) as [latest|];
      run_engine.
    + destruct (negb (Nat.eqb (snap_id latest) snapshotId)); run_engine.
      * repeat split. apply Worker_ack_incl.
      * destruct (snap_executionStatus latest); run_engine;
          repeat split; apply incl_refl.
    + repeat split. apply incl_refl.
Qed.

(** *** Snapshots *)

Lemma pick_latest_other_run (runId : Id)
    (best : option TaskRunExecutionSnapshot) (sn : TaskRunExecutionSnapshot) :
  snap_runId sn <> runId -> pick_latest runId best sn = best.
Proof.
  intros Hne. unfold pick_latest.
  apply Nat.eqb_neq in Hne. now rewrite Hne.
Qed.

(** The latest snapshot of a run is one of the snapshots of the run. *)
Lemma getLatestExecutionSnapshot_In (d : Db) (runId : Id)
    (latest : TaskRunExecutionSnapshot) :
  getLatestExecutionSnapshot d runId = Some latest ->
  In latest (db_taskRunExecutionSnapshot d) /\ snap_runId latest = runId.
Proof.
  unfold getLatestExecutionSnapshot.
  assert (H : forall rows best,
             (forall b, best = Some b -> In b (db_taskRunExecutionSnapshot d)
                                         /\ snap_runId b = runId) ->
             incl rows (db_taskRunExecutionSnapshot d) ->
             fold_left (pick_latest runId) rows best = Some latest ->
             In latest (db_taskRunExecutionSnapshot d)
             /\ snap_runId latest = runId).
  { induction rows as [|sn rows IH]; intros best Hbest Hincl Hfold.
    - now apply Hbest.
    - cbn [fold_left] in Hfold. apply IH in Hfold; [assumption| |].
      + intros b Eb. unfold pick_latest in Eb.
        destruct (Nat.eqb (snap_runId sn) runId) eqn:Erun; [|now apply Hbest].
        apply Nat.eqb_eq in Erun.
        assert (Hsn : In sn (db_taskRunExecutionSnapshot d))
          by (apply Hincl; now left).
        destruct best as [b0|].
        * destruct (snap_createdAt b0 <=? snap_createdAt sn)%Z;
            injection Eb as <-; auto.
        * injection Eb as <-; auto.
      + intros x Hx. apply Hincl. now right. }
  apply H; [discriminate | apply incl_refl].
Qed.

(** X11.  The snapshot [#createExecutionSnapshot] returns is the latest
    snapshot of its run as soon as the snapshots the run already has are
    older than the clock, and the latest snapshot of every other run is
    the one it was. *)
Theorem createExecutionSnapshot_is_latest
    (runId : Id) (runStatus : TaskRunStatus.t)
    (executionStatus : TaskRunExecutionStatus.t) (description : string)
    (s : EngineState) :
  (forall sn, In sn (db_taskRunExecutionSnapshot (prisma s)) ->
     snap_runId sn = runId -> (snap_createdAt sn < now s)%Z) ->
  exists newSnapshot s',
    createExecutionSnapshot runId runStatus executionStatus description s
    = (Ok newSnapshot, s')
    /\ getLatestExecutionSnapshot (prisma s') runId = Some newSnapshot
    /\ snap_runStatus newSnapshot = runStatus
    /\ forall other, other <> runId ->
         getLatestExecutionSnapshot (prisma s') other
         = getLatestExecutionSnapshot (prisma s) other.
Proof.
  intros Holder.
  unfold createExecutionSnapshot.
  destruct executionStatus; run_engine.
  all: do 2 eexists; split; [reflexivity|]; run_engine.
  all: split; [|split; [reflexivity|]].
  all: try (intros other Hother; rewrite getLatestExecutionSnapshot_appended;
            apply pick_latest_other_run; cbn [snap_runId]; congruence).
  all: rewrite getLatestExecutionSnapshot_appended.
  all: unfold pick_latest; cbn [snap_runId snap_createdAt];
    rewrite Nat.eqb_refl;
    destruct (getLatestExecutionSnapshot (prisma s) runId) as [b|] eqn:Hb;
    [|reflexivity];
    apply getLatestExecutionSnapshot_In in Hb; destruct Hb as [Hin Hrun];
    specialize (Holder b Hin Hrun);
    destruct (snap_createdAt b <=? now s)%Z eqn:Hle; [reflexivity|];
    apply Z.leb_gt in Hle; lia.
Qed.

(** *** Continuing a run *)

(** X12.  Continuing a run that is executing on a worker is not
    implemented, and not without trace: [#continueRun] throws, the run
    queue is as it was, but a new EXECUTING snapshot of the run has been
    written and a stall check is scheduled for it fifteen minutes on. *)
Theorem continueRun_executing_run_throws
    (run : TaskRun) (env : MinimalAuthenticatedEnvironment) (s : EngineState)
    (latest : TaskRunExecutionSnapshot) :
  getLatestExecutionSnapshot (prisma s) (run_id run) = Some latest ->
  executing_with_worker latest = true ->
  exists newSnapshot s',
    continueRun run env s
    = (Err (NotImplementedError
         "RunEngine.#continueRun(): continue executing run, not implemented yet"),
       s')
    /\ db_taskRunExecutionSnapshot (prisma s')
       = db_taskRunExecutionSnapshot (prisma s) ++ [newSnapshot]
    /\ snap_runId newSnapshot = run_id run
    /\ snap_executionStatus newSnapshot = TaskRunExecutionStatus.EXECUTING
    /\ snap_runStatus newSnapshot = run_status run
    /\ In {| job_id := Some (heartbeatSnapshot_id (snap_id newSnapshot));
             job_payload := heartbeatSnapshot (run_id run) (snap_id newSnapshot);
             job_availableAt := Some (now s + 60 * 15 * 1000)%Z |}
          (worker s')
    /\ runQueue s' = runQueue s.
Proof.
  intros Hlatest Hexec.
  unfold continueRun, using_lock. cbv beta iota zeta delta [bind get].
  rewrite Hlatest. fold (executing_with_worker latest). rewrite Hexec.
  unfold createExecutionSnapshot. run_engine.
  do 2 eexists. split; [reflexivity|]. run_engine.
  repeat split.
  unfold Worker_enqueue. cbn [job_id]. apply in_or_app. right. now left.
Qed.

(** The case analysis of [#continueRun]: no snapshot, a run executing on
    a worker, any other run. *)
Ltac continue_cases s run :=
  let latest := fresh "latest" in
  let Hlatest := fresh "Hlatest" in
  let Hexec := fresh "Hexec" in
  unfold continueRun, using_lock; cbv beta iota zeta delta [bind get];
  destruct (getLatestExecutionSnapshot (prisma s) (run_id run))
    as [latest|] eqn:Hlatest;
  [ fold (executing_with_worker latest);
    destruct (executing_with_worker latest) eqn:Hexec;
    unfold createExecutionSnapshot; run_engine
  | run_engine ].

(** What [#continueRun] does to the clock, the queue table, the snapshot
    table and the run queue, whether it returns or throws. *)
Lemma continueRun_effects (run : TaskRun) (env : MinimalAuthenticatedEnvironment)
    (s : EngineState) :
  now (snd (continueRun run env s)) = now s
  /\ db_taskQueue (prisma (snd (continueRun run env s))) = db_taskQueue (prisma s)
  /\ (exists added,
        db_taskRunExecutionSnapshot (prisma (snd (continueRun run env s)))
        = db_taskRunExecutionSnapshot (prisma s) ++ added)
  /\ rq_messages (runQueue (snd (continueRun run env s)))
     = rq_messages (runQueue s)
       ++ match fst (continueRun run env s) with
          | Ok _ => [(run_masterQueue run, message_of run env (now s))]
          | Err _ => []
          end.
Proof.
  continue_cases s run; repeat split; rewrite ?app_nil_r; try reflexivity.
  - now eexists.
  - now eexists.
  - exists []. now rewrite app_nil_r.
Qed.

(** The loop of [#completeWaitpoint]: the runs it has published are the
    first of its list, in order; it stops at the first run it cannot
    continue. *)
Lemma loop_effects (runs : list TaskRun) : forall s,
  let after :=
    for_each runs (fun run => continueRun run (run_runtimeEnvironment run)) s in
  now (snd after) = now s
  /\ db_taskQueue (prisma (snd after)) = db_taskQueue (prisma s)
  /\ (exists added,
        db_taskRunExecutionSnapshot (prisma (snd after))
        = db_taskRunExecutionSnapshot (prisma s) ++ added)
  /\ (exists done rest,
        runs = done ++ rest
        /\ rq_messages (runQueue (snd after))
           = rq_messages (runQueue s) ++ map (published (now s)) done).
Proof.
  induction runs as [|run runs IH]; intros s; cbv zeta.
  - cbn [for_each]. unfold ret. cbn [snd].
    repeat split; try (exists []; now rewrite app_nil_r).
    exists [], []. split; [reflexivity|]. cbn [map]. now rewrite app_nil_r.
  - cbn [for_each]. unfold bind.
    destruct (continueRun_effects run (run_runtimeEnvironment run) s)
      as [Hnow [Hqueue [[added Hadded] Hmessages]]].
    destruct (continueRun run (run_runtimeEnvironment run) s) as [[[]|e] s1];
      cbn [fst snd] in *.
    + destruct (IH s1) as [Hnow' [Hqueue' [[added' Hadded'] [done [rest [Hruns Hmessages']]]]]].
      cbv zeta in *.
      repeat split.
      * congruence.
      * congruence.
      * exists (added ++ added'). rewrite Hadded', Hadded. now rewrite app_assoc.
      * exists (run :: done), rest. split; [now rewrite Hruns|].
        rewrite Hmessages', Hmessages, Hnow. cbn [map]. unfold published at 2.
        now rewrite <- app_assoc.
    + repeat split; try assumption.
      * now exists added.
      * exists [], (run :: runs). split; [reflexivity|].
        rewrite Hmessages. reflexivity.
Qed.

(** *** Completing a waitpoint *)

Lemma findMany_after_deleteMany (id other : Id) (d : Db) :
  other <> id ->
  taskRunWaitpoint_findMany
    (waitpoint_complete id (taskRunWaitpoint_deleteMany id d)) other
  = taskRunWaitpoint_findMany d other.
Proof.
  intros Hne. unfold taskRunWaitpoint_findMany, waitpoint_complete,
    taskRunWaitpoint_deleteMany.
  cbn [set_waitpoint set_taskRunWaitpoint db_taskRunWaitpoint db_waitpoint].
  f_equal.
  induction (db_taskRunWaitpoint d) as [|row rows IH]; [reflexivity|].
  cbn [filter].
  destruct (Nat.eqb (trw_waitpointId row) id) eqn:Eid; cbn [negb filter].
  - apply Nat.eqb_eq in Eid.
    assert (Eother : Nat.eqb (trw_waitpointId row) other = false)
      by (apply Nat.eqb_neq; congruence).
    now rewrite Eother.
  - now rewrite IH.
Qed.

Lemma findUnique_after_complete (id other : Id) (d : Db) :
  other <> id ->
  waitpoint_findUnique
    (waitpoint_complete id (taskRunWaitpoint_deleteMany id d)) other
  = waitpoint_findUnique d other.
Proof.
  intros Hne. unfold waitpoint_findUnique, waitpoint_complete,
    taskRunWaitpoint_deleteMany.
  cbn [set_waitpoint set_taskRunWaitpoint db_taskRunWaitpoint db_waitpoint].
  induction (db_waitpoint d) as [|w ws IH]; [reflexivity|].
  cbn [map find].
  destruct (Nat.eqb (wp_id w) id) eqn:Eid.
  - apply Nat.eqb_eq in Eid. cbn [complete_status wp_id].
    assert (Eother : Nat.eqb (wp_id w) other = false)
      by (apply Nat.eqb_neq; congruence).
    now rewrite Eother.
  - destruct (Nat.eqb (wp_id w) other); [reflexivity | exact IH].
Qed.

(** The steps of [#completeWaitpoint], by the waitpoint it finds. *)
Ltac completeWaitpoint_cases id s :=
  let w := fresh "w" in
  let Hfind := fresh "Hfind" in
  let Hstatus := fresh "Hstatus" in
  destruct (waitpoint_findUnique (prisma s) id) as [w|] eqn:Hfind;
  [ destruct (wp_status w) eqn:Hstatus;
    [ rewrite (completeWaitpoint_pending id s w Hfind Hstatus)
    | unfold completeWaitpoint; cbv beta iota zeta delta [bind get];
      rewrite Hfind, Hstatus ]
  | unfold completeWaitpoint; cbv beta iota zeta delta [bind get];
    rewrite Hfind ].

(** X14.  The messages [#completeWaitpoint] publishes, whether it returns
    or throws: they come after the messages already on the run queue, one
    for each of a list of runs, and every such run is a row of the run
    table that was blocked by the waitpoint and is PENDING or
    WAITING_TO_RESUME.  A run in any other status, a DELAYED run among
    them, is never put on the queue by the completion of a waitpoint. *)
Theorem completeWaitpoint_publishes_resumable_runs (id : Id) (s : EngineState) :
  exists runs,
    enqueued_runs (snd (completeWaitpoint id s))
    = enqueued_runs s ++ map run_id runs
    /\ forall run, In run runs ->
         In run (db_taskRun (prisma s))
         /\ blocked_by (prisma s) id (run_id run)
         /\ resumable_status (run_status run).
Proof.
  unfold enqueued_runs.
  completeWaitpoint_cases id s.
  - destruct (taskRunWaitpoint_findMany (prisma s) id) as [|a affected] eqn:Haffected.
    + exists []. cbn [map snd]. rewrite app_nil_r. now split.
    + cbv zeta.
      match goal with
      | |- context [for_each ?runs ?body ?tx] =>
          destruct (loop_effects runs tx)
            as [_ [_ [_ [done [rest [Hruns Hmessages]]]]]];
          cbv zeta in Hmessages
      end.
      exists done. split.
      * destruct (for_each _ _ _) as [[[]|e'] s'];
          cbn [snd runQueue set_prisma] in *;
          rewrite Hmessages, map_app, map_map; reflexivity.
      * intros run Hrun.
        assert (Hin : In run (done ++ rest)) by (apply in_or_app; now left).
        rewrite <- Hruns in Hin.
        unfold taskRun_findMany_toResume in Hin.
        apply filter_In in Hin. destruct Hin as [Hrow Htest].
        apply andb_prop in Htest. destruct Htest as [Htest Hst].
        apply andb_prop in Htest. destruct Htest as [Hblocked _].
        repeat split.
        -- exact Hrow.
        -- apply formerly_blocked_iff. now rewrite Haffected.
        -- now apply status_in_PENDING_WAITING_TO_RESUME_iff.
  - exists []. cbn [map snd]. rewrite app_nil_r. now split.
  - exists []. cbn [map snd]. rewrite app_nil_r. now split.
Qed.

(** X15.  What [#completeWaitpoint] leaves alone, whether it returns or
    throws: the run table (no run changes its status), the queue table,
    every other waitpoint and the rows that join runs to other
    waitpoints; snapshots are only ever added. *)
Theorem completeWaitpoint_frame (id : Id) (s : EngineState) :
  db_taskRun (prisma (snd (completeWaitpoint id s))) = db_taskRun (prisma s)
  /\ db_taskQueue (prisma (snd (completeWaitpoint id s)))
     = db_taskQueue (prisma s)
  /\ (exists added,
        db_taskRunExecutionSnapshot (prisma (snd (completeWaitpoint id s)))
        = db_taskRunExecutionSnapshot (prisma s) ++ added)
  /\ (forall other, other <> id ->
        waitpoint_findUnique (prisma (snd (completeWaitpoint id s))) other
        = waitpoint_findUnique (prisma s) other
        /\ taskRunWaitpoint_findMany (prisma (snd (completeWaitpoint id s))) other
           = taskRunWaitpoint_findMany (prisma s) other).
Proof.
  assert (Hsame : db_taskRun (prisma s) = db_taskRun (prisma s)
                  /\ db_taskQueue (prisma s) = db_taskQueue (prisma s)
                  /\ (exists added,
                        db_taskRunExecutionSnapshot (prisma s)
                        = db_taskRunExecutionSnapshot (prisma s) ++ added)
                  /\ (forall other, other <> id ->
                        waitpoint_findUnique (prisma s) other
                        = waitpoint_findUnique (prisma s) other
                        /\ taskRunWaitpoint_findMany (prisma s) other
                           = taskRunWaitpoint_findMany (prisma s) other)).
  { repeat split. exists []. now rewrite app_nil_r. }
  completeWaitpoint_cases id s; cbn [snd]; try exact Hsame.
  destruct (taskRunWaitpoint_findMany (prisma s) id) as [|a affected] eqn:Haffected;
    cbn [snd]; [exact Hsame|].
  cbv zeta.
  match goal with
  | |- context [for_each ?runs ?body ?tx] =>
      pose proof (loop_keeps_taskRun runs tx) as Hruns;
      pose proof (loop_keeps_waitpoint runs tx) as Hwaitpoints;
      pose proof (loop_keeps_taskRunWaitpoint runs tx) as Hrows;
      destruct (loop_effects runs tx) as [_ [Hqueues [[added Hadded] _]]];
      cbv zeta in Hqueues, Hadded
  end.
  cbv beta in Hruns, Hwaitpoints, Hrows.
  destruct (for_each _ _ _) as [[[]|e'] s']; cbn [fst snd] in *.
  2:{ split; [reflexivity|]. split; [reflexivity|].
      split; [exists added; exact Hadded|].
      intros other _. split; reflexivity. }
  split; [exact Hruns|]. split; [exact Hqueues|].
  split; [now exists added|].
  intros other Hother. split.
  - rewrite (waitpoint_findUnique_ext _ _ other Hwaitpoints).
    cbn [prisma set_prisma]. now apply findUnique_after_complete.
  - unfold taskRunWaitpoint_findMany at 1. rewrite Hrows.
    fold (taskRunWaitpoint_findMany
            (prisma (set_prisma
               (waitpoint_complete id (taskRunWaitpoint_deleteMany id (prisma s))) s))
            other).
    cbn [prisma set_prisma]. now apply findMany_after_deleteMany.
Qed.

(** *** Dequeue *)

Section DequeueProperties.

Variable dequeueMessageInSharedQueue :
  string -> string -> RunQueue -> option Id * RunQueue.

(** X16.  [dequeueFromMasterQueue] writes only when it returns a
    snapshot.  Then the latest snapshot of the run was QUEUED or
    BLOCKED_BY_WAITPOINTS, the new snapshot is DEQUEUED_FOR_EXECUTION,
    carries the run status of that latest snapshot, is the one row added
    to the table, and has a stall check sixty seconds on.  In every other
    case (no message, no snapshot, another execution status) the store
    and the worker are as before.  The run queue is in all cases as the
    queue's own dequeue left it: the engine puts no message back. *)
Theorem dequeueFromMasterQueue_outcomes
    (consumerId masterQueue : string) (s : EngineState) :
  let message :=
    fst (dequeueMessageInSharedQueue consumerId masterQueue (runQueue s)) in
  let s' :=
    snd (dequeueFromMasterQueue dequeueMessageInSharedQueue
           consumerId masterQueue s) in
  runQueue s'
  = snd (dequeueMessageInSharedQueue consumerId masterQueue (runQueue s))
  /\ match fst (dequeueFromMasterQueue dequeueMessageInSharedQueue
                  consumerId masterQueue s)
     with
     | DequeuedSnapshot newSnapshot =>
         exists messageId latest,
           message = Some messageId
           /\ getLatestExecutionSnapshot (prisma s) messageId = Some latest
           /\ (snap_executionStatus latest = TaskRunExecutionStatus.QUEUED
               \/ snap_executionStatus latest
                  = TaskRunExecutionStatus.BLOCKED_BY_WAITPOINTS)
           /\ snap_runId newSnapshot = messageId
           /\ snap_executionStatus newSnapshot
              = TaskRunExecutionStatus.DEQUEUED_FOR_EXECUTION
           /\ snap_runStatus newSnapshot = snap_runStatus latest
           /\ db_taskRunExecutionSnapshot (prisma s')
              = db_taskRunExecutionSnapshot (prisma s) ++ [newSnapshot]
           /\ In {| job_id := Some (heartbeatSnapshot_id (snap_id newSnapshot));
                    job_payload := heartbeatSnapshot messageId (snap_id newSnapshot);
                    job_availableAt := Some (now s + 60 * 1000)%Z |}
                 (worker s')
     | DequeuedNull => message = None /\ prisma s' = prisma s /\ worker s' = worker s
     | DequeueNoSnapshotFound messageId =>
         message = Some messageId
         /\ getLatestExecutionSnapshot (prisma s) messageId = None
         /\ prisma s' = prisma s /\ worker s' = worker s
     | DequeueNotInValidState messageId snapshot =>
         message = Some messageId
         /\ getLatestExecutionSnapshot (prisma s) messageId = Some snapshot
         /\ snap_executionStatus snapshot <> TaskRunExecutionStatus.QUEUED
         /\ snap_executionStatus snapshot
            <> TaskRunExecutionStatus.BLOCKED_BY_WAITPOINTS
         /\ prisma s' = prisma s /\ worker s' = worker s
     | DequeueThrows _ => False
     end.
Proof.
  unfold dequeueFromMasterQueue.
  destruct (dequeueMessageInSharedQueue consumerId masterQueue (runQueue s))
    as [[messageId|] queue]; cbn [fst snd]; [|now repeat split].
  cbn [prisma set_runQueue].
  destruct (getLatestExecutionSnapshot (prisma s) messageId) as [latest|] eqn:Hlatest;
    [|now repeat split].
  destruct (snap_executionStatus latest) eqn:Hstatus;
    try (cbn [fst snd set_runQueue runQueue prisma worker];
         repeat split; congruence).
  all: unfold createExecutionSnapshot; run_engine.
  all: split; [reflexivity|].
  all: exists messageId, latest.
  all: repeat split; auto.
  all: unfold Worker_enqueue; cbn [job_id]; apply in_or_app; right; now left.
Qed.

End DequeueProperties.

End RunEngineFurther.

Section RunEngineFurtherExamples.

Import RunEngine Examples.

(** X11 at run 1, whose one snapshot was created at 4000, at time 5000. *)
Lemma createExecutionSnapshot_is_latest_witness :
  exists newSnapshot s',
    createExecutionSnapshot 1 TaskRunStatus.WAITING_TO_RESUME
      TaskRunExecutionStatus.QUEUED "Run was QUEUED" (two_parents_waiting None)
    = (Ok newSnapshot, s')
    /\ getLatestExecutionSnapshot (prisma s') 1 = Some newSnapshot.
Proof.
  destruct (createExecutionSnapshot_is_latest 1 TaskRunStatus.WAITING_TO_RESUME
              TaskRunExecutionStatus.QUEUED "Run was QUEUED"
              (two_parents_waiting None))
    as [newSnapshot [s' [Hrun [Hlatest _]]]].
  - intros sn [<- | [<- | []]] _; reflexivity.
  - exists newSnapshot, s'. split; [exact Hrun | exact Hlatest].
Defined.

(** X12 at run 1, executing on worker 7. *)
Lemma continueRun_executing_run_throws_witness :
  exists newSnapshot s',
    continueRun (waiting_run 1) env_prod (two_parents_waiting (Some 7))
    = (Err (NotImplementedError
         "RunEngine.#continueRun(): continue executing run, not implemented yet"),
       s')
    /\ db_taskRunExecutionSnapshot (prisma s')
       = db_taskRunExecutionSnapshot (prisma (two_parents_waiting (Some 7)))
         ++ [newSnapshot]
    /\ snap_executionStatus newSnapshot = TaskRunExecutionStatus.EXECUTING.
Proof.
  destruct (continueRun_executing_run_throws (waiting_run 1) env_prod
              (two_parents_waiting (Some 7)) (executing_snapshot 4 1 (Some 7)))
    as [newSnapshot [s' [Hrun [Hrows [_ [Hstatus _]]]]]].
  - reflexivity.
  - reflexivity.
  - exists newSnapshot, s'. repeat split; assumption.
Defined.

End RunEngineFurtherExamples.

(* ================================================================= *)
(** ** Further properties of trigger *)

Section TriggerFurther.

Import RunEngine.

Variable taskRun_insertable : list TaskRun -> TaskRun -> bool.
Variable parseNaturalLanguageDuration : Z -> string -> option Z.

(** Runs [trigger] symbolically: unfolds its steps and splits on every
    test the parameters and the store decide. *)
Ltac trigger_cases :=
  unfold RunEngine.trigger, taskRun_create, createRunAssociatedWaitpoint,
    blockRunWithWaitpoint, upsertTaskQueue, createDateTimeWaitpoint,
    taskRunWaitpoint_create, enqueueRun, createExecutionSnapshot,
    runQueue_updateQueueConcurrencyLimits,
    runQueue_removeQueueConcurrencyLimits;
  repeat (run_engine; cbn [run_id run_delayUntil run_ttl run_status
                           run_masterQueue wp_id wp_projectId
                           tq_concurrencyLimit tq_name is_some];
          match goal with
          | |- context [match ?x with _ => _ end] =>
              match x with
              | context [match _ with _ => _ end] => fail 1
              | _ => destruct x eqn:?
              end
          end).

Lemma In_Worker_enqueue (j : Job) (jobs : list Job) :
  In j (Worker_enqueue j jobs).
Proof.
  unfold Worker_enqueue. destruct (job_id j); apply in_or_app; right; now left.
Qed.

Lemma In_Worker_enqueue_inv (j j' : Job) (jobs : list Job) :
  In j' (Worker_enqueue j jobs) -> j' = j \/ In j' jobs.
Proof.
  unfold Worker_enqueue. destruct (job_id j); intros Hin;
    apply in_app_or in Hin; destruct Hin as [Hin | [<- | []]]; auto.
  apply filter_In in Hin. tauto.
Qed.

(** X17.  A call of [trigger] without [delayUntil] that returns has
    created a PENDING run and put it on the run queue: one message is
    published, for the new run and to its master queue; the run has two
    snapshots, RUN_CREATED and QUEUED, the second with a stall check
    sixty seconds on; its waitpoint is a pending RUN waitpoint; and no
    run has been blocked. *)
Theorem trigger_enqueues_run
    (p : TriggerParams) (s s' : EngineState) (run : TaskRun) :
  delayUntil p = None ->
  trigger taskRun_insertable parseNaturalLanguageDuration p s = (Ok run, s') ->
  run_status run = TaskRunStatus.PENDING
  /\ (exists timestamp,
        rq_messages (runQueue s')
        = rq_messages (runQueue s)
          ++ [(masterQueue p, message_of run (environment p) timestamp)])
  /\ (exists created queued,
        db_taskRunExecutionSnapshot (prisma s')
        = db_taskRunExecutionSnapshot (prisma s) ++ [created; queued]
        /\ snap_runId created = run_id run
        /\ snap_executionStatus created = TaskRunExecutionStatus.RUN_CREATED
        /\ snap_runId queued = run_id run
        /\ snap_executionStatus queued = TaskRunExecutionStatus.QUEUED
        /\ snap_runStatus queued = TaskRunStatus.PENDING
        /\ In {| job_id := Some (heartbeatSnapshot_id (snap_id queued));
                 job_payload := heartbeatSnapshot (run_id run) (snap_id queued);
                 job_availableAt := Some (now s + 60 * 1000)%Z |}
              (worker s'))
  /\ (exists associated,
        db_waitpoint (prisma s') = db_waitpoint (prisma s) ++ [associated]
        /\ wp_type associated = WaitpointType.RUN
        /\ wp_status associated = WaitpointStatus.PENDING
        /\ wp_completedByTaskRunId associated = Some (run_id run))
  /\ db_taskRunWaitpoint (prisma s') = db_taskRunWaitpoint (prisma s).
Proof.
  intros Hdelay.
  unfold RunEngine.trigger, taskRun_create. rewrite !Hdelay. cbn [is_some].
  trigger_cases.
  all: intros H; try discriminate H.
  all: injection H as <- <-.
  all: run_engine; cbn [run_id run_status run_masterQueue].
  all: split; [reflexivity|]; split; [eexists; reflexivity|].
  all: split;
    [ do 2 eexists; rewrite <- app_assoc; cbn [app];
      split; [reflexivity|]; repeat split; apply In_Worker_enqueue
    | split; [eexists; repeat split | reflexivity] ].
Qed.

(** X18.  A call of [trigger] with [delayUntil] that returns has created
    a DELAYED run and has not put it on the run queue.  The run has its
    RUN_CREATED snapshot only.  Beside its own waitpoint a pending
    DATETIME waitpoint for the date is written, one row blocks the new
    run on it, and the job that completes the waitpoint is scheduled for
    the date.  No other job is scheduled: no stall check and, even with
    a [ttl], no [expireRun]. *)
Theorem trigger_delays_run
    (p : TriggerParams) (s s' : EngineState) (run : TaskRun) (date : Z) :
  delayUntil p = Some date ->
  trigger taskRun_insertable parseNaturalLanguageDuration p s = (Ok run, s') ->
  run_status run = TaskRunStatus.DELAYED
  /\ rq_messages (runQueue s') = rq_messages (runQueue s)
  /\ (exists created,
        db_taskRunExecutionSnapshot (prisma s')
        = db_taskRunExecutionSnapshot (prisma s) ++ [created]
        /\ snap_runId created = run_id run
        /\ snap_executionStatus created = TaskRunExecutionStatus.RUN_CREATED)
  /\ (exists associated delay row,
        db_waitpoint (prisma s') = db_waitpoint (prisma s) ++ [associated; delay]
        /\ wp_type delay = WaitpointType.DATETIME
        /\ wp_status delay = WaitpointStatus.PENDING
        /\ wp_completedAfter delay = Some date
        /\ db_taskRunWaitpoint (prisma s')
           = db_taskRunWaitpoint (prisma s) ++ [row]
        /\ trw_taskRunId row = run_id run
        /\ trw_waitpointId row = wp_id delay
        /\ In {| job_id := Some (waitpointCompleteDateTime_id (wp_id delay));
                 job_payload := waitpointCompleteDateTime (wp_id delay);
                 job_availableAt := Some date |}
              (worker s')
        /\ forall job, In job (worker s') ->
             In job (worker s)
             \/ job_payload job = waitpointCompleteDateTime (wp_id delay)).
Proof.
  intros Hdelay.
  unfold RunEngine.trigger, taskRun_create. rewrite !Hdelay. cbn [is_some].
  trigger_cases.
  all: intros H; try discriminate H.
  all: injection H as <- <-.
  all: run_engine; cbn [run_id run_status run_masterQueue].
  all: split; [reflexivity|]; split; [reflexivity|].
  all: split; [eexists; repeat split|].
  all: do 3 eexists; rewrite <- ?app_assoc; cbn [app].
  all: split; [reflexivity|].
  all: cbn [wp_type wp_status wp_completedAfter wp_id trw_taskRunId
            trw_waitpointId].
  all: repeat split; try apply In_Worker_enqueue.
  all: intros job Hjob; apply In_Worker_enqueue_inv in Hjob;
    destruct Hjob as [-> | Hjob]; [now right | now left].
Qed.

(** X19.  A call of [trigger] that is to make a parent wait never
    returns.  With [resumeParentOnCompletion] and a parent run id, either
    the store refuses the run row and nothing is written, or the call
    throws after the row is written, and what was written stays: the run
    row of the child, with the id of its parent, and its RUN_CREATED
    snapshot are in the store.  In both cases no run is blocked, no job
    is scheduled and nothing is put on the run queue. *)
Theorem trigger_and_wait_never_returns
    (p : TriggerParams) (s : EngineState) (parent : Id) :
  parentTaskRunId p = Some parent ->
  resumeParentOnCompletion p = Some true ->
  let after := trigger taskRun_insertable parseNaturalLanguageDuration p s in
  (forall run, fst after <> Ok run)
  /\ db_taskRunWaitpoint (prisma (snd after)) = db_taskRunWaitpoint (prisma s)
  /\ worker (snd after) = worker s
  /\ runQueue (snd after) = runQueue s
  /\ ((fst after = Err CreateRejected /\ prisma (snd after) = prisma s)
      \/ (exists row created,
            db_taskRun (prisma (snd after)) = db_taskRun (prisma s) ++ [row]
            /\ run_parentTaskRunId row = Some parent
            /\ db_taskRunExecutionSnapshot (prisma (snd after))
               = db_taskRunExecutionSnapshot (prisma s) ++ [created]
            /\ snap_runId created = run_id row
            /\ snap_executionStatus created
               = TaskRunExecutionStatus.RUN_CREATED)).
Proof.
  intros Hparent Hresume. cbv zeta.
  unfold RunEngine.trigger. rewrite Hparent, Hresume. cbn [bool_truthy].
  unfold taskRun_create, createRunAssociatedWaitpoint, blockRunWithWaitpoint.
  rewrite Hparent. run_engine.
  destruct (taskRun_insertable _ _); run_engine.
  - split; [discriminate|]. do 3 (split; [reflexivity|]).
    right. do 2 eexists. repeat split.
  - split; [discriminate|]. do 3 (split; [reflexivity|]).
    left. split; reflexivity.
Qed.

Lemma find_after_filter_negb {A} (test : A -> bool) (l : list A) :
  find test (filter (fun x => negb (test x)) l) = None.
Proof.
  induction l as [|x l IH]; [reflexivity|].
  cbn [filter]. destruct (test x) eqn:E; cbn [negb]; [exact IH|].
  cbn [find]. now rewrite E.
Qed.

Lemma find_replaced {A} (test : A -> bool) (l : list A) (x : A) :
  test x = true ->
  find test (filter (fun y => negb (test y)) l ++ [x]) = Some x.
Proof.
  intros Hx.
  induction l as [|y l IH]; cbn [filter app find]; [now rewrite Hx|].
  destruct (test y) eqn:E; cbn [negb]; [exact IH|].
  cbn [app find]. now rewrite E.
Qed.

Lemma limit_key_eqb_refl (k : string * string) : limit_key_eqb k k = true.
Proof. unfold limit_key_eqb. now rewrite !String.eqb_refl. Qed.

(** X20.  The queue options of a call reach the run queue.  After the
    queue block of [trigger], the run queue holds for the queue of the
    call: the limit given, with a negative limit raised to zero; without
    a limit in the options, the limit of the queue row that was already
    in the store; and no limit when there was no row or the row had no
    limit.  The block never throws. *)
Theorem upsertTaskQueue_sets_limit
    (p : TriggerParams) (queue : QueueOptions) (s : EngineState) :
  fst (upsertTaskQueue p queue s) = Ok tt
  /\ runQueue_limit (runQueue (snd (upsertTaskQueue p queue s)))
       (env_id (environment p)) (queueName p)
     = match qo_concurrencyLimit queue with
       | Some limit => Some (Z.max 0 limit)
       | None =>
           match taskQueue_findFirst (prisma s) (env_id (environment p))
                   (queueName p)
           with
           | Some found => tq_concurrencyLimit found
           | None => None
           end
       end.
Proof.
  unfold upsertTaskQueue, runQueue_updateQueueConcurrencyLimits,
    runQueue_removeQueueConcurrencyLimits, runQueue_limit.
  run_engine.
  destruct (taskQueue_findFirst (prisma s) (env_id (environment p)) (queueName p))
    as [found|] eqn:Hfound; run_engine.
  - assert (Hname : tq_name found = queueName p).
    { unfold taskQueue_findFirst in Hfound. apply find_some in Hfound.
      destruct Hfound as [_ Htest]. apply andb_prop in Htest.
      now apply String.eqb_eq. }
    cbn [taskQueue_updated tq_concurrencyLimit tq_name]. rewrite Hname.
    destruct (qo_concurrencyLimit queue) as [limit|]; cbn [option_map].
    + run_engine. split; [reflexivity|].
      rewrite find_replaced by apply limit_key_eqb_refl. reflexivity.
    + destruct (tq_concurrencyLimit found) as [limit|]; run_engine;
        (split; [reflexivity|]).
      * rewrite find_replaced by apply limit_key_eqb_refl. reflexivity.
      * now rewrite find_after_filter_negb.
  - cbn [tq_concurrencyLimit tq_name].
    destruct (qo_concurrencyLimit queue) as [limit|]; cbn [option_map];
      run_engine; (split; [reflexivity|]).
    + rewrite find_replaced by apply limit_key_eqb_refl. reflexivity.
    + now rewrite find_after_filter_negb.
Qed.

(** *** A delayed run and its waitpoint *)

(** The state a call of [trigger] with [delayUntil] returns in. *)
Lemma trigger_delayed_state
    (p : TriggerParams) (s s' : EngineState) (run : TaskRun) (date : Z) :
  delayUntil p = Some date ->
  trigger taskRun_insertable parseNaturalLanguageDuration p s = (Ok run, s') ->
  run_id run = idSupply s
  /\ run_status run = TaskRunStatus.DELAYED
  /\ db_taskRun (prisma s') = db_taskRun (prisma s) ++ [run]
  /\ rq_messages (runQueue s') = rq_messages (runQueue s)
  /\ exists associated delay row,
       db_waitpoint (prisma s') = db_waitpoint (prisma s) ++ [associated; delay]
       /\ idSupply s <= wp_id associated
       /\ wp_id associated < wp_id delay
       /\ wp_status delay = WaitpointStatus.PENDING
       /\ wp_type delay = WaitpointType.DATETIME
       /\ db_taskRunWaitpoint (prisma s')
          = db_taskRunWaitpoint (prisma s) ++ [row]
       /\ trw_taskRunId row = run_id run
       /\ trw_waitpointId row = wp_id delay
       /\ In {| job_id := Some (waitpointCompleteDateTime_id (wp_id delay));
                job_payload := waitpointCompleteDateTime (wp_id delay);
                job_availableAt := Some date |}
             (worker s').
Proof.
  intros Hdelay.
  unfold RunEngine.trigger, taskRun_create. rewrite !Hdelay. cbn [is_some].
  trigger_cases.
  all: intros H; try discriminate H.
  all: injection H as <- <-.
  all: run_engine; cbn [run_id run_status run_masterQueue].
  all: do 4 (split; [reflexivity|]).
  all: do 3 eexists; rewrite <- ?app_assoc; cbn [app].
  all: split; [reflexivity|].
  all: cbn [wp_type wp_status wp_completedAfter wp_id trw_taskRunId
            trw_waitpointId].
  all: repeat split; try lia; apply In_Worker_enqueue.
Qed.

Lemma find_app_fresh {A} (test : A -> bool) (old new : list A) :
  (forall x, In x old -> test x = false) ->
  find test (old ++ new) = find test new.
Proof.
  intros Hold. induction old as [|x old IH]; [reflexivity|].
  cbn [app find]. rewrite (Hold x) by now left.
  apply IH. intros y Hy. apply Hold. now right.
Qed.

Lemma filter_app_fresh {A} (test : A -> bool) (old new : list A) :
  (forall x, In x old -> test x = false) ->
  filter test (old ++ new) = filter test new.
Proof.
  intros Hold. induction old as [|x old IH]; [reflexivity|].
  cbn [app filter]. rewrite (Hold x) by now left.
  apply IH. intros y Hy. apply Hold. now right.
Qed.

(** Completing a pending waitpoint that blocks only runs that are neither
    PENDING nor WAITING_TO_RESUME: the waitpoint is completed, its rows
    are deleted, and that is all. *)
Lemma completeWaitpoint_nothing_to_resume (id : Id) (s : EngineState)
    (w : Waitpoint) :
  waitpoint_findUnique (prisma s) id = Some w ->
  wp_status w = WaitpointStatus.PENDING ->
  taskRunWaitpoint_findMany (prisma s) id <> [] ->
  (forall r, In r (db_taskRun (prisma s)) ->
     In (run_id r) (taskRunWaitpoint_findMany (prisma s) id) ->
     status_in_PENDING_WAITING_TO_RESUME (run_status r) = false) ->
  completeWaitpoint id s
  = (Ok tt,
     set_prisma
       (waitpoint_complete id (taskRunWaitpoint_deleteMany id (prisma s))) s).
Proof.
  intros Hfind Hstatus Hrows Hruns.
  rewrite (completeWaitpoint_pending id s w Hfind Hstatus).
  destruct (taskRunWaitpoint_findMany (prisma s) id) as [|a affected] eqn:Haffected;
    [contradiction|].
  cbv zeta.
  assert (Hnone : taskRun_findMany_toResume
                    (prisma
                       (set_prisma
                          (waitpoint_complete id
                             (taskRunWaitpoint_deleteMany id (prisma s))) s))
                    (a :: affected) = []).
  { unfold taskRun_findMany_toResume.
    cbn [prisma set_prisma waitpoint_complete taskRunWaitpoint_deleteMany
         set_waitpoint set_taskRunWaitpoint db_taskRun].
    induction (db_taskRun (prisma s)) as [|r rows IH]; [reflexivity|].
    cbn [filter].
    destruct (existsb (Nat.eqb (run_id r)) (a :: affected)) eqn:Ein.
    - apply existsb_exists in Ein. destruct Ein as [x [Hx Ex]].
      apply Nat.eqb_eq in Ex. subst x.
      rewrite (Hruns r) by (auto; now left).
      rewrite andb_false_r. apply IH.
      intros r' Hr'. apply Hruns. now right.
    - cbn [andb]. apply IH. intros r' Hr'. apply Hruns. now right. }
  rewrite Hnone. reflexivity.
Qed.

(** X21.  The delay of a run ends without the run being started.  A run
    triggered with [delayUntil], in a store whose ids all come from the
    id supply, is blocked on a waitpoint whose completion is scheduled
    for the date.  When that job runs [#completeWaitpoint] on it, the
    call returns, the waitpoint is COMPLETED and the run is no longer
    blocked; but the run is still DELAYED and the run queue holds the
    messages it held before the run was triggered, none for this run. *)
Theorem delayed_run_is_not_enqueued_after_delay
    (p : TriggerParams) (s s1 : EngineState) (run : TaskRun) (date : Z) :
  ids_issued s ->
  delayUntil p = Some date ->
  trigger taskRun_insertable parseNaturalLanguageDuration p s = (Ok run, s1) ->
  exists waitpointId s2,
    blocked_by (prisma s1) waitpointId (run_id run)
    /\ In {| job_id := Some (waitpointCompleteDateTime_id waitpointId);
             job_payload := waitpointCompleteDateTime waitpointId;
             job_availableAt := Some date |}
          (worker s1)
    /\ completeWaitpoint waitpointId s1 = (Ok tt, s2)
    /\ (exists w, waitpoint_findUnique (prisma s2) waitpointId = Some w
                  /\ wp_status w = WaitpointStatus.COMPLETED)
    /\ unblocked (prisma s2) (run_id run)
    /\ In run (db_taskRun (prisma s2))
    /\ run_status run = TaskRunStatus.DELAYED
    /\ rq_messages (runQueue s2) = rq_messages (runQueue s).
Proof.
  intros [Hruns [Hwaitpoints Hrows]] Hdelay Htrigger.
  destruct (trigger_delayed_state p s s1 run date Hdelay Htrigger)
    as [Hid [Hstatus [Htable [Hmessages
         [associated [delay [row [Hwps [Hlow [Hlt [Hpending [_
           [Hjoin [HrowRun [HrowWp Hjob]]]]]]]]]]]]]]].
  assert (Hfind : waitpoint_findUnique (prisma s1) (wp_id delay) = Some delay).
  { unfold waitpoint_findUnique. rewrite Hwps.
    rewrite find_app_fresh.
    - cbn [find]. rewrite (proj2 (Nat.eqb_neq _ _)) by lia.
      now rewrite Nat.eqb_refl.
    - intros x Hx. apply Nat.eqb_neq. specialize (Hwaitpoints x Hx). lia. }
  assert (Haffected : taskRunWaitpoint_findMany (prisma s1) (wp_id delay)
                      = [run_id run]).
  { unfold taskRunWaitpoint_findMany. rewrite Hjoin.
    rewrite filter_app_fresh.
    - cbn [filter]. rewrite HrowWp, Nat.eqb_refl. cbn [map]. now rewrite HrowRun.
    - intros x Hx. apply Nat.eqb_neq. destruct (Hrows x Hx). lia. }
  assert (Hcomplete :
            completeWaitpoint (wp_id delay) s1
            = (Ok tt,
               set_prisma
                 (waitpoint_complete (wp_id delay)
                    (taskRunWaitpoint_deleteMany (wp_id delay) (prisma s1))) s1)).
  { apply (completeWaitpoint_nothing_to_resume (wp_id delay) s1 delay Hfind Hpending).
    - rewrite Haffected. discriminate.
    - intros r Hr Hin. rewrite Haffected in Hin. destruct Hin as [Hin | []].
      rewrite Htable in Hr. apply in_app_or in Hr.
      destruct Hr as [Hr | [<- | []]].
      + specialize (Hruns r Hr). lia.
      + now rewrite Hstatus. }
  exists (wp_id delay). eexists.
  split; [|split; [exact Hjob | split; [exact Hcomplete|]]].
  - exists row. rewrite Hjoin. repeat split; auto.
    apply in_or_app. right. now left.
  - cbn [prisma set_prisma runQueue].
    split; [|split; [|split; [|split]]].
    + exists (complete_status delay). split; [|reflexivity].
      rewrite <- (waitpoint_findUnique_completed (wp_id delay)
                    (taskRunWaitpoint_deleteMany (wp_id delay) (prisma s1)) delay).
      * reflexivity.
      * exact Hfind.
    + intros x Hx.
      unfold waitpoint_complete, taskRunWaitpoint_deleteMany in Hx.
      cbn [set_waitpoint set_taskRunWaitpoint db_taskRunWaitpoint] in Hx.
      apply filter_In in Hx. destruct Hx as [Hx Hother].
      rewrite Hjoin in Hx. apply in_app_or in Hx.
      destruct Hx as [Hx | [<- | []]].
      * destruct (Hrows x Hx). lia.
      * rewrite HrowWp, Nat.eqb_refl in Hother. discriminate.
    + unfold waitpoint_complete, taskRunWaitpoint_deleteMany.
      cbn [set_waitpoint set_taskRunWaitpoint db_taskRun].
      rewrite Htable. apply in_or_app. right. now left.
    + exact Hstatus.
    + exact Hmessages.
Qed.

End TriggerFurther.

Section TriggerFurtherExamples.

Import RunEngine Examples.

(** X17 at the first run of an engine that has seen nothing yet. *)
Lemma trigger_enqueues_run_witness :
  exists run s',
    trigger accept_any parse_seconds params_hello engine_0 = (Ok run, s')
    /\ run_status run = TaskRunStatus.PENDING
    /\ exists timestamp,
         rq_messages (runQueue s')
         = rq_messages (runQueue engine_0)
           ++ [(masterQueue params_hello,
                message_of run (environment params_hello) timestamp)].
Proof.
  do 2 eexists. split; [vm_compute; reflexivity|].
  edestruct (trigger_enqueues_run accept_any parse_seconds params_hello engine_0)
    as [Hstatus [Hmessages _]].
  - reflexivity.
  - vm_compute. reflexivity.
  - split; [exact Hstatus | exact Hmessages].
Defined.

(** X18 at a run delayed until 9000, with a ttl. *)
Lemma trigger_delays_run_witness :
  exists run s',
    trigger accept_any parse_seconds params_delayed engine_0 = (Ok run, s')
    /\ run_status run = TaskRunStatus.DELAYED
    /\ rq_messages (runQueue s') = rq_messages (runQueue engine_0).
Proof.
  do 2 eexists. split; [vm_compute; reflexivity|].
  edestruct (trigger_delays_run accept_any parse_seconds params_delayed engine_0)
    as [Hstatus [Hmessages _]].
  - reflexivity.
  - vm_compute. reflexivity.
  - split; [exact Hstatus | exact Hmessages].
Defined.

(** X19 at the child of run 1, triggered to make its parent wait. *)
Lemma trigger_and_wait_never_returns_witness :
  (forall run,
      fst (trigger accept_any parse_seconds params_child engine_with_parent)
      <> Ok run)
  /\ db_taskRunWaitpoint
       (prisma (snd (trigger accept_any parse_seconds params_child
                       engine_with_parent)))
     = db_taskRunWaitpoint (prisma engine_with_parent).
Proof.
  destruct (trigger_and_wait_never_returns accept_any parse_seconds
              params_child engine_with_parent 1 eq_refl eq_refl)
    as [Hnever [Hrows _]].
  split; [exact Hnever | exact Hrows].
Defined.

(** X21 at the same run: its delay waitpoint is completed, the run stays
    off the queue. *)
Lemma delayed_run_is_not_enqueued_after_delay_witness :
  exists run s1 waitpointId s2,
    trigger accept_any parse_seconds params_delayed engine_0 = (Ok run, s1)
    /\ blocked_by (prisma s1) waitpointId (run_id run)
    /\ completeWaitpoint waitpointId s1 = (Ok tt, s2)
    /\ unblocked (prisma s2) (run_id run)
    /\ run_status run = TaskRunStatus.DELAYED
    /\ rq_messages (runQueue s2) = rq_messages (runQueue engine_0).
Proof.
  edestruct (delayed_run_is_not_enqueued_after_delay accept_any parse_seconds
               params_delayed engine_0)
    as [waitpointId [s2 [Hblocked [_ [Hcomplete [_ [Hunblocked [_ [Hstatus Hmessages]]]]]]]]].
  - split; [|split]; intros x Hx; destruct Hx.
  - reflexivity.
  - vm_compute. reflexivity.
  - do 2 eexists. exists waitpointId, s2.
    split; [vm_compute; reflexivity|].
    split; [exact Hblocked|]. split; [exact Hcomplete|].
    split; [exact Hunblocked|]. split; [exact Hstatus | exact Hmessages].
Defined.

End TriggerFurtherExamples.

(* ================================================================= *)
(** ** Further properties of the managed run controller *)

Section RunnerFurther.

Import Runner.

Lemma AttemptNumber_eqb_eq (a b : AttemptNumber) :
  AttemptNumber_eqb a b = true -> a = b.
Proof.
  destruct a as [| |x], b as [| |y]; cbn; try congruence.
  intros H. apply Z.eqb_eq in H. now subst.
Qed.

(** What [updateRunPhase] keeps and what it changes. *)
Lemma updateRunPhase_holds_its_run (run : Run) (snapshot : Snapshot)
    (c : Controller) :
  runFriendlyId (snd (updateRunPhase run snapshot c)) = runFriendlyId c
  /\ heldAttemptNumber (snd (updateRunPhase run snapshot c))
     = heldAttemptNumber c
  /\ handleSnapshotChangeLock (snd (updateRunPhase run snapshot c))
     = handleSnapshotChangeLock c
  /\ waitForNextRunLock (snd (updateRunPhase run snapshot c))
     = waitForNextRunLock c
  /\ taskRunProcess (snd (updateRunPhase run snapshot c)) = taskRunProcess c
  /\ match fst (updateRunPhase run snapshot c) with
     | Some _ => state (snd (updateRunPhase run snapshot c)) = state c
     | None =>
         runFriendlyId c = Some (run_friendlyId run)
         /\ snapshotFriendlyId (snd (updateRunPhase run snapshot c))
            = Some (snapshot_friendlyId snapshot)
     end.
Proof.
  unfold updateRunPhase, runFriendlyId, heldAttemptNumber, snapshotFriendlyId.
  destruct c as [st hl wl hb sp proc eff]. cbn [state].
  destruct st as [| |held heldSnapshot]; cbn; try (repeat split; fail).
  destruct (String.eqb (run_friendlyId held) (run_friendlyId run)) eqn:Erun;
    cbn; [|repeat split].
  apply String.eqb_eq in Erun.
  destruct (String.eqb (snapshot_friendlyId heldSnapshot)
              (snapshot_friendlyId snapshot)) eqn:Esnapshot; cbn.
  - apply String.eqb_eq in Esnapshot. repeat split; congruence.
  - destruct (AttemptNumber_eqb (attemptNumber held) (attemptNumber run))
      eqn:Eattempt; cbn; [|repeat split].
    apply AttemptNumber_eqb_eq in Eattempt. repeat split; congruence.
Qed.

(** X22.  [updateRunPhase] never makes the controller hold another run or
    another attempt: the run id and the attempt number it holds are the
    same before and after, in every phase and whatever is reported.  When
    the method throws, the state is untouched; when it returns, the
    controller holds the reported run under the reported snapshot. *)
Theorem updateRunPhase_keeps_run_and_attempt (run : Run) (snapshot : Snapshot)
    (c : Controller) :
  runFriendlyId (snd (updateRunPhase run snapshot c)) = runFriendlyId c
  /\ heldAttemptNumber (snd (updateRunPhase run snapshot c))
     = heldAttemptNumber c
  /\ match fst (updateRunPhase run snapshot c) with
     | Some _ => state (snd (updateRunPhase run snapshot c)) = state c
     | None =>
         runFriendlyId c = Some (run_friendlyId run)
         /\ snapshotFriendlyId (snd (updateRunPhase run snapshot c))
            = Some (snapshot_friendlyId snapshot)
     end.
Proof.
  destruct (updateRunPhase_holds_its_run run snapshot c)
    as [Hrun [Hattempt [_ [_ [_ Hresult]]]]].
  auto.
Qed.

(** What [waitForNextRun] leaves behind when it is not already waiting. *)
Lemma waitForNextRun_state (c : Controller) :
  waitForNextRunLock c = false ->
  state (waitForNextRun c) = WARM_START
  /\ waitForNextRunLock (waitForNextRun c) = true.
Proof.
  intros Hfree. unfold waitForNextRun. rewrite Hfree.
  unfold enterWarmStartPhase, onExitRunPhase, unsubscribeFromRunNotifications.
  destruct c as [st hl wl hb sp proc eff]. cbn.
  destruct st; cbn; now split.
Qed.

(** X23.  [waitForNextRun], when it is not already in progress, leaves
    the run phase before it polls for the next run: the controller is in
    the warm-start phase and holds the flag; if it held a run, the heartbeat and the snapshot
    poller are stopped and one [run:stop] is sent, for that run; and a
    child process, if there is one, is sent SIGKILL after that. *)
Theorem waitForNextRun_enters_warm_start (c : Controller) :
  waitForNextRunLock c = false ->
  state (waitForNextRun c) = WARM_START
  /\ waitForNextRunLock (waitForNextRun c) = true
  /\ effects (waitForNextRun c)
     = effects c
       ++ match state c with
          | RUN run snapshot =>
              [emit_run_stop (run_friendlyId run) (snapshot_friendlyId snapshot)]
          | _ => []
          end
       ++ (if taskRunProcess c then [process_kill_SIGKILL] else [])
  /\ match state c with
     | RUN _ _ =>
         runHeartbeat (waitForNextRun c) = false
         /\ snapshotPoller (waitForNextRun c) = false
     | _ =>
         runHeartbeat (waitForNextRun c) = runHeartbeat c
         /\ snapshotPoller (waitForNextRun c) = snapshotPoller c
     end.
Proof.
  intros Hfree. unfold waitForNextRun. rewrite Hfree.
  unfold enterWarmStartPhase, onExitRunPhase, unsubscribeFromRunNotifications.
  destruct c as [st hl wl hb sp proc eff]. cbn.
  destruct st; cbn; repeat split; now rewrite <- ?app_assoc.
Qed.

(** X24.  Outside the run phase a snapshot change is ignored: the
    controller stays in the phase it is in, its flags and its services
    are as before, and nothing is asked of the child process. *)
Theorem handleSnapshotChange_outside_run_phase
    (run : Run) (snapshot : Snapshot) (status : ExecutionStatus)
    (completedWaitpoints : list nat) (c : Controller) :
  runFriendlyId c = None ->
  let after := handleSnapshotChange run snapshot status completedWaitpoints c in
  (fst after = AlreadyInProgress \/ fst after = MissingSnapshotId)
  /\ state (snd after) = state c
  /\ handleSnapshotChangeLock (snd after) = handleSnapshotChangeLock c
  /\ waitForNextRunLock (snd after) = waitForNextRunLock c
  /\ runHeartbeat (snd after) = runHeartbeat c
  /\ snapshotPoller (snd after) = snapshotPoller c
  /\ filter process_effect (effects (snd after))
     = filter process_effect (effects c).
Proof.
  unfold runFriendlyId, handleSnapshotChange, snapshotFriendlyId.
  destruct c as [st hl wl hb sp proc eff]. cbn.
  destruct st; [| |discriminate]; intros _;
    destruct hl; cbn; repeat split; auto;
    rewrite filter_app; cbn; now rewrite app_nil_r.
Qed.

(** X25.  A snapshot change never makes the controller hold another run
    or another attempt.  After [handleSnapshotChange], up to the first
    suspension of the branch it takes, whatever is reported and whatever
    the controller was doing, either the state is
    the state before, or the controller is in the warm-start phase, or it
    holds the run and the attempt number it held, the reported run being
    that run, under the reported snapshot. *)
Theorem handleSnapshotChange_holds_its_run
    (run : Run) (snapshot : Snapshot) (status : ExecutionStatus)
    (completedWaitpoints : list nat) (c : Controller) :
  let after :=
    snd (handleSnapshotChange run snapshot status completedWaitpoints c) in
  state after = state c
  \/ state after = WARM_START
  \/ (runFriendlyId c = Some (run_friendlyId run)
      /\ runFriendlyId after = runFriendlyId c
      /\ heldAttemptNumber after = heldAttemptNumber c
      /\ snapshotFriendlyId after = Some (snapshot_friendlyId snapshot)).
Proof.
  cbv zeta. unfold handleSnapshotChange.
  destruct (handleSnapshotChangeLock c) eqn:Hlock; [now left|].
  destruct (snapshotFriendlyId (with_handleSnapshotChangeLock true c))
    as [[|ch held]|] eqn:Hheld; try (now left).
  destruct (String.eqb (String ch held) (snapshot_friendlyId snapshot));
    [now left|].
  set (c1 := perform _ (with_handleSnapshotChangeLock true c)).
  assert (Hc1 : state c1 = state c) by reflexivity.
  assert (Hrun1 : runFriendlyId c1 = runFriendlyId c) by reflexivity.
  assert (Hattempt1 : heldAttemptNumber c1 = heldAttemptNumber c) by reflexivity.
  destruct (updateRunPhase_holds_its_run run snapshot c1)
    as [Hrun [Hattempt [_ [Hwait [_ Hresult]]]]].
  destruct (updateRunPhase run snapshot c1) as [[e|] c2]; cbn [fst snd] in *.
  - (* the update is refused *)
    destruct (waitForNextRunLock c2) eqn:Hfree.
    + left. unfold waitForNextRun. rewrite Hfree. cbn. congruence.
    + right. left. now apply waitForNextRun_state.
  - destruct Hresult as [Hreported Hsnapshot].
    assert (Hkept : forall c3 : Controller,
               state c3 = state c2 ->
               state c3 = state c \/ state c3 = WARM_START
               \/ (runFriendlyId c = Some (run_friendlyId run)
                   /\ runFriendlyId c3 = runFriendlyId c
                   /\ heldAttemptNumber c3 = heldAttemptNumber c
                   /\ snapshotFriendlyId c3 = Some (snapshot_friendlyId snapshot))).
    { intros c3 H3. right. right.
      unfold runFriendlyId, heldAttemptNumber, snapshotFriendlyId in *.
      rewrite H3. repeat split; congruence. }
    destruct status; cbn [react];
      try (apply Hkept; reflexivity);
      try (destruct completedWaitpoints; apply Hkept; reflexivity);
      try (destruct (taskRunProcess c2); apply Hkept; reflexivity).
    + (* SUSPENDED *)
      destruct (waitForNextRunLock c2) eqn:Hfree.
      * apply Hkept. unfold waitForNextRun. now rewrite Hfree.
      * right. left. cbn [state with_handleSnapshotChangeLock].
        now apply waitForNextRun_state.
    + (* EXECUTING *)
      destruct completedWaitpoints; [apply Hkept; reflexivity|].
      destruct (taskRunProcess c2); apply Hkept; reflexivity.
Qed.

(** X26.  After the result of a completed attempt is handled, the
    controller, if it was not already waiting for its next run, is in the
    warm-start phase, except in two cases: the run is pending
    cancellation, or the attempt is retried at once and the completion is
    a failure that carries retry parameters (the handler then sleeps for
    the retry delay).  In those two cases it still holds the run and the
    attempt number it held, under the snapshot of the completion. *)
Theorem handleCompletionResult_phase
    (completion : Completion) (attemptStatus : AttemptStatus) (run : Run)
    (completionSnapshot : Snapshot) (c : Controller) :
  waitForNextRunLock c = false ->
  let after :=
    executeRun_handleCompletionResult completion attemptStatus run
      completionSnapshot c in
  state after = WARM_START
  \/ ((attemptStatus = RUN_PENDING_CANCEL
       \/ (attemptStatus = RETRY_IMMEDIATELY
           /\ completion_ok completion = false
           /\ completion_retry completion <> None))
      /\ runFriendlyId c = Some (run_friendlyId run)
      /\ runFriendlyId after = runFriendlyId c
      /\ heldAttemptNumber after = heldAttemptNumber c
      /\ snapshotFriendlyId after = Some (snapshot_friendlyId completionSnapshot)).
Proof.
  intros Hfree. cbv zeta.
  unfold executeRun_handleCompletionResult, handleCompletionResult.
  destruct (updateRunPhase_holds_its_run run completionSnapshot c)
    as [Hrun [Hattempt [_ [Hwait [_ Hresult]]]]].
  destruct (updateRunPhase run completionSnapshot c) as [[e|] c1];
    cbn [fst snd] in *.
  - left. apply waitForNextRun_state. congruence.
  - destruct Hresult as [Hreported Hsnapshot].
    assert (Hfree1 : waitForNextRunLock c1 = false) by congruence.
    destruct attemptStatus.
    + left. now apply waitForNextRun_state.
    + right. repeat split; auto.
    + left. now apply waitForNextRun_state.
    + destruct (completion_ok completion) eqn:Hok.
      * left. now apply waitForNextRun_state.
      * destruct (completion_retry completion) as [delay|] eqn:Hretry.
        -- right. split; [|repeat split; auto].
           right. repeat split. discriminate.
        -- left. now apply waitForNextRun_state.
Qed.

End RunnerFurther.

Section RunnerFurtherExamples.

Import Runner Examples.

(** X23 at a controller that executes run [run_1]. *)
Lemma waitForNextRun_enters_warm_start_witness :
  state (waitForNextRun (executing_controller false)) = WARM_START
  /\ effects (waitForNextRun (executing_controller false))
     = [emit_run_stop "run_1" "snapshot_1"; process_kill_SIGKILL].
Proof.
  destruct (waitForNextRun_enters_warm_start (executing_controller false) eq_refl)
    as [Hstate [_ [Heffects _]]].
  split; [exact Hstate | exact Heffects].
Defined.

(** X24 at a controller between two runs. *)
Lemma handleSnapshotChange_outside_run_phase_witness :
  fst (handleSnapshotChange reported_run reported_snapshot EXECUTING [1]
         warm_controller)
  = MissingSnapshotId
  /\ state (snd (handleSnapshotChange reported_run reported_snapshot EXECUTING [1]
                   warm_controller))
     = WARM_START.
Proof.
  destruct (handleSnapshotChange_outside_run_phase reported_run reported_snapshot
              EXECUTING [1] warm_controller eq_refl)
    as [_ [Hstate _]].
  split; [reflexivity | exact Hstate].
Defined.

(** X26 at a run that finished. *)
Lemma handleCompletionResult_phase_witness :
  state (executeRun_handleCompletionResult
           {| completion_ok := true; completion_retry := None |}
           RUN_FINISHED
           {| run_friendlyId := "run_1"; attemptNumber := attempt_number 1 |}
           reported_snapshot (executing_controller false))
  = WARM_START.
Proof.
  destruct (handleCompletionResult_phase
              {| completion_ok := true; completion_retry := None |}
              RUN_FINISHED
              {| run_friendlyId := "run_1"; attemptNumber := attempt_number 1 |}
              reported_snapshot (executing_controller false) eq_refl)
    as [Hwarm | [[Hcancel | [Hretry _]] _]].
  - exact Hwarm.
  - discriminate Hcancel.
  - discriminate Hretry.
Defined.

End RunnerFurtherExamples.
